(** * School records API: the three Express back ends, embedded and verified

    The repository holds the same REST service three times:

    - [JsonFileApi]: [src/index.js], first part.  Four in-memory arrays
      loaded from JSON files, one hand-rolled [next...Id] counter per array,
      every write followed by [saveJson].
    - [CounterApi]: [src/unnamed/part_000].  MongoDB collections with a
      numeric [id] field drawn from the [counters] collection by [getNextId].
    - [ObjectIdApi]: [src/index.js], second part.  MongoDB collections keyed
      by the store's own [_id].

    Each route handler is a function from the request (path parameter, parsed
    body) and the state to the response handed to [res.json] (if any) and the
    state afterwards.

    Conventions of the embedding.
    - A JavaScript number is an IEEE-754 binary64 value ([spec_float] with
      precision 53, [emax] 1024); arithmetic rounds as the language does.
    - A stored identifier or reference is integer valued and is carried as
      the integer it denotes ([Z]); a number that comes from a request is
      compared with it by exact value ([JS.strict_equals_id]).  The
      precision limit of doubles on integers (2^53) is not modelled.
    - A request body is a parsed JSON object whose fields hold scalars
      (null, booleans, numbers, strings); an absent field reads [undefined].
    - [Number] applied to a string is the language's [StringToNumber], taken
      as a parameter; [mongoose.isValidObjectId] and the cast to an ObjectId
      are a parameter of [ObjectIdApi].
    - [toString()] of a number, which Mongoose applies to a number assigned
      to a [String] path, is the language's [Number::toString], taken as a
      parameter as well.
    - A response is the status and the value handed to [res.json], before
      serialisation ([JS.JSON_value] is what serialisation makes of a
      member); a handler that hands nothing to [res.json] answers [None].
    - The persistence engine is the collaborator the handlers call:
      collections are lists in insertion order, a query returns the first
      match, [save] writes the document back in place, and a handler runs
      to its end before the next request is served.  What the schemas of
      the two MongoDB variants make Mongoose do is part of the model
      ([Mongoose]): the cast of a [String] path, the validation that
      [create] and [save] run before they write, and the cast of a query
      condition, which rejects [NaN].  A document is held as Mongoose
      hydrates it.  The bookkeeping fields ([_id] and [__v] in the counter
      variant, [__v], [createdAt] and [updatedAt] in the ObjectId variant),
      the unique index on [id], which is the database's to build and to
      keep, and failures of the connection are outside the model. *)

From Stdlib Require Import ZArith List String Bool Lia Permutation Sorted.
From Stdlib Require Import Floats.SpecFloat.
Import ListNotations.
Local Open Scope string_scope.
Local Open Scope Z_scope.

(** ** JavaScript values *)

Module JS.

Definition num := spec_float.

Definition prec : Z := 53.
Definition emax : Z := 1024.

Definition NaN : num := S754_nan.
Definition add : num -> num -> num := SFadd prec emax.
Definition mul : num -> num -> num := SFmul prec emax.
Definition div : num -> num -> num := SFdiv prec emax.

(** The double nearest to an integer (the integer itself up to 2^53). *)
Definition of_Z (z : Z) : num := binary_normalize prec emax z 0 false.

Definition isNaN (n : num) : bool :=
  match n with S754_nan => true | _ => false end.

(** The integer a double denotes, when it denotes one. *)
Definition integer_value (n : num) : option Z :=
  match n with
  | S754_zero _ => Some 0
  | S754_finite s m e =>
      match e with
      | Zneg p =>
          if Zpos m mod 2 ^ Zpos p =? 0
          then Some (cond_Zopp s (Zpos m / 2 ^ Zpos p))
          else None
      | _ => Some (cond_Zopp s (Zpos m * 2 ^ e))
      end
  | _ => None
  end.

(** [stored === n] for an integer-valued stored number [stored]: [NaN],
    infinities and fractions equal no identifier, [-0] equals [0]. *)
Definition strict_equals_id (stored : Z) (n : num) : bool :=
  match integer_value n with
  | Some z => stored =? z
  | None => false
  end.

(** A number that passed an existence check, as the stored reference. *)
Definition as_id (n : num) : Z :=
  match integer_value n with
  | Some z => z
  | None => 0
  end.

Inductive value :=
| undefined
| null
| Bool (b : bool)
| Num (n : num)
| Str (s : string).

Definition is_undefined (v : value) : bool :=
  match v with undefined => true | _ => false end.

(** ToBoolean: [undefined], [null], [false], [+0], [-0], [NaN] and the empty
    string are falsy. *)
Definition truthy (v : value) : bool :=
  match v with
  | undefined | null => false
  | Bool b => b
  | Num (S754_zero _) | Num S754_nan => false
  | Num _ => true
  | Str s => negb (s =? "")%string
  end.

(** [!v] *)
Definition not (v : value) : bool := negb (truthy v).

(** [v || d] *)
Definition or (v d : value) : value := if truthy v then v else d.

Section Coercion.
Variable StringToNumber : string -> num.

(** [Number(v)] *)
Definition Number (v : value) : num :=
  match v with
  | undefined => NaN
  | null => of_Z 0
  | Bool true => of_Z 1
  | Bool false => of_Z 0
  | Num n => n
  | Str s => StringToNumber s
  end.

End Coercion.

(** What [JSON.stringify] makes of a member, as [JSON.parse] reads it back:
    a [NaN] or an infinity is written [null], [-0] is written [0], a member
    that is [undefined] is left out; anything else is written as it is. *)
Definition JSON_value (v : value) : value :=
  match v with
  | Num S754_nan | Num (S754_infinity _) => null
  | Num (S754_zero _) => Num (S754_zero false)
  | _ => v
  end.

(** A parsed JSON object: field name to value, [undefined] when absent. *)
Definition object := string -> value.

Definition empty_object : object := fun _ => undefined.

(** [{ ...o, k: v }] *)
Definition with_field (k : string) (v : value) (o : object) : object :=
  fun f => if (f =? k)%string then v else o f.

(** [array.find(p)] is [List.find]; [array.some(p)] is [existsb];
    [array.filter(p)] is [filter]; [array.map(f)] is [map];
    [array.reduce(f, a)] is [fold_left f array a]. *)

(** The array after [found.field = ...] on the element [array.find(p)]
    returned: the first element satisfying [p] is replaced. *)
Fixpoint assign_first {A} (p : A -> bool) (x' : A) (l : list A) : list A :=
  match l with
  | [] => []
  | x :: l' => if p x then x' :: l' else x :: assign_first p x' l'
  end.

(** [array.splice(array.findIndex(p), 1)] when the index is not -1. *)
Fixpoint remove_first {A} (p : A -> bool) (l : list A) : list A :=
  match l with
  | [] => []
  | x :: l' => if p x then l' else x :: remove_first p l'
  end.

(** An unsigned decimal integer literal read as a number, the empty string
    as 0, anything else as [NaN]: [StringToNumber] on the strings the
    evaluated examples use. *)
Definition digit_value (c : Ascii.ascii) : option Z :=
  let n := Z.of_nat (Ascii.nat_of_ascii c) in
  if (48 <=? n) && (n <=? 57) then Some (n - 48) else None.

Fixpoint decimal_digits (acc : Z) (s : string) : option Z :=
  match s with
  | EmptyString => Some acc
  | String c s' =>
      match digit_value c with
      | Some d => decimal_digits (10 * acc + d) s'
      | None => None
      end
  end.

Definition decimal_StringToNumber (s : string) : num :=
  match decimal_digits 0 s with
  | Some z => of_Z z
  | None => NaN
  end.

(** An integer printed in decimal, [NaN] and the infinities by their names:
    [Number::toString] on the numbers the evaluated examples use (integers
    of fewer than 22 digits). *)
Fixpoint decimal_digits_of (fuel : nat) (z : Z) (acc : string) : string :=
  match fuel with
  | O => acc
  | S fuel' =>
      let acc' := String (Ascii.ascii_of_nat (Z.to_nat (48 + z mod 10))) acc in
      if z <? 10 then acc' else decimal_digits_of fuel' (z / 10) acc'
  end.

Definition decimal_NumberToString (n : num) : string :=
  match n with
  | S754_nan => "NaN"
  | S754_infinity false => "Infinity"
  | S754_infinity true => "-Infinity"
  | _ =>
      match integer_value n with
      | Some z =>
          if 0 <=? z then decimal_digits_of 22 z ""
          else "-" ++ decimal_digits_of 22 (- z) ""
      | None => ""
      end
  end.

End JS.

Import JS(num, value(..), object).

(** ** Stored entities (JSON and counter variants) *)

Module Teacher.
Record t := mk {
  id : Z;
  firstName : value;
  lastName : value;
  email : value;
  department : value
}.
Definition set_firstName v x := mk (id x) v (lastName x) (email x) (department x).
Definition set_lastName v x := mk (id x) (firstName x) v (email x) (department x).
Definition set_email v x := mk (id x) (firstName x) (lastName x) v (department x).
Definition set_department v x := mk (id x) (firstName x) (lastName x) (email x) v.
End Teacher.

Module Course.
Record t := mk {
  id : Z;
  code : value;
  name : value;
  teacherId : Z;
  semester : value;
  room : value;
  schedule : value
}.
Definition set_code v x :=
  mk (id x) v (name x) (teacherId x) (semester x) (room x) (schedule x).
Definition set_name v x :=
  mk (id x) (code x) v (teacherId x) (semester x) (room x) (schedule x).
Definition set_teacherId v x :=
  mk (id x) (code x) (name x) v (semester x) (room x) (schedule x).
Definition set_semester v x :=
  mk (id x) (code x) (name x) (teacherId x) v (room x) (schedule x).
Definition set_room v x :=
  mk (id x) (code x) (name x) (teacherId x) (semester x) v (schedule x).
Definition set_schedule v x :=
  mk (id x) (code x) (name x) (teacherId x) (semester x) (room x) v.
End Course.

Module Student.
Record t := mk {
  id : Z;
  firstName : value;
  lastName : value;
  grade : value;
  studentNumber : value;
  homeroom : value
}.
Definition set_firstName v x :=
  mk (id x) v (lastName x) (grade x) (studentNumber x) (homeroom x).
Definition set_lastName v x :=
  mk (id x) (firstName x) v (grade x) (studentNumber x) (homeroom x).
Definition set_grade v x :=
  mk (id x) (firstName x) (lastName x) v (studentNumber x) (homeroom x).
Definition set_studentNumber v x :=
  mk (id x) (firstName x) (lastName x) (grade x) v (homeroom x).
Definition set_homeroom v x :=
  mk (id x) (firstName x) (lastName x) (grade x) (studentNumber x) v.
End Student.

Module Test.
Record t := mk {
  id : Z;
  studentId : Z;
  courseId : Z;
  testName : value;
  date : value;
  mark : num;
  outOf : num;
  weight : num
}.
Definition set_studentId v x :=
  mk (id x) v (courseId x) (testName x) (date x) (mark x) (outOf x) (weight x).
Definition set_courseId v x :=
  mk (id x) (studentId x) v (testName x) (date x) (mark x) (outOf x) (weight x).
Definition set_testName v x :=
  mk (id x) (studentId x) (courseId x) v (date x) (mark x) (outOf x) (weight x).
Definition set_date v x :=
  mk (id x) (studentId x) (courseId x) (testName x) v (mark x) (outOf x) (weight x).
Definition set_mark v x :=
  mk (id x) (studentId x) (courseId x) (testName x) (date x) v (outOf x) (weight x).
Definition set_outOf v x :=
  mk (id x) (studentId x) (courseId x) (testName x) (date x) (mark x) v (weight x).
Definition set_weight v x :=
  mk (id x) (studentId x) (courseId x) (testName x) (date x) (mark x) (outOf x) v.
End Test.

(** ** Responses *)

(** What a handler hands to [res.json], by shape.  [server_error] is
    [{ error: "Server error", details: err.message }], the text of [details]
    left out. *)
Inductive json :=
| error (message : string)
| a_teacher (t : Teacher.t)
| teacher_list (l : list Teacher.t)
| a_course (c : Course.t)
| course_list (l : list Course.t)
| a_student (s : Student.t)
| student_list (l : list Student.t)
| a_test (t : Test.t)
| test_list (l : list Test.t)
| student_average (studentId : num) (testCount : nat) (average : value)
| course_average (courseId : num) (testCount : nat) (average : value)
| server_error.

Record response := { status : Z; body : json }.

(** [res.status(n).json(b)]; [res.json(b)] is status 200. *)
Definition res_status_json (n : Z) (b : json) : option response :=
  Some {| status := n; body := b |}.
Definition res_json (b : json) : option response := res_status_json 200 b.

(** [if (v !== undefined) x.field = coerce(v)] *)
Definition assign_if_defined {A B} (v : value) (coerce : value -> B)
    (set : B -> A -> A) (x : A) : A :=
  if JS.is_undefined v then x else set (coerce v) x.

Definition keep (v : value) : value := v.

(** The four resource paths, [/teachers], [/courses], [/students], [/tests]. *)
Inductive resource := Teachers | Courses | Students | Tests.

(** The two aggregation routes, [/students/:id/average] and
    [/courses/:id/average]. *)
Inductive aggregate := of_student | of_course.

(** The entity a response carries, read as the object [res.json] was given:
    [entity_field f j] is [j[f]]. *)
Definition teacher_field (f : string) (x : Teacher.t) : value :=
  if (f =? "id")%string then Num (JS.of_Z (Teacher.id x))
  else if (f =? "firstName")%string then Teacher.firstName x
  else if (f =? "lastName")%string then Teacher.lastName x
  else if (f =? "email")%string then Teacher.email x
  else if (f =? "department")%string then Teacher.department x
  else undefined.

Definition course_field (f : string) (x : Course.t) : value :=
  if (f =? "id")%string then Num (JS.of_Z (Course.id x))
  else if (f =? "code")%string then Course.code x
  else if (f =? "name")%string then Course.name x
  else if (f =? "teacherId")%string then Num (JS.of_Z (Course.teacherId x))
  else if (f =? "semester")%string then Course.semester x
  else if (f =? "room")%string then Course.room x
  else if (f =? "schedule")%string then Course.schedule x
  else undefined.

Definition student_field (f : string) (x : Student.t) : value :=
  if (f =? "id")%string then Num (JS.of_Z (Student.id x))
  else if (f =? "firstName")%string then Student.firstName x
  else if (f =? "lastName")%string then Student.lastName x
  else if (f =? "grade")%string then Student.grade x
  else if (f =? "studentNumber")%string then Student.studentNumber x
  else if (f =? "homeroom")%string then Student.homeroom x
  else undefined.

Definition test_field (f : string) (x : Test.t) : value :=
  if (f =? "id")%string then Num (JS.of_Z (Test.id x))
  else if (f =? "studentId")%string then Num (JS.of_Z (Test.studentId x))
  else if (f =? "courseId")%string then Num (JS.of_Z (Test.courseId x))
  else if (f =? "testName")%string then Test.testName x
  else if (f =? "date")%string then Test.date x
  else if (f =? "mark")%string then Num (Test.mark x)
  else if (f =? "outOf")%string then Num (Test.outOf x)
  else if (f =? "weight")%string then Num (Test.weight x)
  else undefined.

Definition entity_field (f : string) (j : json) : value :=
  match j with
  | a_teacher x => teacher_field f x
  | a_course x => course_field f x
  | a_student x => student_field f x
  | a_test x => test_field f x
  | _ => undefined
  end.

(** The requests of a list served one after the other by [app]: the
    responses, in order, and the last state. *)
Fixpoint serve {request state : Type} (app : request -> state -> option response * state)
    (rs : list request) (s : state) : list (option response) * state :=
  match rs with
  | [] => ([], s)
  | r :: rs' =>
      let (o, s1) := app r s in
      let (os, s2) := serve app rs' s1 in
      (o :: os, s2)
  end.

(** The identifier a response announces for a new record of a kind: that of
    the entity of a 201. *)
Definition allocated (k : resource) (o : option response) : option Z :=
  match o with
  | Some r =>
      if status r =? 201
      then match k, body r with
           | Teachers, a_teacher t => Some (Teacher.id t)
           | Courses, a_course c => Some (Course.id c)
           | Students, a_student x => Some (Student.id x)
           | Tests, a_test t => Some (Test.id t)
           | _, _ => None
           end
      else None
  | None => None
  end.

Definition allocations (k : resource) (os : list (option response)) : list Z :=
  flat_map (fun o => match allocated k o with Some i => [i] | None => [] end) os.

(** The identifiers of a collection are pairwise distinct and below the
    next one the counter gives. *)
Definition fresh_in (ids : list Z) (next : Z) : Prop :=
  NoDup ids /\ Forall (fun i => i < next) ids.

(** What one request does to the identifiers of a kind and to its counter:
    nothing is allocated and no identifier is added (the counter does not
    go back), or the counter's value is allocated, appended and stepped. *)
Definition step_effect (ids : list Z) (next : Z) (alloc : option Z)
    (ids' : list Z) (next' : Z) : Prop :=
  (alloc = None /\ next <= next' /\ incl ids' ids /\ (NoDup ids -> NoDup ids'))
  \/ (alloc = Some next /\ next' = next + 1 /\ ids' = (ids ++ [next])%list).

(** [percentages.reduce((a, b) => a + b, 0) / percentages.length] over
    [tests.map(t => (t.mark / t.outOf) * 100)] *)
Definition percentage (t : Test.t) : num :=
  JS.mul (JS.div (Test.mark t) (Test.outOf t)) (JS.of_Z 100).

Definition length_number {A} (l : list A) : num :=
  JS.of_Z (Z.of_nat (List.length l)).

Definition average_of (tests : list Test.t) : num :=
  let percentages := map percentage tests in
  JS.div (fold_left JS.add percentages (JS.of_Z 0)) (length_number percentages).

(** ** The JSON-file variant ([src/index.js], lines 1-435) *)

Module JsonFileApi.

(** The four arrays and counters of the process, and the four files. *)
Record state := mk_state {
  teachers : list Teacher.t;
  courses : list Course.t;
  students : list Student.t;
  tests : list Test.t;
  nextTeachersId : Z;
  nextCoursesId : Z;
  nextStudentsId : Z;
  nextTestsId : Z;
  teachers_file : list Teacher.t;
  courses_file : list Course.t;
  students_file : list Student.t;
  tests_file : list Test.t
}.

Definition set_teachers v s :=
  mk_state v (courses s) (students s) (tests s)
    (nextTeachersId s) (nextCoursesId s) (nextStudentsId s) (nextTestsId s)
    (teachers_file s) (courses_file s) (students_file s) (tests_file s).
Definition set_courses v s :=
  mk_state (teachers s) v (students s) (tests s)
    (nextTeachersId s) (nextCoursesId s) (nextStudentsId s) (nextTestsId s)
    (teachers_file s) (courses_file s) (students_file s) (tests_file s).
Definition set_students v s :=
  mk_state (teachers s) (courses s) v (tests s)
    (nextTeachersId s) (nextCoursesId s) (nextStudentsId s) (nextTestsId s)
    (teachers_file s) (courses_file s) (students_file s) (tests_file s).
Definition set_tests v s :=
  mk_state (teachers s) (courses s) (students s) v
    (nextTeachersId s) (nextCoursesId s) (nextStudentsId s) (nextTestsId s)
    (teachers_file s) (courses_file s) (students_file s) (tests_file s).
Definition set_nextTeachersId v s :=
  mk_state (teachers s) (courses s) (students s) (tests s)
    v (nextCoursesId s) (nextStudentsId s) (nextTestsId s)
    (teachers_file s) (courses_file s) (students_file s) (tests_file s).
Definition set_nextCoursesId v s :=
  mk_state (teachers s) (courses s) (students s) (tests s)
    (nextTeachersId s) v (nextStudentsId s) (nextTestsId s)
    (teachers_file s) (courses_file s) (students_file s) (tests_file s).
Definition set_nextStudentsId v s :=
  mk_state (teachers s) (courses s) (students s) (tests s)
    (nextTeachersId s) (nextCoursesId s) v (nextTestsId s)
    (teachers_file s) (courses_file s) (students_file s) (tests_file s).
Definition set_nextTestsId v s :=
  mk_state (teachers s) (courses s) (students s) (tests s)
    (nextTeachersId s) (nextCoursesId s) (nextStudentsId s) v
    (teachers_file s) (courses_file s) (students_file s) (tests_file s).

(** [saveJson(teachers_file, teachers)] and its three siblings. *)
Definition saveJson_teachers s :=
  mk_state (teachers s) (courses s) (students s) (tests s)
    (nextTeachersId s) (nextCoursesId s) (nextStudentsId s) (nextTestsId s)
    (teachers s) (courses_file s) (students_file s) (tests_file s).
Definition saveJson_courses s :=
  mk_state (teachers s) (courses s) (students s) (tests s)
    (nextTeachersId s) (nextCoursesId s) (nextStudentsId s) (nextTestsId s)
    (teachers_file s) (courses s) (students_file s) (tests_file s).
Definition saveJson_students s :=
  mk_state (teachers s) (courses s) (students s) (tests s)
    (nextTeachersId s) (nextCoursesId s) (nextStudentsId s) (nextTestsId s)
    (teachers_file s) (courses_file s) (students s) (tests_file s).
Definition saveJson_tests s :=
  mk_state (teachers s) (courses s) (students s) (tests s)
    (nextTeachersId s) (nextCoursesId s) (nextStudentsId s) (nextTestsId s)
    (teachers_file s) (courses_file s) (students_file s) (tests s).

(** [array.reduce((max, x) => Math.max(max, x.id), 0) + 1] *)
Definition next_after {A} (id : A -> Z) (l : list A) : Z :=
  fold_left (fun max x => Z.max max (id x)) l 0 + 1.

(** Module load: [loadJson] of each file (an absent file reads as the empty
    array), then the four counters. *)
Definition startup (teachers_json : list Teacher.t) (courses_json : list Course.t)
    (students_json : list Student.t) (tests_json : list Test.t) : state :=
  mk_state teachers_json courses_json students_json tests_json
    (next_after Teacher.id teachers_json) (next_after Course.id courses_json)
    (next_after Student.id students_json) (next_after Test.id tests_json)
    teachers_json courses_json students_json tests_json.

Definition result := (option response * state)%type.

(** The routes of the application. *)
Inductive request :=
| GET (k : resource)
| GET_id (k : resource) (params_id : string)
| POST (k : resource) (req_body : object)
| PUT_id (k : resource) (params_id : string) (req_body : object)
| DELETE_id (k : resource) (params_id : string)
| GET_courses_id_average (params_id : string).

(** The identifiers in an array and the counter that goes with it. *)
Definition ids (k : resource) (s : state) : list Z :=
  match k with
  | Teachers => map Teacher.id (teachers s)
  | Courses => map Course.id (courses s)
  | Students => map Student.id (students s)
  | Tests => map Test.id (tests s)
  end.

Definition next_id (k : resource) (s : state) : Z :=
  match k with
  | Teachers => nextTeachersId s
  | Courses => nextCoursesId s
  | Students => nextStudentsId s
  | Tests => nextTestsId s
  end.

Section Handlers.
Variable StringToNumber : string -> num.
Local Abbreviation Number := (JS.Number StringToNumber).

(** [GET /teachers]: the body of the handler is commented out. *)
Definition get_teachers (s : state) : result := (None, s).

(** [GET /teachers/:id]: the answer for a teacher that is found is commented
    out as well. *)
Definition get_teachers_id (params_id : string) (s : state) : result :=
  let id := Number (Str params_id) in
  match find (fun t => JS.strict_equals_id (Teacher.id t) id) (teachers s) with
  | None => (res_status_json 404 (error "Teacher not found"), s)
  | Some teacher => (None, s)
  end.

Definition post_teachers (req_body : object) (s : state) : result :=
  let firstName := req_body "firstName" in
  let lastName := req_body "lastName" in
  let email := req_body "email" in
  let department := req_body "department" in
  if JS.not firstName || JS.not lastName || JS.not email || JS.not department
  then (res_status_json 400 (error "Missing required fields"), s)
  else
    let newTeacher := Teacher.mk (nextTeachersId s) firstName lastName email department in
    let s := set_nextTeachersId (nextTeachersId s + 1) s in
    let s := set_teachers (teachers s ++ [newTeacher]) s in
    let s := saveJson_teachers s in
    (res_status_json 201 (a_teacher newTeacher), s).

Definition put_teachers_id (params_id : string) (req_body : object) (s : state) : result :=
  let id := Number (Str params_id) in
  let this := fun t => JS.strict_equals_id (Teacher.id t) id in
  match find this (teachers s) with
  | None => (res_status_json 404 (error "Teacher not found"), s)
  | Some teacher =>
      let firstName := req_body "firstName" in
      let lastName := req_body "lastName" in
      let email := req_body "email" in
      let department := req_body "department" in
      if JS.not firstName && JS.not lastName && JS.not email && JS.not department
      then (res_status_json 400 (error "No fields provided to update"), s)
      else
        let teacher := assign_if_defined firstName keep Teacher.set_firstName teacher in
        let teacher := assign_if_defined lastName keep Teacher.set_lastName teacher in
        let teacher := assign_if_defined email keep Teacher.set_email teacher in
        let teacher := assign_if_defined department keep Teacher.set_department teacher in
        let s := set_teachers (JS.assign_first this teacher (teachers s)) s in
        let s := saveJson_teachers s in
        (res_json (a_teacher teacher), s)
  end.

(** [DELETE /teachers/:id]: the check for referencing courses is a TODO. *)
Definition delete_teachers_id (params_id : string) (s : state) : result :=
  let id := Number (Str params_id) in
  let this := fun t => JS.strict_equals_id (Teacher.id t) id in
  match find this (teachers s) with
  | None => (res_status_json 404 (error "Teacher not found"), s)
  | Some deleted =>
      let s := set_teachers (JS.remove_first this (teachers s)) s in
      let s := saveJson_teachers s in
      (res_json (a_teacher deleted), s)
  end.

Definition get_courses (s : state) : result :=
  (res_json (course_list (courses s)), s).

Definition get_courses_id (params_id : string) (s : state) : result :=
  let id := Number (Str params_id) in
  match find (fun c => JS.strict_equals_id (Course.id c) id) (courses s) with
  | None => (res_status_json 404 (error "Course not found"), s)
  | Some course => (res_json (a_course course), s)
  end.

Definition post_courses (req_body : object) (s : state) : result :=
  let code := req_body "code" in
  let name := req_body "name" in
  let teacherId := req_body "teacherId" in
  let semester := req_body "semester" in
  let room := req_body "room" in
  if JS.not code || JS.not name || JS.not teacherId || JS.not semester || JS.not room
  then (res_status_json 400 (error "Missing required fields"), s)
  else
    match find (fun t => JS.strict_equals_id (Teacher.id t) (Number teacherId)) (teachers s) with
    | None => (res_status_json 400 (error "teacherId is invalid!"), s)
    | Some teacher =>
        let newCourse :=
          Course.mk (nextCoursesId s) code name (JS.as_id (Number teacherId))
            semester room undefined in
        let s := set_nextCoursesId (nextCoursesId s + 1) s in
        let s := set_courses (courses s ++ [newCourse]) s in
        let s := saveJson_courses s in
        (res_status_json 201 (a_course newCourse), s)
    end.

Definition put_courses_id (params_id : string) (req_body : object) (s : state) : result :=
  let id := Number (Str params_id) in
  let this := fun c => JS.strict_equals_id (Course.id c) id in
  match find this (courses s) with
  | None => (res_status_json 404 (error "Course not found"), s)
  | Some course =>
      let code := req_body "code" in
      let name := req_body "name" in
      let teacherId := req_body "teacherId" in
      let semester := req_body "semester" in
      let room := req_body "room" in
      if JS.not code && JS.not name && JS.not teacherId && JS.not semester && JS.not room
      then (res_status_json 400 (error "No fields provided to update"), s)
      else
        if negb (JS.is_undefined teacherId)
           && negb (existsb (fun t => JS.strict_equals_id (Teacher.id t) (Number teacherId))
                      (teachers s))
        then (res_status_json 400 (error "teacherId is invalid!"), s)
        else
          let course :=
            assign_if_defined teacherId (fun v => JS.as_id (Number v))
              Course.set_teacherId course in
          let course := assign_if_defined code keep Course.set_code course in
          let course := assign_if_defined name keep Course.set_name course in
          let course := assign_if_defined semester keep Course.set_semester course in
          let course := assign_if_defined room keep Course.set_room course in
          let s := set_courses (JS.assign_first this course (courses s)) s in
          let s := saveJson_courses s in
          (res_json (a_course course), s)
  end.

(** [DELETE /courses/:id]: the check for tests of the course is a TODO. *)
Definition delete_courses_id (params_id : string) (s : state) : result :=
  let id := Number (Str params_id) in
  let this := fun c => JS.strict_equals_id (Course.id c) id in
  match find this (courses s) with
  | None => (res_status_json 404 (error "Course not found"), s)
  | Some deleted =>
      let s := set_courses (JS.remove_first this (courses s)) s in
      let s := saveJson_courses s in
      (res_json (a_course deleted), s)
  end.

Definition get_students (s : state) : result :=
  (res_json (student_list (students s)), s).

Definition get_students_id (params_id : string) (s : state) : result :=
  let id := Number (Str params_id) in
  match find (fun x => JS.strict_equals_id (Student.id x) id) (students s) with
  | None => (res_status_json 404 (error "Student not found"), s)
  | Some student => (res_json (a_student student), s)
  end.

Definition post_students (req_body : object) (s : state) : result :=
  let firstName := req_body "firstName" in
  let lastName := req_body "lastName" in
  let grade := req_body "grade" in
  let studentNumber := req_body "studentNumber" in
  if JS.not firstName || JS.not lastName || JS.not grade || JS.not studentNumber
  then (res_status_json 400 (error "Missing required fields"), s)
  else
    let newStudent :=
      Student.mk (nextStudentsId s) firstName lastName grade studentNumber undefined in
    let s := set_nextStudentsId (nextStudentsId s + 1) s in
    let s := set_students (students s ++ [newStudent]) s in
    let s := saveJson_students s in
    (res_status_json 201 (a_student newStudent), s).

Definition put_students_id (params_id : string) (req_body : object) (s : state) : result :=
  let id := Number (Str params_id) in
  let this := fun x => JS.strict_equals_id (Student.id x) id in
  match find this (students s) with
  | None => (res_status_json 404 (error "Student not found"), s)
  | Some student =>
      let firstName := req_body "firstName" in
      let lastName := req_body "lastName" in
      let grade := req_body "grade" in
      let studentNumber := req_body "studentNumber" in
      let homeroom := req_body "homeroom" in
      if JS.not firstName && JS.not lastName && JS.not grade && JS.not studentNumber
      then (res_status_json 400 (error "No fields provided to update"), s)
      else
        let student := assign_if_defined firstName keep Student.set_firstName student in
        let student := assign_if_defined lastName keep Student.set_lastName student in
        let student := assign_if_defined grade keep Student.set_grade student in
        let student :=
          assign_if_defined studentNumber keep Student.set_studentNumber student in
        let student := assign_if_defined homeroom keep Student.set_homeroom student in
        let s := set_students (JS.assign_first this student (students s)) s in
        let s := saveJson_students s in
        (res_json (a_student student), s)
  end.

Definition delete_students_id (params_id : string) (s : state) : result :=
  let id := Number (Str params_id) in
  let this := fun x => JS.strict_equals_id (Student.id x) id in
  match find this (students s) with
  | None => (res_status_json 404 (error "Student not found"), s)
  | Some deleted =>
      let s := set_students (JS.remove_first this (students s)) s in
      let s := saveJson_students s in
      (res_json (a_student deleted), s)
  end.

Definition get_tests (s : state) : result :=
  (res_json (test_list (tests s)), s).

Definition get_tests_id (params_id : string) (s : state) : result :=
  let id := Number (Str params_id) in
  match find (fun t => JS.strict_equals_id (Test.id t) id) (tests s) with
  | None => (res_status_json 404 (error "Test not found"), s)
  | Some test => (res_json (a_test test), s)
  end.

Definition post_tests (req_body : object) (s : state) : result :=
  let studentId := req_body "studentId" in
  let courseId := req_body "courseId" in
  let testName := req_body "testName" in
  let date := req_body "date" in
  let mark := req_body "mark" in
  let outOf := req_body "outOf" in
  let weight := req_body "weight" in
  if JS.not studentId || JS.not courseId || JS.not testName || JS.not date
     || JS.is_undefined mark || JS.is_undefined outOf || JS.is_undefined weight
  then (res_status_json 400 (error "Missing required fields"), s)
  else
    let studentExistence :=
      existsb (fun x => JS.strict_equals_id (Student.id x) (Number studentId)) (students s) in
    if negb studentExistence
    then (res_status_json 400 (error "studentId is invalid!"), s)
    else
      let courseExistence :=
        existsb (fun c => JS.strict_equals_id (Course.id c) (Number courseId)) (courses s) in
      if negb courseExistence
      then (res_status_json 400 (error "courseId is invalid!"), s)
      else
        let newTest :=
          Test.mk (nextTestsId s) (JS.as_id (Number studentId)) (JS.as_id (Number courseId))
            testName date (Number mark) (Number outOf) (Number weight) in
        let s := set_nextTestsId (nextTestsId s + 1) s in
        let s := set_tests (tests s ++ [newTest]) s in
        let s := saveJson_tests s in
        (res_status_json 201 (a_test newTest), s).

(** [PUT /tests/:id] assigns [test.studentId] on the array element before it
    checks [courseId]: an early return after that point leaves the array
    changed and the file not. *)
Definition put_tests_id (params_id : string) (req_body : object) (s : state) : result :=
  let id := Number (Str params_id) in
  let this := fun t => JS.strict_equals_id (Test.id t) id in
  match find this (tests s) with
  | None => (res_status_json 404 (error "Test not found"), s)
  | Some test =>
      let studentId := req_body "studentId" in
      let courseId := req_body "courseId" in
      let testName := req_body "testName" in
      let date := req_body "date" in
      let mark := req_body "mark" in
      let outOf := req_body "outOf" in
      let weight := req_body "weight" in
      if JS.not studentId && JS.not courseId && JS.not testName && JS.not date
         && JS.is_undefined mark && JS.is_undefined outOf && JS.is_undefined weight
      then (res_status_json 400 (error "No fields provided to update"), s)
      else
        if negb (JS.is_undefined studentId)
           && negb (existsb (fun x => JS.strict_equals_id (Student.id x) (Number studentId))
                      (students s))
        then (res_status_json 400 (error "studentId is invalid!"), s)
        else
          let test :=
            assign_if_defined studentId (fun v => JS.as_id (Number v))
              Test.set_studentId test in
          let s := set_tests (JS.assign_first this test (tests s)) s in
          if negb (JS.is_undefined courseId)
             && negb (existsb (fun c => JS.strict_equals_id (Course.id c) (Number courseId))
                        (courses s))
          then (res_status_json 400 (error "courseId is invalid!"), s)
          else
            let test :=
              assign_if_defined courseId (fun v => JS.as_id (Number v))
                Test.set_courseId test in
            let test := assign_if_defined testName keep Test.set_testName test in
            let test := assign_if_defined date keep Test.set_date test in
            let test := assign_if_defined mark Number Test.set_mark test in
            let test := assign_if_defined outOf Number Test.set_outOf test in
            let test := assign_if_defined weight Number Test.set_weight test in
            let s := set_tests (JS.assign_first this test (tests s)) s in
            let s := saveJson_tests s in
            (res_json (a_test test), s)
  end.

Definition delete_tests_id (params_id : string) (s : state) : result :=
  let id := Number (Str params_id) in
  let this := fun t => JS.strict_equals_id (Test.id t) id in
  match find this (tests s) with
  | None => (res_status_json 404 (error "Test not found"), s)
  | Some deleted =>
      let s := set_tests (JS.remove_first this (tests s)) s in
      let s := saveJson_tests s in
      (res_json (a_test deleted), s)
  end.

(** [GET /courses/:id/average]: no test for the empty array before the
    division.  The response is the object handed to [res.json]; when Express
    serialises it, [JSON.stringify] prints a [NaN] as [null]. *)
Definition get_courses_id_average (params_id : string) (s : state) : result :=
  let id := Number (Str params_id) in
  match find (fun c => JS.strict_equals_id (Course.id c) id) (courses s) with
  | None => (res_status_json 404 (error "Course not found!"), s)
  | Some course =>
      let testCourses := filter (fun t => JS.strict_equals_id (Test.courseId t) id) (tests s) in
      let percent := map percentage testCourses in
      let courseavg := JS.div (fold_left JS.add percent (JS.of_Z 0)) (length_number percent) in
      (res_json (course_average id (List.length testCourses) (Num courseavg)), s)
  end.

(** What [GET /courses/:id/average] looks up and aggregates over. *)
Definition referenced (params_id : string) (s : state) : bool :=
  existsb (fun c => JS.strict_equals_id (Course.id c) (Number (Str params_id))) (courses s).

Definition matching (params_id : string) (s : state) : list Test.t :=
  filter (fun t => JS.strict_equals_id (Test.courseId t) (Number (Str params_id))) (tests s).

(** Whether the references of a create body name stored records: the
    teacher of a course, the student and the course of a test. *)
Definition references_exist (k : resource) (req_body : object) (s : state) : bool :=
  match k with
  | Courses =>
      existsb (fun t => JS.strict_equals_id (Teacher.id t) (Number (req_body "teacherId")))
        (teachers s)
  | Tests =>
      existsb (fun x => JS.strict_equals_id (Student.id x) (Number (req_body "studentId")))
        (students s)
      && existsb (fun c => JS.strict_equals_id (Course.id c) (Number (req_body "courseId")))
           (courses s)
  | _ => true
  end.

(** The element a by-id route finds. *)
Definition lookup (k : resource) (params_id : string) (s : state) : option json :=
  let id := Number (Str params_id) in
  match k with
  | Teachers =>
      option_map a_teacher (find (fun t => JS.strict_equals_id (Teacher.id t) id) (teachers s))
  | Courses =>
      option_map a_course (find (fun c => JS.strict_equals_id (Course.id c) id) (courses s))
  | Students =>
      option_map a_student (find (fun x => JS.strict_equals_id (Student.id x) id) (students s))
  | Tests =>
      option_map a_test (find (fun t => JS.strict_equals_id (Test.id t) id) (tests s))
  end.

(** Express's dispatch on method and path. *)
Definition get (k : resource) : state -> result :=
  match k with
  | Teachers => get_teachers
  | Courses => get_courses
  | Students => get_students
  | Tests => get_tests
  end.

Definition get_id (k : resource) : string -> state -> result :=
  match k with
  | Teachers => get_teachers_id
  | Courses => get_courses_id
  | Students => get_students_id
  | Tests => get_tests_id
  end.

Definition post (k : resource) : object -> state -> result :=
  match k with
  | Teachers => post_teachers
  | Courses => post_courses
  | Students => post_students
  | Tests => post_tests
  end.

Definition put_id (k : resource) : string -> object -> state -> result :=
  match k with
  | Teachers => put_teachers_id
  | Courses => put_courses_id
  | Students => put_students_id
  | Tests => put_tests_id
  end.

Definition delete_id (k : resource) : string -> state -> result :=
  match k with
  | Teachers => delete_teachers_id
  | Courses => delete_courses_id
  | Students => delete_students_id
  | Tests => delete_tests_id
  end.

Definition app (r : request) : state -> result :=
  match r with
  | GET k => get k
  | GET_id k params_id => get_id k params_id
  | POST k req_body => post k req_body
  | PUT_id k params_id req_body => put_id k params_id req_body
  | DELETE_id k params_id => delete_id k params_id
  | GET_courses_id_average params_id => get_courses_id_average params_id
  end.

Definition run : list request -> state -> list (option response) * state :=
  serve app.

End Handlers.

End JsonFileApi.

(** ** Mongoose: what a schema does to a value

    The two MongoDB variants declare their documents to Mongoose
    ([new mongoose.Schema]).  A [String] path casts what is assigned to it;
    a [Number] path refuses [NaN]; [required: true] is checked when the
    document is validated, which [Model.create] and [document.save] do
    before they write; and the condition of a query is cast to the type of
    its path before the query is sent. *)

Module Mongoose.

(** An operation that Mongoose rejects. *)
Inductive rejection :=
| CastError
| ValidationError.

(** A rejection that no [catch] surrounds: the [async] handler ends where
    the operation is awaited and has handed nothing to [res.json].  What the
    client then gets is Express's doing, not the handler's. *)
Definition uncaught {response : Type} (e : rejection) : option response := None.

(** The condition [{ path: n }] on a [Number] path: [NaN] cannot be cast
    and the query is rejected with a [CastError]; any other number is sent
    as it is. *)
Definition rejects_condition (n : num) : bool := JS.isNaN n.

Section Casting.
Variable NumberToString : num -> string.

(** The cast of a [String] path: [null] and [undefined] stay, a string is
    itself, a number or a boolean is its [toString()]. *)
Definition castString (v : value) : value :=
  match v with
  | undefined => undefined
  | null => null
  | Bool true => Str "true"
  | Bool false => Str "false"
  | Num n => Str (NumberToString n)
  | Str s => Str s
  end.

End Casting.

(** [required: true] on a [String] path: a string that is not empty. *)
Definition required_String (v : value) : bool :=
  match v with
  | Str s => negb (s =? "")%string
  | _ => false
  end.

(** [required: true] on a [Number] path, and its cast: a number other than
    [NaN]. *)
Definition valid_Number (n : num) : bool := negb (JS.isNaN n).

Definition required_Number (v : value) : bool :=
  match v with
  | Num n => valid_Number n
  | _ => false
  end.

End Mongoose.

(** ** The counter variant ([src/unnamed/part_000]) *)

Module CounterApi.

Module Counter.
Record t := mk { _id : string; seq : Z }.
End Counter.

(** The five collections of the database. *)
Record state := mk_state {
  counters : list Counter.t;
  teachers : list Teacher.t;
  courses : list Course.t;
  students : list Student.t;
  tests : list Test.t
}.

Definition set_counters v s := mk_state v (teachers s) (courses s) (students s) (tests s).
Definition set_teachers v s := mk_state (counters s) v (courses s) (students s) (tests s).
Definition set_courses v s := mk_state (counters s) (teachers s) v (students s) (tests s).
Definition set_students v s := mk_state (counters s) (teachers s) (courses s) v (tests s).
Definition set_tests v s := mk_state (counters s) (teachers s) (courses s) (students s) v.

(** [Counter.findByIdAndUpdate(sequenceName, { $inc: { seq: 1 } },
    { new: true, upsert: true })]: the updated document and the collection;
    an absent document is inserted with [seq] 1. *)
Fixpoint findByIdAndUpdate_inc_seq (sequenceName : string) (cs : list Counter.t)
    : Counter.t * list Counter.t :=
  match cs with
  | [] => let c := Counter.mk sequenceName 1 in (c, [c])
  | c :: cs' =>
      if (Counter._id c =? sequenceName)%string
      then let c' := Counter.mk (Counter._id c) (Counter.seq c + 1) in (c', c' :: cs')
      else let (r, cs'') := findByIdAndUpdate_inc_seq sequenceName cs' in (r, c :: cs'')
  end.

Definition getNextId (sequenceName : string) (s : state) : Z * state :=
  let (counter, cs) := findByIdAndUpdate_inc_seq sequenceName (counters s) in
  (Counter.seq counter, set_counters cs s).

(** [.sort({ id: 1 })]: ascending by [id], equal keys in stored order. *)
Fixpoint insert_by_id {A} (id : A -> Z) (x : A) (l : list A) : list A :=
  match l with
  | [] => [x]
  | y :: l' => if id x <=? id y then x :: l else y :: insert_by_id id x l'
  end.

Definition sort_by_id {A} (id : A -> Z) (l : list A) : list A :=
  fold_right (insert_by_id id) [] l.

Definition result := (option response * state)%type.

Inductive request :=
| GET (k : resource)
| GET_id (k : resource) (params_id : string)
| POST (k : resource) (req_body : object)
| PUT_id (k : resource) (params_id : string) (req_body : object)
| DELETE_id (k : resource) (params_id : string)
| GET_students_id_tests (params_id : string)
| GET_courses_id_tests (params_id : string)
| GET_students_id_average (params_id : string)
| GET_courses_id_average (params_id : string).

Definition ids (k : resource) (s : state) : list Z :=
  match k with
  | Teachers => map Teacher.id (teachers s)
  | Courses => map Course.id (courses s)
  | Students => map Student.id (students s)
  | Tests => map Test.id (tests s)
  end.

(** The name of a kind's counter document and its [seq], 0 before the
    first upsert. *)
Definition sequenceName (k : resource) : string :=
  match k with
  | Teachers => "teachers"
  | Courses => "courses"
  | Students => "students"
  | Tests => "tests"
  end.

Definition current_seq (name : string) (cs : list Counter.t) : Z :=
  match find (fun c => (Counter._id c =? name)%string) cs with
  | Some c => Counter.seq c
  | None => 0
  end.

(** [Model.create] and [document.save] validate the document before they
    write it: every [String] path that is required holds a string that is
    not empty, every [Number] path a number other than [NaN] (the
    identifier and the references are integers here). *)
Definition validate_teacher (x : Teacher.t) : bool :=
  Mongoose.required_String (Teacher.firstName x)
  && Mongoose.required_String (Teacher.lastName x)
  && Mongoose.required_String (Teacher.email x)
  && Mongoose.required_String (Teacher.department x).

Definition validate_course (x : Course.t) : bool :=
  Mongoose.required_String (Course.code x)
  && Mongoose.required_String (Course.name x)
  && Mongoose.required_String (Course.semester x)
  && Mongoose.required_String (Course.room x).

Definition validate_student (x : Student.t) : bool :=
  Mongoose.required_String (Student.firstName x)
  && Mongoose.required_String (Student.lastName x)
  && Mongoose.required_Number (Student.grade x)
  && Mongoose.required_String (Student.studentNumber x).

Definition validate_test (x : Test.t) : bool :=
  Mongoose.required_String (Test.testName x)
  && Mongoose.required_String (Test.date x)
  && Mongoose.valid_Number (Test.mark x)
  && Mongoose.valid_Number (Test.outOf x)
  && Mongoose.valid_Number (Test.weight x).

Section Handlers.
Variable StringToNumber : string -> num.
Variable NumberToString : num -> string.
Local Abbreviation Number := (JS.Number StringToNumber).
Local Abbreviation castString := (Mongoose.castString NumberToString).

Definition get_teachers (s : state) : result :=
  let teachers := sort_by_id Teacher.id (teachers s) in
  (res_json (teacher_list teachers), s).

Definition get_teachers_id (params_id : string) (s : state) : result :=
  let id := Number (Str params_id) in
  if Mongoose.rejects_condition id then (Mongoose.uncaught Mongoose.CastError, s)
  else
    match find (fun t => JS.strict_equals_id (Teacher.id t) id) (teachers s) with
    | None => (res_status_json 404 (error "Teacher not found"), s)
    | Some teacher => (res_json (a_teacher teacher), s)
    end.

(** [POST /teachers]: the one handler with a [catch]; a document that fails
    validation is answered 500, after the counter was stepped. *)
Definition post_teachers (req_body : object) (s : state) : result :=
  let firstName := req_body "firstName" in
  let lastName := req_body "lastName" in
  let email := req_body "email" in
  let department := req_body "department" in
  if JS.not firstName || JS.not lastName || JS.not email || JS.not department
  then (res_status_json 400 (error "Missing required fields"), s)
  else
    let (id, s) := getNextId "teachers" s in
    let newTeacher :=
      Teacher.mk id (castString firstName) (castString lastName) (castString email)
        (castString department) in
    if validate_teacher newTeacher
    then
      let s := set_teachers (teachers s ++ [newTeacher]) s in
      (res_status_json 201 (a_teacher newTeacher), s)
    else (res_status_json 500 server_error, s).

Definition put_teachers_id (params_id : string) (req_body : object) (s : state) : result :=
  let id := Number (Str params_id) in
  let firstName := req_body "firstName" in
  let lastName := req_body "lastName" in
  let email := req_body "email" in
  let department := req_body "department" in
  if JS.is_undefined firstName && JS.is_undefined lastName
     && JS.is_undefined email && JS.is_undefined department
  then (res_status_json 400 (error "No fields provided to update"), s)
  else
    if Mongoose.rejects_condition id then (Mongoose.uncaught Mongoose.CastError, s)
    else
      let this := fun t => JS.strict_equals_id (Teacher.id t) id in
      match find this (teachers s) with
      | None => (res_status_json 404 (error "Teacher not found"), s)
      | Some teacher =>
          let teacher :=
            assign_if_defined firstName castString Teacher.set_firstName teacher in
          let teacher := assign_if_defined lastName castString Teacher.set_lastName teacher in
          let teacher := assign_if_defined email castString Teacher.set_email teacher in
          let teacher :=
            assign_if_defined department castString Teacher.set_department teacher in
          if validate_teacher teacher
          then
            let s := set_teachers (JS.assign_first this teacher (teachers s)) s in
            (res_json (a_teacher teacher), s)
          else (Mongoose.uncaught Mongoose.ValidationError, s)
      end.

Definition delete_teachers_id (params_id : string) (s : state) : result :=
  let id := Number (Str params_id) in
  if Mongoose.rejects_condition id then (Mongoose.uncaught Mongoose.CastError, s)
  else
    let used := existsb (fun c => JS.strict_equals_id (Course.teacherId c) id) (courses s) in
    if used
    then (res_status_json 400
            (error "Cannot delete teacher who is assigned to courses. Update/delete courses first."),
          s)
    else
      let this := fun t => JS.strict_equals_id (Teacher.id t) id in
      match find this (teachers s) with
      | None => (res_status_json 404 (error "Teacher not found"), s)
      | Some deleted =>
          (res_json (a_teacher deleted), set_teachers (JS.remove_first this (teachers s)) s)
      end.

Definition get_courses (s : state) : result :=
  let courses := sort_by_id Course.id (courses s) in
  (res_json (course_list courses), s).

Definition get_courses_id (params_id : string) (s : state) : result :=
  let id := Number (Str params_id) in
  if Mongoose.rejects_condition id then (Mongoose.uncaught Mongoose.CastError, s)
  else
    match find (fun c => JS.strict_equals_id (Course.id c) id) (courses s) with
    | None => (res_status_json 404 (error "Course not found"), s)
    | Some course => (res_json (a_course course), s)
    end.

(** [POST /courses]: the object literal is evaluated before [Course.create]
    is called, so the counter is stepped before the document is validated. *)
Definition post_courses (req_body : object) (s : state) : result :=
  let code := req_body "code" in
  let name := req_body "name" in
  let teacherId := req_body "teacherId" in
  let semester := req_body "semester" in
  let room := req_body "room" in
  let schedule := req_body "schedule" in
  if JS.not code || JS.not name || JS.is_undefined teacherId
     || JS.not semester || JS.not room
  then (res_status_json 400 (error "Missing required fields"), s)
  else
    if Mongoose.rejects_condition (Number teacherId)
    then (Mongoose.uncaught Mongoose.CastError, s)
    else
      match find (fun t => JS.strict_equals_id (Teacher.id t) (Number teacherId))
              (teachers s) with
      | None => (res_status_json 400 (error "teacherId is invalid!"), s)
      | Some teacher =>
          let (id, s) := getNextId "courses" s in
          let newCourse :=
            Course.mk id (castString code) (castString name) (JS.as_id (Number teacherId))
              (castString semester) (castString room)
              (castString (JS.or schedule (Str ""))) in
          if validate_course newCourse
          then
            let s := set_courses (courses s ++ [newCourse]) s in
            (res_status_json 201 (a_course newCourse), s)
          else (Mongoose.uncaught Mongoose.ValidationError, s)
      end.

Definition put_courses_id (params_id : string) (req_body : object) (s : state) : result :=
  let id := Number (Str params_id) in
  let code := req_body "code" in
  let name := req_body "name" in
  let teacherId := req_body "teacherId" in
  let semester := req_body "semester" in
  let room := req_body "room" in
  let schedule := req_body "schedule" in
  if JS.is_undefined code && JS.is_undefined name && JS.is_undefined teacherId
     && JS.is_undefined semester && JS.is_undefined room && JS.is_undefined schedule
  then (res_status_json 400 (error "No fields provided to update"), s)
  else
    if Mongoose.rejects_condition id then (Mongoose.uncaught Mongoose.CastError, s)
    else
      let this := fun c => JS.strict_equals_id (Course.id c) id in
      match find this (courses s) with
      | None => (res_status_json 404 (error "Course not found"), s)
      | Some course =>
          if negb (JS.is_undefined teacherId)
             && Mongoose.rejects_condition (Number teacherId)
          then (Mongoose.uncaught Mongoose.CastError, s)
          else
            if negb (JS.is_undefined teacherId)
               && negb (existsb
                          (fun t => JS.strict_equals_id (Teacher.id t) (Number teacherId))
                          (teachers s))
            then (res_status_json 400 (error "teacherId is invalid!"), s)
            else
              let course :=
                assign_if_defined teacherId (fun v => JS.as_id (Number v))
                  Course.set_teacherId course in
              let course := assign_if_defined code castString Course.set_code course in
              let course := assign_if_defined name castString Course.set_name course in
              let course :=
                assign_if_defined semester castString Course.set_semester course in
              let course := assign_if_defined room castString Course.set_room course in
              let course :=
                assign_if_defined schedule castString Course.set_schedule course in
              if validate_course course
              then
                let s := set_courses (JS.assign_first this course (courses s)) s in
                (res_json (a_course course), s)
              else (Mongoose.uncaught Mongoose.ValidationError, s)
      end.

Definition delete_courses_id (params_id : string) (s : state) : result :=
  let id := Number (Str params_id) in
  if Mongoose.rejects_condition id then (Mongoose.uncaught Mongoose.CastError, s)
  else
    let used := existsb (fun t => JS.strict_equals_id (Test.courseId t) id) (tests s) in
    if used
    then (res_status_json 400
            (error "Cannot delete course that has tests. Delete/update tests first."), s)
    else
      let this := fun c => JS.strict_equals_id (Course.id c) id in
      match find this (courses s) with
      | None => (res_status_json 404 (error "Course not found"), s)
      | Some deleted =>
          (res_json (a_course deleted), set_courses (JS.remove_first this (courses s)) s)
      end.

Definition get_students (s : state) : result :=
  let students := sort_by_id Student.id (students s) in
  (res_json (student_list students), s).

Definition get_students_id (params_id : string) (s : state) : result :=
  let id := Number (Str params_id) in
  if Mongoose.rejects_condition id then (Mongoose.uncaught Mongoose.CastError, s)
  else
    match find (fun x => JS.strict_equals_id (Student.id x) id) (students s) with
    | None => (res_status_json 404 (error "Student not found"), s)
    | Some student => (res_json (a_student student), s)
    end.

Definition post_students (req_body : object) (s : state) : result :=
  let firstName := req_body "firstName" in
  let lastName := req_body "lastName" in
  let grade := req_body "grade" in
  let studentNumber := req_body "studentNumber" in
  let homeroom := req_body "homeroom" in
  if JS.not firstName || JS.not lastName || JS.is_undefined grade || JS.not studentNumber
  then (res_status_json 400 (error "Missing required fields"), s)
  else
    let (id, s) := getNextId "students" s in
    let newStudent :=
      Student.mk id (castString firstName) (castString lastName) (Num (Number grade))
        (castString studentNumber) (castString (JS.or homeroom (Str ""))) in
    if validate_student newStudent
    then
      let s := set_students (students s ++ [newStudent]) s in
      (res_status_json 201 (a_student newStudent), s)
    else (Mongoose.uncaught Mongoose.ValidationError, s).

Definition put_students_id (params_id : string) (req_body : object) (s : state) : result :=
  let id := Number (Str params_id) in
  let firstName := req_body "firstName" in
  let lastName := req_body "lastName" in
  let grade := req_body "grade" in
  let studentNumber := req_body "studentNumber" in
  let homeroom := req_body "homeroom" in
  if JS.is_undefined firstName && JS.is_undefined lastName && JS.is_undefined grade
     && JS.is_undefined studentNumber && JS.is_undefined homeroom
  then (res_status_json 400 (error "No fields provided to update"), s)
  else
    if Mongoose.rejects_condition id then (Mongoose.uncaught Mongoose.CastError, s)
    else
      let this := fun x => JS.strict_equals_id (Student.id x) id in
      match find this (students s) with
      | None => (res_status_json 404 (error "Student not found"), s)
      | Some student =>
          let student :=
            assign_if_defined firstName castString Student.set_firstName student in
          let student := assign_if_defined lastName castString Student.set_lastName student in
          let student :=
            assign_if_defined grade (fun v => Num (Number v)) Student.set_grade student in
          let student :=
            assign_if_defined studentNumber castString Student.set_studentNumber student in
          let student := assign_if_defined homeroom castString Student.set_homeroom student in
          if validate_student student
          then
            let s := set_students (JS.assign_first this student (students s)) s in
            (res_json (a_student student), s)
          else (Mongoose.uncaught Mongoose.ValidationError, s)
      end.

Definition delete_students_id (params_id : string) (s : state) : result :=
  let id := Number (Str params_id) in
  if Mongoose.rejects_condition id then (Mongoose.uncaught Mongoose.CastError, s)
  else
    let used := existsb (fun t => JS.strict_equals_id (Test.studentId t) id) (tests s) in
    if used
    then (res_status_json 400
            (error "Cannot delete student that has tests. Delete/update tests first."), s)
    else
      let this := fun x => JS.strict_equals_id (Student.id x) id in
      match find this (students s) with
      | None => (res_status_json 404 (error "Student not found"), s)
      | Some deleted =>
          (res_json (a_student deleted), set_students (JS.remove_first this (students s)) s)
      end.

Definition get_tests (s : state) : result :=
  let tests := sort_by_id Test.id (tests s) in
  (res_json (test_list tests), s).

Definition get_tests_id (params_id : string) (s : state) : result :=
  let id := Number (Str params_id) in
  if Mongoose.rejects_condition id then (Mongoose.uncaught Mongoose.CastError, s)
  else
    match find (fun t => JS.strict_equals_id (Test.id t) id) (tests s) with
    | None => (res_status_json 404 (error "Test not found"), s)
    | Some test => (res_json (a_test test), s)
    end.

Definition post_tests (req_body : object) (s : state) : result :=
  let studentId := req_body "studentId" in
  let courseId := req_body "courseId" in
  let testName := req_body "testName" in
  let date := req_body "date" in
  let mark := req_body "mark" in
  let outOf := req_body "outOf" in
  let weight := req_body "weight" in
  if JS.is_undefined studentId || JS.is_undefined courseId || JS.not testName || JS.not date
     || JS.is_undefined mark || JS.is_undefined outOf || JS.is_undefined weight
  then (res_status_json 400 (error "Missing required fields"), s)
  else
    if Mongoose.rejects_condition (Number studentId)
    then (Mongoose.uncaught Mongoose.CastError, s)
    else
      let studentExists :=
        existsb (fun x => JS.strict_equals_id (Student.id x) (Number studentId))
          (students s) in
      if negb studentExists
      then (res_status_json 400 (error "studentId is invalid!"), s)
      else
        if Mongoose.rejects_condition (Number courseId)
        then (Mongoose.uncaught Mongoose.CastError, s)
        else
          let courseExists :=
            existsb (fun c => JS.strict_equals_id (Course.id c) (Number courseId))
              (courses s) in
          if negb courseExists
          then (res_status_json 400 (error "courseId is invalid!"), s)
          else
            let (id, s) := getNextId "tests" s in
            let newTest :=
              Test.mk id (JS.as_id (Number studentId)) (JS.as_id (Number courseId))
                (castString testName) (castString date)
                (Number mark) (Number outOf) (Number weight) in
            if validate_test newTest
            then
              let s := set_tests (tests s ++ [newTest]) s in
              (res_status_json 201 (a_test newTest), s)
            else (Mongoose.uncaught Mongoose.ValidationError, s).

Definition put_tests_id (params_id : string) (req_body : object) (s : state) : result :=
  let id := Number (Str params_id) in
  let studentId := req_body "studentId" in
  let courseId := req_body "courseId" in
  let testName := req_body "testName" in
  let date := req_body "date" in
  let mark := req_body "mark" in
  let outOf := req_body "outOf" in
  let weight := req_body "weight" in
  if JS.is_undefined studentId && JS.is_undefined courseId && JS.is_undefined testName
     && JS.is_undefined date && JS.is_undefined mark && JS.is_undefined outOf
     && JS.is_undefined weight
  then (res_status_json 400 (error "No fields provided to update"), s)
  else
    if Mongoose.rejects_condition id then (Mongoose.uncaught Mongoose.CastError, s)
    else
      let this := fun t => JS.strict_equals_id (Test.id t) id in
      match find this (tests s) with
      | None => (res_status_json 404 (error "Test not found"), s)
      | Some test =>
          if negb (JS.is_undefined studentId)
             && Mongoose.rejects_condition (Number studentId)
          then (Mongoose.uncaught Mongoose.CastError, s)
          else
            if negb (JS.is_undefined studentId)
               && negb (existsb
                          (fun x => JS.strict_equals_id (Student.id x) (Number studentId))
                          (students s))
            then (res_status_json 400 (error "studentId is invalid!"), s)
            else
              let test :=
                assign_if_defined studentId (fun v => JS.as_id (Number v))
                  Test.set_studentId test in
              if negb (JS.is_undefined courseId)
                 && Mongoose.rejects_condition (Number courseId)
              then (Mongoose.uncaught Mongoose.CastError, s)
              else
                if negb (JS.is_undefined courseId)
                   && negb (existsb
                              (fun c => JS.strict_equals_id (Course.id c) (Number courseId))
                              (courses s))
                then (res_status_json 400 (error "courseId is invalid!"), s)
                else
                  let test :=
                    assign_if_defined courseId (fun v => JS.as_id (Number v))
                      Test.set_courseId test in
                  let test := assign_if_defined testName castString Test.set_testName test in
                  let test := assign_if_defined date castString Test.set_date test in
                  let test := assign_if_defined mark Number Test.set_mark test in
                  let test := assign_if_defined outOf Number Test.set_outOf test in
                  let test := assign_if_defined weight Number Test.set_weight test in
                  if validate_test test
                  then
                    let s := set_tests (JS.assign_first this test (tests s)) s in
                    (res_json (a_test test), s)
                  else (Mongoose.uncaught Mongoose.ValidationError, s)
      end.

Definition delete_tests_id (params_id : string) (s : state) : result :=
  let id := Number (Str params_id) in
  if Mongoose.rejects_condition id then (Mongoose.uncaught Mongoose.CastError, s)
  else
    let this := fun t => JS.strict_equals_id (Test.id t) id in
    match find this (tests s) with
    | None => (res_status_json 404 (error "Test not found"), s)
    | Some deleted =>
        (res_json (a_test deleted), set_tests (JS.remove_first this (tests s)) s)
    end.

Definition get_students_id_tests (params_id : string) (s : state) : result :=
  let studentId := Number (Str params_id) in
  if Mongoose.rejects_condition studentId then (Mongoose.uncaught Mongoose.CastError, s)
  else
    match find (fun x => JS.strict_equals_id (Student.id x) studentId) (students s) with
    | None => (res_status_json 404 (error "Student not found"), s)
    | Some student =>
        let studentTests :=
          sort_by_id Test.id
            (filter (fun t => JS.strict_equals_id (Test.studentId t) studentId) (tests s)) in
        (res_json (test_list studentTests), s)
    end.

Definition get_courses_id_tests (params_id : string) (s : state) : result :=
  let courseId := Number (Str params_id) in
  if Mongoose.rejects_condition courseId then (Mongoose.uncaught Mongoose.CastError, s)
  else
    match find (fun c => JS.strict_equals_id (Course.id c) courseId) (courses s) with
    | None => (res_status_json 404 (error "Course not found"), s)
    | Some course =>
        let courseTests :=
          sort_by_id Test.id
            (filter (fun t => JS.strict_equals_id (Test.courseId t) courseId) (tests s)) in
        (res_json (test_list courseTests), s)
    end.

Definition get_students_id_average (params_id : string) (s : state) : result :=
  let studentId := Number (Str params_id) in
  if Mongoose.rejects_condition studentId then (Mongoose.uncaught Mongoose.CastError, s)
  else
    match find (fun x => JS.strict_equals_id (Student.id x) studentId) (students s) with
    | None => (res_status_json 404 (error "Student not found"), s)
    | Some student =>
        let studentTests :=
          filter (fun t => JS.strict_equals_id (Test.studentId t) studentId) (tests s) in
        if (List.length studentTests =? 0)%nat
        then (res_json (student_average studentId 0 null), s)
        else
          let percentages := map percentage studentTests in
          let avg :=
            JS.div (fold_left JS.add percentages (JS.of_Z 0)) (length_number percentages) in
          (res_json (student_average studentId (List.length studentTests) (Num avg)), s)
    end.

Definition get_courses_id_average (params_id : string) (s : state) : result :=
  let courseId := Number (Str params_id) in
  if Mongoose.rejects_condition courseId then (Mongoose.uncaught Mongoose.CastError, s)
  else
    match find (fun c => JS.strict_equals_id (Course.id c) courseId) (courses s) with
    | None => (res_status_json 404 (error "Course not found"), s)
    | Some course =>
        let courseTests :=
          filter (fun t => JS.strict_equals_id (Test.courseId t) courseId) (tests s) in
        if (List.length courseTests =? 0)%nat
        then (res_json (course_average courseId 0 null), s)
        else
          let percentages := map percentage courseTests in
          let avg :=
            JS.div (fold_left JS.add percentages (JS.of_Z 0)) (length_number percentages) in
          (res_json (course_average courseId (List.length courseTests) (Num avg)), s)
    end.

(** The two average routes, by what they aggregate over. *)
Definition referenced (a : aggregate) (params_id : string) (s : state) : bool :=
  let id := Number (Str params_id) in
  match a with
  | of_student => existsb (fun x => JS.strict_equals_id (Student.id x) id) (students s)
  | of_course => existsb (fun c => JS.strict_equals_id (Course.id c) id) (courses s)
  end.

Definition matching (a : aggregate) (params_id : string) (s : state) : list Test.t :=
  let id := Number (Str params_id) in
  match a with
  | of_student => filter (fun t => JS.strict_equals_id (Test.studentId t) id) (tests s)
  | of_course => filter (fun t => JS.strict_equals_id (Test.courseId t) id) (tests s)
  end.

Definition get_id_average (a : aggregate) : string -> state -> result :=
  match a with
  | of_student => get_students_id_average
  | of_course => get_courses_id_average
  end.

Definition average_json (a : aggregate) (params_id : string) : nat -> value -> json :=
  match a with
  | of_student => student_average (Number (Str params_id))
  | of_course => course_average (Number (Str params_id))
  end.

(** Whether the references of a create body name stored records: the
    teacher of a course, the student and the course of a test. *)
Definition references_exist (k : resource) (req_body : object) (s : state) : bool :=
  match k with
  | Courses =>
      existsb (fun t => JS.strict_equals_id (Teacher.id t) (Number (req_body "teacherId")))
        (teachers s)
  | Tests =>
      existsb (fun x => JS.strict_equals_id (Student.id x) (Number (req_body "studentId")))
        (students s)
      && existsb (fun c => JS.strict_equals_id (Course.id c) (Number (req_body "courseId")))
           (courses s)
  | _ => true
  end.

Definition lookup (k : resource) (params_id : string) (s : state) : option json :=
  let id := Number (Str params_id) in
  match k with
  | Teachers =>
      option_map a_teacher (find (fun t => JS.strict_equals_id (Teacher.id t) id) (teachers s))
  | Courses =>
      option_map a_course (find (fun c => JS.strict_equals_id (Course.id c) id) (courses s))
  | Students =>
      option_map a_student (find (fun x => JS.strict_equals_id (Student.id x) id) (students s))
  | Tests =>
      option_map a_test (find (fun t => JS.strict_equals_id (Test.id t) id) (tests s))
  end.

Definition get (k : resource) : state -> result :=
  match k with
  | Teachers => get_teachers
  | Courses => get_courses
  | Students => get_students
  | Tests => get_tests
  end.

Definition get_id (k : resource) : string -> state -> result :=
  match k with
  | Teachers => get_teachers_id
  | Courses => get_courses_id
  | Students => get_students_id
  | Tests => get_tests_id
  end.

Definition post (k : resource) : object -> state -> result :=
  match k with
  | Teachers => post_teachers
  | Courses => post_courses
  | Students => post_students
  | Tests => post_tests
  end.

Definition put_id (k : resource) : string -> object -> state -> result :=
  match k with
  | Teachers => put_teachers_id
  | Courses => put_courses_id
  | Students => put_students_id
  | Tests => put_tests_id
  end.

Definition delete_id (k : resource) : string -> state -> result :=
  match k with
  | Teachers => delete_teachers_id
  | Courses => delete_courses_id
  | Students => delete_students_id
  | Tests => delete_tests_id
  end.

Definition app (r : request) : state -> result :=
  match r with
  | GET k => get k
  | GET_id k params_id => get_id k params_id
  | POST k req_body => post k req_body
  | PUT_id k params_id req_body => put_id k params_id req_body
  | DELETE_id k params_id => delete_id k params_id
  | GET_students_id_tests params_id => get_students_id_tests params_id
  | GET_courses_id_tests params_id => get_courses_id_tests params_id
  | GET_students_id_average params_id => get_students_id_average params_id
  | GET_courses_id_average params_id => get_courses_id_average params_id
  end.

Definition run : list request -> state -> list (option response) * state :=
  serve app.

End Handlers.

End CounterApi.

(** ** The ObjectId variant ([src/index.js], lines 436-1088)

    Embedded: the create, update and delete routes of the four kinds and the
    two average routes.  The read routes (sorting by names, codes and
    creation time, [populate]) are not. *)

Module ObjectIdApi.

(** An ObjectId, as its 24-digit hexadecimal string. *)
Definition ObjectId := string.

Module Teacher.
Record t := mk {
  _id : ObjectId;
  firstName : value;
  lastName : value;
  email : value;
  department : value
}.
Definition set_firstName v x := mk (_id x) v (lastName x) (email x) (department x).
Definition set_lastName v x := mk (_id x) (firstName x) v (email x) (department x).
Definition set_email v x := mk (_id x) (firstName x) (lastName x) v (department x).
Definition set_department v x := mk (_id x) (firstName x) (lastName x) (email x) v.
End Teacher.

Module Course.
Record t := mk {
  _id : ObjectId;
  code : value;
  name : value;
  teacherId : ObjectId;
  semester : value;
  room : value;
  schedule : value
}.
Definition set_code v x :=
  mk (_id x) v (name x) (teacherId x) (semester x) (room x) (schedule x).
Definition set_name v x :=
  mk (_id x) (code x) v (teacherId x) (semester x) (room x) (schedule x).
Definition set_teacherId v x :=
  mk (_id x) (code x) (name x) v (semester x) (room x) (schedule x).
Definition set_semester v x :=
  mk (_id x) (code x) (name x) (teacherId x) v (room x) (schedule x).
Definition set_room v x :=
  mk (_id x) (code x) (name x) (teacherId x) (semester x) v (schedule x).
Definition set_schedule v x :=
  mk (_id x) (code x) (name x) (teacherId x) (semester x) (room x) v.
End Course.

Module Student.
Record t := mk {
  _id : ObjectId;
  firstName : value;
  lastName : value;
  grade : value;
  studentNumber : value;
  homeroom : value
}.
Definition set_firstName v x :=
  mk (_id x) v (lastName x) (grade x) (studentNumber x) (homeroom x).
Definition set_lastName v x :=
  mk (_id x) (firstName x) v (grade x) (studentNumber x) (homeroom x).
Definition set_grade v x :=
  mk (_id x) (firstName x) (lastName x) v (studentNumber x) (homeroom x).
Definition set_studentNumber v x :=
  mk (_id x) (firstName x) (lastName x) (grade x) v (homeroom x).
Definition set_homeroom v x :=
  mk (_id x) (firstName x) (lastName x) (grade x) (studentNumber x) v.
End Student.

Module Test.
Record t := mk {
  _id : ObjectId;
  studentId : ObjectId;
  courseId : ObjectId;
  testName : value;
  date : value;
  mark : num;
  outOf : num;
  weight : num
}.
Definition set_studentId v x :=
  mk (_id x) v (courseId x) (testName x) (date x) (mark x) (outOf x) (weight x).
Definition set_courseId v x :=
  mk (_id x) (studentId x) v (testName x) (date x) (mark x) (outOf x) (weight x).
Definition set_testName v x :=
  mk (_id x) (studentId x) (courseId x) v (date x) (mark x) (outOf x) (weight x).
Definition set_date v x :=
  mk (_id x) (studentId x) (courseId x) (testName x) v (mark x) (outOf x) (weight x).
Definition set_mark v x :=
  mk (_id x) (studentId x) (courseId x) (testName x) (date x) v (outOf x) (weight x).
Definition set_outOf v x :=
  mk (_id x) (studentId x) (courseId x) (testName x) (date x) (mark x) v (weight x).
Definition set_weight v x :=
  mk (_id x) (studentId x) (courseId x) (testName x) (date x) (mark x) (outOf x) v.
End Test.

Inductive json :=
| error (message : string)
| a_teacher (t : Teacher.t)
| a_course (c : Course.t)
| a_student (s : Student.t)
| a_test (t : Test.t)
| student_average (studentId : string) (testCount : nat) (average : value)
| course_average (courseId : string) (testCount : nat) (average : value)
| server_error.

Record response := { status : Z; body : json }.

Definition res_status_json (n : Z) (b : json) : option response :=
  Some {| status := n; body := b |}.
Definition res_json (b : json) : option response := res_status_json 200 b.

Record state := mk_state {
  teachers : list Teacher.t;
  courses : list Course.t;
  students : list Student.t;
  tests : list Test.t
}.

Definition set_teachers v s := mk_state v (courses s) (students s) (tests s).
Definition set_courses v s := mk_state (teachers s) v (students s) (tests s).
Definition set_students v s := mk_state (teachers s) (courses s) v (tests s).
Definition set_tests v s := mk_state (teachers s) (courses s) (students s) v.

Definition result := (option response * state)%type.

Definition percentage (t : Test.t) : num :=
  JS.mul (JS.div (Test.mark t) (Test.outOf t)) (JS.of_Z 100).

Definition average_of (tests : list Test.t) : num :=
  JS.div (fold_left JS.add (map percentage tests) (JS.of_Z 0)) (length_number tests).

(** [Model.create] and [document.save] validate the document before they
    write it: every [String] path that is required holds a string that is
    not empty, every [Number] path a number other than [NaN]. *)
Definition validate_teacher (x : Teacher.t) : bool :=
  Mongoose.required_String (Teacher.firstName x)
  && Mongoose.required_String (Teacher.lastName x)
  && Mongoose.required_String (Teacher.email x)
  && Mongoose.required_String (Teacher.department x).

Definition validate_course (x : Course.t) : bool :=
  Mongoose.required_String (Course.code x)
  && Mongoose.required_String (Course.name x)
  && Mongoose.required_String (Course.semester x)
  && Mongoose.required_String (Course.room x).

Definition validate_student (x : Student.t) : bool :=
  Mongoose.required_String (Student.firstName x)
  && Mongoose.required_String (Student.lastName x)
  && Mongoose.required_Number (Student.grade x)
  && Mongoose.required_String (Student.studentNumber x).

Definition validate_test (x : Test.t) : bool :=
  Mongoose.required_String (Test.testName x)
  && Mongoose.required_String (Test.date x)
  && Mongoose.valid_Number (Test.mark x)
  && Mongoose.valid_Number (Test.outOf x)
  && Mongoose.valid_Number (Test.weight x).

Section Handlers.
Variable StringToNumber : string -> num.
Variable NumberToString : num -> string.
(** Mongoose's cast of a value to an ObjectId, [None] when it has none. *)
Variable castObjectId : value -> option ObjectId.
Local Abbreviation Number := (JS.Number StringToNumber).
Local Abbreviation castString := (Mongoose.castString NumberToString).

(** [mongoose.isValidObjectId(v)]: whether Mongoose can cast [v]. *)
Definition isValidObjectId (v : value) : bool :=
  match castObjectId v with Some _ => true | None => false end.

(** [{ _id: v }] or [{ teacherId: v }] against a stored ObjectId. *)
Definition equals_id (stored : ObjectId) (v : value) : bool :=
  match castObjectId v with
  | Some o => (stored =? o)%string
  | None => false
  end.

Definition as_ObjectId (v : value) : ObjectId :=
  match castObjectId v with
  | Some o => o
  | None => ""
  end.

(** [requireObjectId(id, res, label)]: the response it sends when [id] is
    not valid, [None] when it returns true. *)
Definition requireObjectId (id : string) (label : string) : option response :=
  if negb (isValidObjectId (Str id))
  then Some {| status := 400; body := error ("Invalid " ++ label) |}
  else None.

(** The create routes take the [_id] the store gives the new document.
    [POST /teachers] is the one handler with a [catch]: a document that
    fails validation is answered 500. *)
Definition post_teachers (new_id : ObjectId) (req_body : object) (s : state) : result :=
  let firstName := req_body "firstName" in
  let lastName := req_body "lastName" in
  let email := req_body "email" in
  let department := req_body "department" in
  if JS.not firstName || JS.not lastName || JS.not email || JS.not department
  then (res_status_json 400 (error "Missing required fields"), s)
  else
    let created :=
      Teacher.mk new_id (castString firstName) (castString lastName) (castString email)
        (castString department) in
    if validate_teacher created
    then (res_status_json 201 (a_teacher created), set_teachers (teachers s ++ [created]) s)
    else (res_status_json 500 server_error, s).

Definition put_teachers_id (id : string) (req_body : object) (s : state) : result :=
  match requireObjectId id "teacher _id" with
  | Some r => (Some r, s)
  | None =>
      let firstName := req_body "firstName" in
      let lastName := req_body "lastName" in
      let email := req_body "email" in
      let department := req_body "department" in
      if JS.is_undefined firstName && JS.is_undefined lastName
         && JS.is_undefined email && JS.is_undefined department
      then (res_status_json 400 (error "No fields provided to update"), s)
      else
        let this := fun t => equals_id (Teacher._id t) (Str id) in
        match find this (teachers s) with
        | None => (res_status_json 404 (error "Teacher not found"), s)
        | Some teacher =>
            let teacher :=
              assign_if_defined firstName castString Teacher.set_firstName teacher in
            let teacher :=
              assign_if_defined lastName castString Teacher.set_lastName teacher in
            let teacher := assign_if_defined email castString Teacher.set_email teacher in
            let teacher :=
              assign_if_defined department castString Teacher.set_department teacher in
            if validate_teacher teacher
            then (res_json (a_teacher teacher),
                  set_teachers (JS.assign_first this teacher (teachers s)) s)
            else (Mongoose.uncaught Mongoose.ValidationError, s)
        end
  end.

Definition delete_teachers_id (id : string) (s : state) : result :=
  match requireObjectId id "teacher _id" with
  | Some r => (Some r, s)
  | None =>
      let used := existsb (fun c => equals_id (Course.teacherId c) (Str id)) (courses s) in
      if used
      then (res_status_json 400
              (error "Cannot delete teacher who is assigned to courses. Update/delete courses first."),
            s)
      else
        let this := fun t => equals_id (Teacher._id t) (Str id) in
        match find this (teachers s) with
        | None => (res_status_json 404 (error "Teacher not found"), s)
        | Some deleted =>
            (res_json (a_teacher deleted), set_teachers (JS.remove_first this (teachers s)) s)
        end
  end.

Definition post_courses (new_id : ObjectId) (req_body : object) (s : state) : result :=
  let code := req_body "code" in
  let name := req_body "name" in
  let teacherId := req_body "teacherId" in
  let semester := req_body "semester" in
  let room := req_body "room" in
  let schedule := req_body "schedule" in
  if JS.not code || JS.not name || JS.not teacherId || JS.not semester || JS.not room
  then (res_status_json 400 (error "Missing required fields"), s)
  else
    if negb (isValidObjectId teacherId)
    then (res_status_json 400 (error "Invalid teacherId"), s)
    else
      let teacherExists := existsb (fun t => equals_id (Teacher._id t) teacherId) (teachers s) in
      if negb teacherExists
      then (res_status_json 400 (error "teacherId does not exist"), s)
      else
        let created :=
          Course.mk new_id (castString code) (castString name) (as_ObjectId teacherId)
            (castString semester) (castString room)
            (castString (JS.or schedule (Str ""))) in
        if validate_course created
        then (res_status_json 201 (a_course created), set_courses (courses s ++ [created]) s)
        else (Mongoose.uncaught Mongoose.ValidationError, s).

Definition put_courses_id (id : string) (req_body : object) (s : state) : result :=
  match requireObjectId id "course _id" with
  | Some r => (Some r, s)
  | None =>
      let code := req_body "code" in
      let name := req_body "name" in
      let teacherId := req_body "teacherId" in
      let semester := req_body "semester" in
      let room := req_body "room" in
      let schedule := req_body "schedule" in
      if JS.is_undefined code && JS.is_undefined name && JS.is_undefined teacherId
         && JS.is_undefined semester && JS.is_undefined room && JS.is_undefined schedule
      then (res_status_json 400 (error "No fields provided to update"), s)
      else
        let this := fun c => equals_id (Course._id c) (Str id) in
        match find this (courses s) with
        | None => (res_status_json 404 (error "Course not found"), s)
        | Some course =>
            if negb (JS.is_undefined teacherId) && negb (isValidObjectId teacherId)
            then (res_status_json 400 (error "Invalid teacherId"), s)
            else
              if negb (JS.is_undefined teacherId)
                 && negb (existsb (fun t => equals_id (Teacher._id t) teacherId) (teachers s))
              then (res_status_json 400 (error "teacherId does not exist"), s)
              else
                let course :=
                  assign_if_defined teacherId as_ObjectId Course.set_teacherId course in
                let course := assign_if_defined code castString Course.set_code course in
                let course := assign_if_defined name castString Course.set_name course in
                let course :=
                  assign_if_defined semester castString Course.set_semester course in
                let course := assign_if_defined room castString Course.set_room course in
                let course :=
                  assign_if_defined schedule castString Course.set_schedule course in
                if validate_course course
                then (res_json (a_course course),
                      set_courses (JS.assign_first this course (courses s)) s)
                else (Mongoose.uncaught Mongoose.ValidationError, s)
        end
  end.

Definition delete_courses_id (id : string) (s : state) : result :=
  match requireObjectId id "course _id" with
  | Some r => (Some r, s)
  | None =>
      let used := existsb (fun t => equals_id (Test.courseId t) (Str id)) (tests s) in
      if used
      then (res_status_json 400
              (error "Cannot delete course that has tests. Delete/update tests first."), s)
      else
        let this := fun c => equals_id (Course._id c) (Str id) in
        match find this (courses s) with
        | None => (res_status_json 404 (error "Course not found"), s)
        | Some deleted =>
            (res_json (a_course deleted), set_courses (JS.remove_first this (courses s)) s)
        end
  end.

Definition post_students (new_id : ObjectId) (req_body : object) (s : state) : result :=
  let firstName := req_body "firstName" in
  let lastName := req_body "lastName" in
  let grade := req_body "grade" in
  let studentNumber := req_body "studentNumber" in
  let homeroom := req_body "homeroom" in
  if JS.not firstName || JS.not lastName || JS.is_undefined grade || JS.not studentNumber
  then (res_status_json 400 (error "Missing required fields"), s)
  else
    let created :=
      Student.mk new_id (castString firstName) (castString lastName) (Num (Number grade))
        (castString studentNumber) (castString (JS.or homeroom (Str ""))) in
    if validate_student created
    then (res_status_json 201 (a_student created), set_students (students s ++ [created]) s)
    else (Mongoose.uncaught Mongoose.ValidationError, s).

Definition put_students_id (id : string) (req_body : object) (s : state) : result :=
  match requireObjectId id "student _id" with
  | Some r => (Some r, s)
  | None =>
      let firstName := req_body "firstName" in
      let lastName := req_body "lastName" in
      let grade := req_body "grade" in
      let studentNumber := req_body "studentNumber" in
      let homeroom := req_body "homeroom" in
      if JS.is_undefined firstName && JS.is_undefined lastName && JS.is_undefined grade
         && JS.is_undefined studentNumber && JS.is_undefined homeroom
      then (res_status_json 400 (error "No fields provided to update"), s)
      else
        let this := fun x => equals_id (Student._id x) (Str id) in
        match find this (students s) with
        | None => (res_status_json 404 (error "Student not found"), s)
        | Some student =>
            let student :=
              assign_if_defined firstName castString Student.set_firstName student in
            let student :=
              assign_if_defined lastName castString Student.set_lastName student in
            let student :=
              assign_if_defined grade (fun v => Num (Number v)) Student.set_grade student in
            let student :=
              assign_if_defined studentNumber castString Student.set_studentNumber student in
            let student :=
              assign_if_defined homeroom castString Student.set_homeroom student in
            if validate_student student
            then (res_json (a_student student),
                  set_students (JS.assign_first this student (students s)) s)
            else (Mongoose.uncaught Mongoose.ValidationError, s)
        end
  end.

Definition delete_students_id (id : string) (s : state) : result :=
  match requireObjectId id "student _id" with
  | Some r => (Some r, s)
  | None =>
      let used := existsb (fun t => equals_id (Test.studentId t) (Str id)) (tests s) in
      if used
      then (res_status_json 400
              (error "Cannot delete student that has tests. Delete/update tests first."), s)
      else
        let this := fun x => equals_id (Student._id x) (Str id) in
        match find this (students s) with
        | None => (res_status_json 404 (error "Student not found"), s)
        | Some deleted =>
            (res_json (a_student deleted),
             set_students (JS.remove_first this (students s)) s)
        end
  end.

(** [POST /tests]: one test for the format of both references, then both
    existence queries ([Promise.all]), the student's answer read first. *)
Definition post_tests (new_id : ObjectId) (req_body : object) (s : state) : result :=
  let studentId := req_body "studentId" in
  let courseId := req_body "courseId" in
  let testName := req_body "testName" in
  let date := req_body "date" in
  let mark := req_body "mark" in
  let outOf := req_body "outOf" in
  let weight := req_body "weight" in
  if JS.not studentId || JS.not courseId || JS.not testName || JS.not date
     || JS.is_undefined mark || JS.is_undefined outOf || JS.is_undefined weight
  then (res_status_json 400 (error "Missing required fields"), s)
  else
    if negb (isValidObjectId studentId) || negb (isValidObjectId courseId)
    then (res_status_json 400 (error "Invalid studentId or courseId"), s)
    else
      let studentExists := existsb (fun x => equals_id (Student._id x) studentId) (students s) in
      let courseExists := existsb (fun c => equals_id (Course._id c) courseId) (courses s) in
      if negb studentExists
      then (res_status_json 400 (error "studentId does not exist"), s)
      else
        if negb courseExists
        then (res_status_json 400 (error "courseId does not exist"), s)
        else
          let created :=
            Test.mk new_id (as_ObjectId studentId) (as_ObjectId courseId)
              (castString testName) (castString date)
              (Number mark) (Number outOf) (Number weight) in
          if validate_test created
          then (res_status_json 201 (a_test created), set_tests (tests s ++ [created]) s)
          else (Mongoose.uncaught Mongoose.ValidationError, s).

Definition put_tests_id (id : string) (req_body : object) (s : state) : result :=
  match requireObjectId id "test _id" with
  | Some r => (Some r, s)
  | None =>
      let studentId := req_body "studentId" in
      let courseId := req_body "courseId" in
      let testName := req_body "testName" in
      let date := req_body "date" in
      let mark := req_body "mark" in
      let outOf := req_body "outOf" in
      let weight := req_body "weight" in
      if JS.is_undefined studentId && JS.is_undefined courseId && JS.is_undefined testName
         && JS.is_undefined date && JS.is_undefined mark && JS.is_undefined outOf
         && JS.is_undefined weight
      then (res_status_json 400 (error "No fields provided to update"), s)
      else
        let this := fun t => equals_id (Test._id t) (Str id) in
        match find this (tests s) with
        | None => (res_status_json 404 (error "Test not found"), s)
        | Some test =>
            if negb (JS.is_undefined studentId) && negb (isValidObjectId studentId)
            then (res_status_json 400 (error "Invalid studentId"), s)
            else
              if negb (JS.is_undefined studentId)
                 && negb (existsb (fun x => equals_id (Student._id x) studentId) (students s))
              then (res_status_json 400 (error "studentId does not exist"), s)
              else
                let test :=
                  assign_if_defined studentId as_ObjectId Test.set_studentId test in
                if negb (JS.is_undefined courseId) && negb (isValidObjectId courseId)
                then (res_status_json 400 (error "Invalid courseId"), s)
                else
                  if negb (JS.is_undefined courseId)
                     && negb (existsb (fun c => equals_id (Course._id c) courseId) (courses s))
                  then (res_status_json 400 (error "courseId does not exist"), s)
                  else
                    let test :=
                      assign_if_defined courseId as_ObjectId Test.set_courseId test in
                    let test :=
                      assign_if_defined testName castString Test.set_testName test in
                    let test := assign_if_defined date castString Test.set_date test in
                    let test := assign_if_defined mark Number Test.set_mark test in
                    let test := assign_if_defined outOf Number Test.set_outOf test in
                    let test := assign_if_defined weight Number Test.set_weight test in
                    if validate_test test
                    then (res_json (a_test test),
                          set_tests (JS.assign_first this test (tests s)) s)
                    else (Mongoose.uncaught Mongoose.ValidationError, s)
        end
  end.

Definition delete_tests_id (id : string) (s : state) : result :=
  match requireObjectId id "test _id" with
  | Some r => (Some r, s)
  | None =>
      let this := fun t => equals_id (Test._id t) (Str id) in
      match find this (tests s) with
      | None => (res_status_json 404 (error "Test not found"), s)
      | Some deleted =>
          (res_json (a_test deleted), set_tests (JS.remove_first this (tests s)) s)
      end
  end.

Definition get_students_id_average (id : string) (s : state) : result :=
  match requireObjectId id "student _id" with
  | Some r => (Some r, s)
  | None =>
      match find (fun x => equals_id (Student._id x) (Str id)) (students s) with
      | None => (res_status_json 404 (error "Student not found"), s)
      | Some student =>
          let studentTests :=
            filter (fun t => equals_id (Test.studentId t) (Str id)) (tests s) in
          if (List.length studentTests =? 0)%nat
          then (res_json (student_average id 0 null), s)
          else
            let avg :=
              JS.div (fold_left JS.add (map percentage studentTests) (JS.of_Z 0))
                (length_number studentTests) in
            (res_json (student_average id (List.length studentTests) (Num avg)), s)
      end
  end.

Definition get_courses_id_average (id : string) (s : state) : result :=
  match requireObjectId id "course _id" with
  | Some r => (Some r, s)
  | None =>
      match find (fun c => equals_id (Course._id c) (Str id)) (courses s) with
      | None => (res_status_json 404 (error "Course not found"), s)
      | Some course =>
          let courseTests :=
            filter (fun t => equals_id (Test.courseId t) (Str id)) (tests s) in
          if (List.length courseTests =? 0)%nat
          then (res_json (course_average id 0 null), s)
          else
            let avg :=
              JS.div (fold_left JS.add (map percentage courseTests) (JS.of_Z 0))
                (length_number courseTests) in
            (res_json (course_average id (List.length courseTests) (Num avg)), s)
      end
  end.

Definition teacher_field (f : string) (x : Teacher.t) : value :=
  if (f =? "_id")%string then Str (Teacher._id x)
  else if (f =? "firstName")%string then Teacher.firstName x
  else if (f =? "lastName")%string then Teacher.lastName x
  else if (f =? "email")%string then Teacher.email x
  else if (f =? "department")%string then Teacher.department x
  else undefined.

Definition course_field (f : string) (x : Course.t) : value :=
  if (f =? "_id")%string then Str (Course._id x)
  else if (f =? "code")%string then Course.code x
  else if (f =? "name")%string then Course.name x
  else if (f =? "teacherId")%string then Str (Course.teacherId x)
  else if (f =? "semester")%string then Course.semester x
  else if (f =? "room")%string then Course.room x
  else if (f =? "schedule")%string then Course.schedule x
  else undefined.

Definition student_field (f : string) (x : Student.t) : value :=
  if (f =? "_id")%string then Str (Student._id x)
  else if (f =? "firstName")%string then Student.firstName x
  else if (f =? "lastName")%string then Student.lastName x
  else if (f =? "grade")%string then Student.grade x
  else if (f =? "studentNumber")%string then Student.studentNumber x
  else if (f =? "homeroom")%string then Student.homeroom x
  else undefined.

Definition test_field (f : string) (x : Test.t) : value :=
  if (f =? "_id")%string then Str (Test._id x)
  else if (f =? "studentId")%string then Str (Test.studentId x)
  else if (f =? "courseId")%string then Str (Test.courseId x)
  else if (f =? "testName")%string then Test.testName x
  else if (f =? "date")%string then Test.date x
  else if (f =? "mark")%string then Num (Test.mark x)
  else if (f =? "outOf")%string then Num (Test.outOf x)
  else if (f =? "weight")%string then Num (Test.weight x)
  else undefined.

Definition entity_field (f : string) (j : json) : value :=
  match j with
  | a_teacher x => teacher_field f x
  | a_course x => course_field f x
  | a_student x => student_field f x
  | a_test x => test_field f x
  | _ => undefined
  end.

Definition referenced (a : aggregate) (id : string) (s : state) : bool :=
  match a with
  | of_student => existsb (fun x => equals_id (Student._id x) (Str id)) (students s)
  | of_course => existsb (fun c => equals_id (Course._id c) (Str id)) (courses s)
  end.

Definition matching (a : aggregate) (id : string) (s : state) : list Test.t :=
  match a with
  | of_student => filter (fun t => equals_id (Test.studentId t) (Str id)) (tests s)
  | of_course => filter (fun t => equals_id (Test.courseId t) (Str id)) (tests s)
  end.

Definition get_id_average (a : aggregate) : string -> state -> result :=
  match a with
  | of_student => get_students_id_average
  | of_course => get_courses_id_average
  end.

Definition average_json (a : aggregate) (id : string) : nat -> value -> json :=
  match a with
  | of_student => student_average id
  | of_course => course_average id
  end.

Definition references_exist (k : resource) (req_body : object) (s : state) : bool :=
  match k with
  | Courses => existsb (fun t => equals_id (Teacher._id t) (req_body "teacherId")) (teachers s)
  | Tests =>
      existsb (fun x => equals_id (Student._id x) (req_body "studentId")) (students s)
      && existsb (fun c => equals_id (Course._id c) (req_body "courseId")) (courses s)
  | _ => true
  end.

Definition lookup (k : resource) (id : string) (s : state) : option json :=
  match k with
  | Teachers =>
      option_map a_teacher (find (fun t => equals_id (Teacher._id t) (Str id)) (teachers s))
  | Courses =>
      option_map a_course (find (fun c => equals_id (Course._id c) (Str id)) (courses s))
  | Students =>
      option_map a_student (find (fun x => equals_id (Student._id x) (Str id)) (students s))
  | Tests =>
      option_map a_test (find (fun t => equals_id (Test._id t) (Str id)) (tests s))
  end.

Definition post (k : resource) : ObjectId -> object -> state -> result :=
  match k with
  | Teachers => post_teachers
  | Courses => post_courses
  | Students => post_students
  | Tests => post_tests
  end.

Definition put_id (k : resource) : string -> object -> state -> result :=
  match k with
  | Teachers => put_teachers_id
  | Courses => put_courses_id
  | Students => put_students_id
  | Tests => put_tests_id
  end.

Definition delete_id (k : resource) : string -> state -> result :=
  match k with
  | Teachers => delete_teachers_id
  | Courses => delete_courses_id
  | Students => delete_students_id
  | Tests => delete_tests_id
  end.

End Handlers.

(** An ObjectId cast for the evaluated examples: a string of 24 hexadecimal
    digits is its own ObjectId, nothing else has one. *)
Definition is_hex_digit (c : Ascii.ascii) : bool :=
  let n := Z.of_nat (Ascii.nat_of_ascii c) in
  ((48 <=? n) && (n <=? 57)) || ((97 <=? n) && (n <=? 102)).

Fixpoint all_hex (s : string) : bool :=
  match s with
  | EmptyString => true
  | String c s' => is_hex_digit c && all_hex s'
  end.

Definition hex24_castObjectId (v : value) : option ObjectId :=
  match v with
  | Str s => if (String.length s =? 24)%nat && all_hex s then Some s else None
  | _ => None
  end.

End ObjectIdApi.

(** ** The specification's vocabulary *)

Module Spec.

(** Data model: the fields a caller supplies, required first. *)
Definition required_fields (k : resource) : list string :=
  match k with
  | Teachers => ["firstName"; "lastName"; "email"; "department"]
  | Courses => ["code"; "name"; "teacherId"; "semester"; "room"]
  | Students => ["firstName"; "lastName"; "grade"; "studentNumber"]
  | Tests => ["studentId"; "courseId"; "testName"; "date"; "mark"; "outOf"; "weight"]
  end.

Definition optional_fields (k : resource) : list string :=
  match k with
  | Courses => ["schedule"]
  | Students => ["homeroom"]
  | _ => []
  end.

Definition fields (k : resource) : list string :=
  required_fields k ++ optional_fields k.

(** The partial-field set of an update is empty. *)
Definition supplies_none (k : resource) (req_body : object) : Prop :=
  Forall (fun f => req_body f = undefined) (fields k).


(** Aggregation: [percentage = 100 * mark / outOf], then the arithmetic
    mean of the percentages. *)
Definition percentage (mark outOf : num) : num :=
  JS.div (JS.mul (JS.of_Z 100) mark) outOf.

Definition arithmetic_mean (xs : list num) : num :=
  JS.div (fold_right JS.add (JS.of_Z 0) xs) (length_number xs).

Definition average (tests : list Test.t) : num :=
  arithmetic_mean (map (fun t => percentage (Test.mark t) (Test.outOf t)) tests).

End Spec.

(** ** Sample data for the evaluated cases *)

Module Sample.

Definition ada : Teacher.t :=
  Teacher.mk 1 (Str "Ada") (Str "Lovelace") (Str "ada@school.ca") (Str "Math").

Definition calculus : Course.t :=
  Course.mk 1 (Str "MCV4U") (Str "Calculus") 1 (Str "S1") (Str "204") undefined.

Definition sam : Student.t :=
  Student.mk 1 (Str "Sam") (Str "Lee") (Num (JS.of_Z 12)) (Str "S001") undefined.

Definition sam_12B : Student.t :=
  Student.mk 1 (Str "Sam") (Str "Lee") (Num (JS.of_Z 12)) (Str "S001") (Str "12B").

(** A test of student 1 in course 1. *)
Definition quiz (id mark outOf weight : Z) : Test.t :=
  Test.mk id 1 1 (Str "Quiz") (Str "2025-10-01")
    (JS.of_Z mark) (JS.of_Z outOf) (JS.of_Z weight).

(** An object literal. *)
Definition object_of (l : list (string * value)) : object :=
  fold_right (fun kv o => JS.with_field (fst kv) (snd kv) o) JS.empty_object l.

Definition ada_body : object :=
  object_of [("firstName", Str "Ada"); ("lastName", Str "Lovelace");
             ("email", Str "ada@school.ca"); ("department", Str "Math")].

(** Three teachers created, the second deleted in between. *)
Definition three_creates_one_delete : list CounterApi.request :=
  [CounterApi.POST Teachers ada_body; CounterApi.POST Teachers ada_body;
   CounterApi.DELETE_id Teachers "2"; CounterApi.POST Teachers ada_body].

Definition oid1 : ObjectIdApi.ObjectId := "65a000000000000000000001".
Definition oid2 : ObjectIdApi.ObjectId := "65a000000000000000000002".
Definition oid3 : ObjectIdApi.ObjectId := "65a000000000000000000003".

Definition sam_doc : ObjectIdApi.Student.t :=
  ObjectIdApi.Student.mk oid1 (Str "Sam") (Str "Lee") (Num (JS.of_Z 12)) (Str "S001") (Str "").

Definition calculus_doc : ObjectIdApi.Course.t :=
  ObjectIdApi.Course.mk oid2 (Str "MCV4U") (Str "Calculus") oid3 (Str "S1") (Str "204") (Str "").

Definition quiz_doc (id : ObjectIdApi.ObjectId) (mark outOf weight : Z) : ObjectIdApi.Test.t :=
  ObjectIdApi.Test.mk id oid1 oid2 (Str "Quiz") (Str "2025-10-01")
    (JS.of_Z mark) (JS.of_Z outOf) (JS.of_Z weight).

End Sample.

(** ** The counter of a kind in the counter variant *)

(** The value [getNextId] gives next: [seq] of the kind's counter plus 1. *)
Definition counter_next (k : resource) (s : CounterApi.state) : Z :=
  CounterApi.current_seq (CounterApi.sequenceName k) (CounterApi.counters s) + 1.

(** ** Responses by name *)

(** The 404 of a by-id route. *)
Definition not_found_message (k : resource) : string :=
  match k with
  | Teachers => "Teacher not found"
  | Courses => "Course not found"
  | Students => "Student not found"
  | Tests => "Test not found"
  end.

Definition not_found (k : resource) : option response :=
  res_status_json 404 (error (not_found_message k)).

(** The 400 of an update that supplies nothing. *)
Definition no_fields_provided : option response :=
  res_status_json 400 (error "No fields provided to update").

Definition objectid_not_found (k : resource) : option ObjectIdApi.response :=
  ObjectIdApi.res_status_json 404 (ObjectIdApi.error (not_found_message k)).

Definition objectid_no_fields_provided : option ObjectIdApi.response :=
  ObjectIdApi.res_status_json 400 (ObjectIdApi.error "No fields provided to update").

(** The 400 of [requireObjectId] on a path identifier. *)
Definition invalid_path_id (k : resource) : option ObjectIdApi.response :=
  ObjectIdApi.res_status_json 400
    (ObjectIdApi.error
       match k with
       | Teachers => "Invalid teacher _id"
       | Courses => "Invalid course _id"
       | Students => "Invalid student _id"
       | Tests => "Invalid test _id"
       end).

(** ** The references of a test body *)

(** Whether [studentId] (or [courseId]) of a body names a stored record. *)
Definition json_student_stored str2num (req_body : object) (s : JsonFileApi.state) : bool :=
  existsb (fun x => JS.strict_equals_id (Student.id x)
                      (JS.Number str2num (req_body "studentId")))
    (JsonFileApi.students s).

Definition json_course_stored str2num (req_body : object) (s : JsonFileApi.state) : bool :=
  existsb (fun c => JS.strict_equals_id (Course.id c)
                      (JS.Number str2num (req_body "courseId")))
    (JsonFileApi.courses s).







(** ** What an update stores *)


(** The form in which a supplied value is stored: a reference as the
    identifier [Number] of it denotes (in the ObjectId variant, as the
    ObjectId it casts to), a mark, total or weight (and, in the two MongoDB
    variants, a grade) as [Number] of it; anything else as it is in the
    JSON-file variant and as the [String] path of the schema casts it in the
    two MongoDB variants. *)
Definition reference_number str2num (v : value) : value :=
  Num (JS.of_Z (JS.as_id (JS.Number str2num v))).

Definition json_stored_form str2num (k : resource) (f : string) (v : value) : value :=
  match k with
  | Courses => if (f =? "teacherId")%string then reference_number str2num v else v
  | Tests =>
      if (f =? "studentId")%string || (f =? "courseId")%string
      then reference_number str2num v
      else if (f =? "mark")%string || (f =? "outOf")%string || (f =? "weight")%string
           then Num (JS.Number str2num v)
           else v
  | _ => v
  end.

Definition counter_stored_form str2num num2str (k : resource) (f : string) (v : value)
    : value :=
  match k with
  | Teachers => Mongoose.castString num2str v
  | Courses =>
      if (f =? "teacherId")%string then reference_number str2num v
      else Mongoose.castString num2str v
  | Students =>
      if (f =? "grade")%string then Num (JS.Number str2num v)
      else Mongoose.castString num2str v
  | Tests =>
      if (f =? "studentId")%string || (f =? "courseId")%string
      then reference_number str2num v
      else if (f =? "mark")%string || (f =? "outOf")%string || (f =? "weight")%string
           then Num (JS.Number str2num v)
           else Mongoose.castString num2str v
  end.

Definition objectid_stored_form str2num num2str cast (k : resource) (f : string)
    (v : value) : value :=
  match k with
  | Teachers => Mongoose.castString num2str v
  | Courses =>
      if (f =? "teacherId")%string then Str (ObjectIdApi.as_ObjectId cast v)
      else Mongoose.castString num2str v
  | Students =>
      if (f =? "grade")%string then Num (JS.Number str2num v)
      else Mongoose.castString num2str v
  | Tests =>
      if (f =? "studentId")%string || (f =? "courseId")%string
      then Str (ObjectIdApi.as_ObjectId cast v)
      else if (f =? "mark")%string || (f =? "outOf")%string || (f =? "weight")%string
           then Num (JS.Number str2num v)
           else Mongoose.castString num2str v
  end.


(** The file of a kind holds the array of the kind. *)
Definition json_saved (k : resource) (s : JsonFileApi.state) : Prop :=
  match k with
  | Teachers => JsonFileApi.teachers_file s = JsonFileApi.teachers s
  | Courses => JsonFileApi.courses_file s = JsonFileApi.courses s
  | Students => JsonFileApi.students_file s = JsonFileApi.students s
  | Tests => JsonFileApi.tests_file s = JsonFileApi.tests s
  end.

(** ** The outcome of a create *)







(** ** States that differ in the weights only *)

Definition json_with_weights (g : Test.t -> num) (s : JsonFileApi.state) : JsonFileApi.state :=
  JsonFileApi.set_tests (map (fun t => Test.set_weight (g t) t) (JsonFileApi.tests s)) s.

Definition counter_with_weights (g : Test.t -> num) (s : CounterApi.state) : CounterApi.state :=
  CounterApi.set_tests (map (fun t => Test.set_weight (g t) t) (CounterApi.tests s)) s.

Definition objectid_with_weights (g : ObjectIdApi.Test.t -> num) (s : ObjectIdApi.state)
    : ObjectIdApi.state :=
  ObjectIdApi.set_tests
    (map (fun t => ObjectIdApi.Test.set_weight (g t) t) (ObjectIdApi.tests s)) s.

(** ** The records of a kind and what refers to them *)

(** The records of a kind, in stored order, as the entities the responses
    carry. *)
Definition json_collection (k : resource) (s : JsonFileApi.state) : list json :=
  match k with
  | Teachers => map a_teacher (JsonFileApi.teachers s)
  | Courses => map a_course (JsonFileApi.courses s)
  | Students => map a_student (JsonFileApi.students s)
  | Tests => map a_test (JsonFileApi.tests s)
  end.

Definition counter_collection (k : resource) (s : CounterApi.state) : list json :=
  match k with
  | Teachers => map a_teacher (CounterApi.teachers s)
  | Courses => map a_course (CounterApi.courses s)
  | Students => map a_student (CounterApi.students s)
  | Tests => map a_test (CounterApi.tests s)
  end.

Definition objectid_collection (k : resource) (s : ObjectIdApi.state)
    : list ObjectIdApi.json :=
  match k with
  | Teachers => map ObjectIdApi.a_teacher (ObjectIdApi.teachers s)
  | Courses => map ObjectIdApi.a_course (ObjectIdApi.courses s)
  | Students => map ObjectIdApi.a_student (ObjectIdApi.students s)
  | Tests => map ObjectIdApi.a_test (ObjectIdApi.tests s)
  end.

(** The identifiers of a collection of the ObjectId variant. *)
Definition objectid_ids (k : resource) (s : ObjectIdApi.state)
    : list ObjectIdApi.ObjectId :=
  match k with
  | Teachers => map ObjectIdApi.Teacher._id (ObjectIdApi.teachers s)
  | Courses => map ObjectIdApi.Course._id (ObjectIdApi.courses s)
  | Students => map ObjectIdApi.Student._id (ObjectIdApi.students s)
  | Tests => map ObjectIdApi.Test._id (ObjectIdApi.tests s)
  end.

(** The identifier of the entity a response carries. *)
Definition entity_id (j : json) : option Z :=
  match j with
  | a_teacher x => Some (Teacher.id x)
  | a_course x => Some (Course.id x)
  | a_student x => Some (Student.id x)
  | a_test x => Some (Test.id x)
  | _ => None
  end.

Definition objectid_entity_id (j : ObjectIdApi.json) : option ObjectIdApi.ObjectId :=
  match j with
  | ObjectIdApi.a_teacher x => Some (ObjectIdApi.Teacher._id x)
  | ObjectIdApi.a_course x => Some (ObjectIdApi.Course._id x)
  | ObjectIdApi.a_student x => Some (ObjectIdApi.Student._id x)
  | ObjectIdApi.a_test x => Some (ObjectIdApi.Test._id x)
  | _ => None
  end.

(** Every reference names a stored record: the teacher of each course, the
    student and the course of each test. *)
Definition counter_references_resolve (s : CounterApi.state) : Prop :=
  (forall c, In c (CounterApi.courses s) ->
     In (Course.teacherId c) (CounterApi.ids Teachers s))
  /\ (forall t, In t (CounterApi.tests s) ->
        In (Test.studentId t) (CounterApi.ids Students s)
        /\ In (Test.courseId t) (CounterApi.ids Courses s)).

Definition objectid_references_resolve (s : ObjectIdApi.state) : Prop :=
  (forall c, In c (ObjectIdApi.courses s) ->
     In (ObjectIdApi.Course.teacherId c) (objectid_ids Teachers s))
  /\ (forall t, In t (ObjectIdApi.tests s) ->
        In (ObjectIdApi.Test.studentId t) (objectid_ids Students s)
        /\ In (ObjectIdApi.Test.courseId t) (objectid_ids Courses s)).

(** A record of kind [k] with identifier [i] is referred to: a teacher by a
    course, a course or a student by a test.  Nothing refers to a test. *)
Definition counter_referenced_by (k : resource) (i : Z) (s : CounterApi.state) : Prop :=
  match k with
  | Teachers => exists c, In c (CounterApi.courses s) /\ Course.teacherId c = i
  | Courses => exists t, In t (CounterApi.tests s) /\ Test.courseId t = i
  | Students => exists t, In t (CounterApi.tests s) /\ Test.studentId t = i
  | Tests => False
  end.

Definition objectid_referenced_by (k : resource) (i : ObjectIdApi.ObjectId)
    (s : ObjectIdApi.state) : Prop :=
  match k with
  | Teachers =>
      exists c, In c (ObjectIdApi.courses s) /\ ObjectIdApi.Course.teacherId c = i
  | Courses => exists t, In t (ObjectIdApi.tests s) /\ ObjectIdApi.Test.courseId t = i
  | Students => exists t, In t (ObjectIdApi.tests s) /\ ObjectIdApi.Test.studentId t = i
  | Tests => False
  end.

(** The routes that only read: every route but create, update and delete. *)
Definition json_is_read (r : JsonFileApi.request) : bool :=
  match r with
  | JsonFileApi.POST _ _ | JsonFileApi.PUT_id _ _ _ | JsonFileApi.DELETE_id _ _ => false
  | _ => true
  end.

Definition counter_is_read (r : CounterApi.request) : bool :=
  match r with
  | CounterApi.POST _ _ | CounterApi.PUT_id _ _ _ | CounterApi.DELETE_id _ _ => false
  | _ => true
  end.

(** The two routes [/students/:id/tests] and [/courses/:id/tests] of the
    counter variant. *)
Definition counter_get_id_tests str2num (a : aggregate)
    : string -> CounterApi.state -> CounterApi.result :=
  match a with
  | of_student => CounterApi.get_students_id_tests str2num
  | of_course => CounterApi.get_courses_id_tests str2num
  end.

(** The reference of a test an aggregate route selects on. *)
Definition test_reference (a : aggregate) (t : Test.t) : Z :=
  match a with
  | of_student => Test.studentId t
  | of_course => Test.courseId t
  end.

Definition aggregate_of (a : aggregate) : resource :=
  match a with
  | of_student => Students
  | of_course => Courses
  end.

(** ** What a create stores *)

(** The form in which a create stores the value of a field: an optional
    field ([schedule], [homeroom]) is left out by the JSON-file variant and
    is [value || ""], cast by its [String] path, in the two MongoDB
    variants; any other field is stored as an update stores it. *)
Definition is_optional (k : resource) (f : string) : bool :=
  existsb (String.eqb f) (Spec.optional_fields k).

Definition json_created_form str2num (k : resource) (f : string) (v : value) : value :=
  if is_optional k f then undefined else json_stored_form str2num k f v.

Definition counter_created_form str2num num2str (k : resource) (f : string) (v : value)
    : value :=
  if is_optional k f then Mongoose.castString num2str (JS.or v (Str ""))
  else counter_stored_form str2num num2str k f v.

Definition objectid_created_form str2num num2str cast (k : resource) (f : string)
    (v : value) : value :=
  if is_optional k f then Mongoose.castString num2str (JS.or v (Str ""))
  else objectid_stored_form str2num num2str cast k f v.

(** ** The files of the JSON-file variant *)

(** The process started again: the module is loaded from the files as they
    are.  A file holds the array [saveJson] wrote; that the JSON text of a
    record reads back as the record (true of what JSON represents, so of
    every record that was itself read from a file) is taken for granted. *)
Definition json_restart (s : JsonFileApi.state) : JsonFileApi.state :=
  JsonFileApi.startup (JsonFileApi.teachers_file s) (JsonFileApi.courses_file s)
    (JsonFileApi.students_file s) (JsonFileApi.tests_file s).

(** The content of the file of a kind. *)
Definition json_file (k : resource) (s : JsonFileApi.state) : list json :=
  match k with
  | Teachers => map a_teacher (JsonFileApi.teachers_file s)
  | Courses => map a_course (JsonFileApi.courses_file s)
  | Students => map a_student (JsonFileApi.students_file s)
  | Tests => map a_test (JsonFileApi.tests_file s)
  end.

(** The fields the emptiness test of an update of the JSON-file variant
    reads by truthiness, and those it compares with [undefined]. *)
Definition json_truthy_checked (k : resource) : list string :=
  match k with
  | Tests => ["studentId"; "courseId"; "testName"; "date"]
  | _ => Spec.required_fields k
  end.

Definition json_undefined_checked (k : resource) : list string :=
  match k with
  | Tests => ["mark"; "outOf"; "weight"]
  | _ => []
  end.

Definition json_counts_as_empty (k : resource) (req_body : object) : Prop :=
  Forall (fun f => JS.truthy (req_body f) = false) (json_truthy_checked k)
  /\ Forall (fun f => req_body f = undefined) (json_undefined_checked k).

(** ** The [populate] query parameter of the ObjectId variant *)

(** A string is read here as the sequence of its code units, each below 256.
    The code units [String.prototype.trim] strips are then TAB, LF, VT, FF,
    CR, SPACE and NO-BREAK SPACE. *)
Definition is_white_space (c : Ascii.ascii) : bool :=
  let n := Z.of_nat (Ascii.nat_of_ascii c) in
  ((9 <=? n) && (n <=? 13)) || (n =? 32) || (n =? 160).

(** The code unit of [","]. *)
Definition comma : Ascii.ascii := Ascii.ascii_of_nat 44.

Fixpoint trimStart (s : string) : string :=
  match s with
  | String c s' => if is_white_space c then trimStart s' else s
  | EmptyString => EmptyString
  end.

Fixpoint trimEnd (s : string) : string :=
  match s with
  | EmptyString => EmptyString
  | String c s' =>
      match trimEnd s' with
      | EmptyString => if is_white_space c then EmptyString else String c EmptyString
      | t => String c t
      end
  end.

(** [s.trim()] *)
Definition trim (s : string) : string := trimEnd (trimStart s).

(** [s.split(",")]: the pieces between the commas, the empty string giving
    one empty piece. *)
Fixpoint split_comma (s : string) : list string :=
  match s with
  | EmptyString => [EmptyString]
  | String c s' =>
      if Ascii.eqb c comma then EmptyString :: split_comma s'
      else match split_comma s' with
           | p :: ps => String c p :: ps
           | [] => [String c EmptyString]
           end
  end.

(** [new Set(array)]: the elements in the order of their first occurrence;
    [set.has(x)]. *)
Definition Set_has (set : list string) (x : string) : bool :=
  existsb (String.eqb x) set.

Definition Set_add (set : list string) (x : string) : list string :=
  if Set_has set x then set else (set ++ [x])%list.

Definition new_Set (array : list string) : list string :=
  fold_left Set_add array [].

(** [parsePopulateParam(populateStr)], for [req.query.populate] absent
    ([None]) or a string; a repeated or bracketed parameter, which Express
    parses into an array or an object, is not covered. *)
Definition parsePopulateParam (populateStr : option string) : list string :=
  match populateStr with
  | None => new_Set []
  | Some s =>
      if (s =? "")%string then new_Set []
      else new_Set (filter (fun p => negb (p =? "")%string) (map trim (split_comma s)))
  end.

(** No comma occurs in a string. *)
Fixpoint comma_free (s : string) : bool :=
  match s with
  | EmptyString => true
  | String c s' => negb (Ascii.eqb c comma) && comma_free s'
  end.

(** A string does not begin with white space. *)
Definition head_is_kept (s : string) : Prop :=
  match s with
  | String c _ => is_white_space c = false
  | EmptyString => True
  end.

(** ** A small school for the evaluated cases *)

Module Scenario.

Definition calculus_body : object :=
  Sample.object_of
    [("code", Str "MCV4U"); ("name", Str "Calculus"); ("teacherId", Num (JS.of_Z 1));
     ("semester", Str "S1"); ("room", Str "204")].

Definition sam_body : object :=
  Sample.object_of
    [("firstName", Str "Sam"); ("lastName", Str "Lee"); ("grade", Num (JS.of_Z 12));
     ("studentNumber", Str "S001")].

Definition sam_12B_body : object := JS.with_field "homeroom" (Str "12B") sam_body.

Definition quiz_body : object :=
  Sample.object_of
    [("studentId", Num (JS.of_Z 1)); ("courseId", Num (JS.of_Z 1));
     ("testName", Str "Quiz"); ("date", Str "2025-10-01");
     ("mark", Num (JS.of_Z 8)); ("outOf", Num (JS.of_Z 10)); ("weight", Num (JS.of_Z 1))].

(** Sam as the counter variant stores him: the homeroom defaults to "". *)
Definition sam_enrolled : Student.t :=
  Student.mk 1 (Str "Sam") (Str "Lee") (Num (JS.of_Z 12)) (Str "S001") (Str "").

Definition kim : Student.t :=
  Student.mk 2 (Str "Kim") (Str "Roy") (Num (JS.of_Z 11)) (Str "S002") undefined.

(** One teacher, her course, one student and his quiz. *)
Definition school : CounterApi.state :=
  CounterApi.mk_state
    [CounterApi.Counter.mk "teachers" 1; CounterApi.Counter.mk "courses" 1;
     CounterApi.Counter.mk "students" 1; CounterApi.Counter.mk "tests" 1]
    [Sample.ada] [Sample.calculus] [Sample.sam] [Sample.quiz 1 8 10 1].

Definition school_without_quiz : CounterApi.state :=
  CounterApi.mk_state
    [CounterApi.Counter.mk "teachers" 1; CounterApi.Counter.mk "courses" 1;
     CounterApi.Counter.mk "students" 1; CounterApi.Counter.mk "tests" 1]
    [Sample.ada] [Sample.calculus] [Sample.sam] [].

Definition empty_school : CounterApi.state := CounterApi.mk_state [] [] [] [] [].

Definition school_with_ada : CounterApi.state :=
  CounterApi.mk_state [CounterApi.Counter.mk "teachers" 1] [Sample.ada] [] [] [].

Definition school_with_sam : CounterApi.state :=
  CounterApi.mk_state [CounterApi.Counter.mk "students" 1] [] [] [sam_enrolled] [].

(** The school is built, then taken apart in an order the guards allow;
    the first delete is refused. *)
Definition a_school_year : list CounterApi.request :=
  [CounterApi.POST Teachers Sample.ada_body; CounterApi.POST Courses calculus_body;
   CounterApi.POST Students sam_body; CounterApi.POST Tests quiz_body;
   CounterApi.DELETE_id Teachers "1";
   CounterApi.PUT_id Tests "1" (Sample.object_of [("mark", Num (JS.of_Z 9))]);
   CounterApi.DELETE_id Tests "1"; CounterApi.DELETE_id Courses "1";
   CounterApi.DELETE_id Teachers "1"].

(** The files of the JSON-file variant with the same school and a second
    student. *)
Definition school_files : JsonFileApi.state :=
  JsonFileApi.startup [Sample.ada] [Sample.calculus] [Sample.sam; kim]
    [Sample.quiz 1 8 10 1].

Definition no_files : JsonFileApi.state := JsonFileApi.startup [] [] [] [].

(** [no_files] after [POST /teachers] with Ada's body. *)
Definition files_with_ada : JsonFileApi.state :=
  JsonFileApi.mk_state [Sample.ada] [] [] [] 2 1 1 1 [Sample.ada] [] [] [].

(** The same school in the ObjectId variant. *)
Definition oid4 : ObjectIdApi.ObjectId := "65a000000000000000000004".

Definition ada_doc : ObjectIdApi.Teacher.t :=
  ObjectIdApi.Teacher.mk Sample.oid3 (Str "Ada") (Str "Lovelace") (Str "ada@school.ca")
    (Str "Math").

Definition school_docs : ObjectIdApi.state :=
  ObjectIdApi.mk_state [ada_doc] [Sample.calculus_doc] [Sample.sam_doc]
    [Sample.quiz_doc oid4 8 10 1].

Definition school_docs_without_quiz : ObjectIdApi.state :=
  ObjectIdApi.mk_state [ada_doc] [Sample.calculus_doc] [Sample.sam_doc] [].

Definition no_docs : ObjectIdApi.state := ObjectIdApi.mk_state [] [] [] [].

Definition docs_with_ada : ObjectIdApi.state := ObjectIdApi.mk_state [ada_doc] [] [] [].

End Scenario.

(** ** Auxiliary facts about lists and values *)

Lemma find_none_existsb {A} (p : A -> bool) (l : list A) :
  find p l = None <-> existsb p l = false.
Proof.
  induction l as [|x l IH]; simpl; [tauto|].
  destruct (p x); simpl; [split; discriminate | exact IH].
Qed.

Lemma existsb_true_find {A} (p : A -> bool) (l : list A) :
  existsb p l = true -> exists x, find p l = Some x /\ p x = true.
Proof.
  induction l as [|x l IH]; simpl; [discriminate|].
  destruct (p x) eqn:E; simpl; eauto.
Qed.

Lemma find_some_existsb {A} (p : A -> bool) (l : list A) x :
  find p l = Some x -> existsb p l = true.
Proof.
  intros H. destruct (existsb p l) eqn:E; [reflexivity|].
  apply find_none_existsb in E. congruence.
Qed.

Lemma length_eqb_0_nonempty {A} (l : list A) :
  l <> [] -> (List.length l =? 0)%nat = false.
Proof. destruct l; [congruence | reflexivity]. Qed.

Lemma filter_map_same {A} (p : A -> bool) (f : A -> A) (l : list A) :
  (forall x, p (f x) = p x) -> filter p (map f l) = map f (filter p l).
Proof.
  intros Hp. induction l as [|x l IH]; simpl; [reflexivity|].
  rewrite Hp. destruct (p x); simpl; congruence.
Qed.

Lemma map_map_same {A B} (g : A -> B) (f : A -> A) (l : list A) :
  (forall x, g (f x) = g x) -> map g (map f l) = map g l.
Proof.
  intros Hg. rewrite map_map. apply map_ext. exact Hg.
Qed.

Lemma find_assign_first {A} (p : A -> bool) (x' : A) (l : list A) :
  p x' = true -> find p l <> None -> find p (JS.assign_first p x' l) = Some x'.
Proof.
  intros Hx. induction l as [|x l IH]; simpl; [congruence|].
  destruct (p x) eqn:E; simpl.
  - rewrite Hx. reflexivity.
  - rewrite E. exact IH.
Qed.

Lemma map_assign_first {A} (f : A -> Z) (p : A -> bool) (x x' : A) (l : list A) :
  find p l = Some x -> f x' = f x -> map f (JS.assign_first p x' l) = map f l.
Proof.
  intros Hf Hx. induction l as [|y l IH]; simpl in *; [reflexivity|].
  destruct (p y).
  - inversion Hf; subst. simpl. congruence.
  - simpl. rewrite IH by exact Hf. reflexivity.
Qed.

Lemma map_assign_first_twice {A} (f : A -> Z) (p : A -> bool) (x x1 x2 : A) (l : list A) :
  find p l = Some x -> f x1 = f x -> f x2 = f x -> p x1 = true ->
  map f (JS.assign_first p x2 (JS.assign_first p x1 l)) = map f l.
Proof.
  intros Hf H1 H2 Hp.
  rewrite (map_assign_first f p x1 x2 (JS.assign_first p x1 l)).
  - apply (map_assign_first f p x x1 l Hf H1).
  - apply find_assign_first; [exact Hp | congruence].
  - congruence.
Qed.

Lemma incl_remove_first {A} (f : A -> Z) (p : A -> bool) (l : list A) :
  incl (map f (JS.remove_first p l)) (map f l).
Proof.
  induction l as [|y l IH]; simpl; [apply incl_refl|].
  destruct (p y); simpl.
  - apply incl_tl, incl_refl.
  - apply incl_cons; [left; reflexivity | apply incl_tl, IH].
Qed.

Lemma NoDup_remove_first {A} (f : A -> Z) (p : A -> bool) (l : list A) :
  NoDup (map f l) -> NoDup (map f (JS.remove_first p l)).
Proof.
  induction l as [|y l IH]; simpl; [auto|].
  intros H. inversion H as [|? ? Hy Hl]; subst.
  destruct (p y); simpl; [exact Hl|].
  constructor; [|apply IH, Hl].
  intros Hin. apply Hy. apply (incl_remove_first f p l). exact Hin.
Qed.

Lemma strict_equals_id_NaN (i : Z) (n : num) :
  JS.isNaN n = true -> JS.strict_equals_id i n = false.
Proof. destruct n; simpl; intros H; try discriminate; reflexivity. Qed.

Lemma find_by_NaN {A} (f : A -> Z) (n : num) (l : list A) :
  JS.isNaN n = true -> find (fun x => JS.strict_equals_id (f x) n) l = None.
Proof.
  intros H. induction l as [|x l IH]; simpl; [reflexivity|].
  rewrite strict_equals_id_NaN by exact H. exact IH.
Qed.

Lemma existsb_by_NaN {A} (f : A -> Z) (n : num) (l : list A) :
  JS.isNaN n = true -> existsb (fun x => JS.strict_equals_id (f x) n) l = false.
Proof.
  intros H. apply find_none_existsb, find_by_NaN, H.
Qed.

(** A number that equals a stored identifier is a condition Mongoose
    accepts. *)
Lemma strict_equals_id_is_number (i : Z) (n : num) :
  JS.strict_equals_id i n = true -> Mongoose.rejects_condition n = false.
Proof. destruct n; simpl; intros H; try discriminate; reflexivity. Qed.

Lemma integer_value_is_number (n : num) (i : Z) :
  JS.integer_value n = Some i -> Mongoose.rejects_condition n = false.
Proof. destruct n; simpl; intros H; try discriminate; reflexivity. Qed.

Lemma find_is_number {A} (f : A -> Z) (n : num) (l : list A) (x : A) :
  find (fun x => JS.strict_equals_id (f x) n) l = Some x ->
  Mongoose.rejects_condition n = false.
Proof.
  intros H. apply find_some in H. apply (strict_equals_id_is_number (f x)), H.
Qed.

Lemma existsb_is_number {A} (f : A -> Z) (n : num) (l : list A) :
  existsb (fun x => JS.strict_equals_id (f x) n) l = true ->
  Mongoose.rejects_condition n = false.
Proof.
  intros H. apply existsb_exists in H. destruct H as (x & _ & H).
  apply (strict_equals_id_is_number (f x)), H.
Qed.

Lemma is_undefined_true (v : value) : JS.is_undefined v = true -> v = undefined.
Proof. destruct v; simpl; congruence. Qed.

(** A projection of a record after [if (v !== undefined) x.field = ...]. *)
Lemma projection_assign {A B C} (proj : A -> C) (v : value) (coerce : value -> B)
    (set : B -> A -> A) (x : A) :
  proj (assign_if_defined v coerce set x)
  = if JS.is_undefined v then proj x else proj (set (coerce v) x).
Proof. unfold assign_if_defined. destruct (JS.is_undefined v); reflexivity. Qed.

Lemma if_same {C} (b : bool) (c : C) : (if b then c else c) = c.
Proof. destruct b; reflexivity. Qed.

(** ** Tactics for the route handlers *)

Local Arguments String.eqb : simpl never.

(** A query that found a record was not rejected. *)
Ltac condition_is_number :=
  repeat match goal with
         | H : find (fun x => JS.strict_equals_id (@?f x) ?n) ?l = Some ?y
           |- context [Mongoose.rejects_condition ?n] =>
             rewrite (find_is_number f n l y H)
         | H : existsb (fun x => JS.strict_equals_id (@?f x) ?n) ?l = true
           |- context [Mongoose.rejects_condition ?n] =>
             rewrite (existsb_is_number f n l H)
         end.

Ltac split_fields H :=
  unfold Spec.supplies_none, Spec.fields in H; simpl in H;
  repeat (apply Forall_cons_iff in H; let E := fresh "E" in destruct H as [E H]);
  clear H.

Ltac rewrite_fields :=
  repeat match goal with
         | E : _ _ = undefined |- _ => rewrite !E; clear E
         end.

Ltac case_fields req_body :=
  repeat match goal with
         | |- context [JS.is_undefined (req_body ?f)] =>
             let E := fresh "E" in destruct (JS.is_undefined (req_body f)) eqn:E
         end.

Ltac fields_all_undefined H :=
  exfalso; apply H; unfold Spec.supplies_none, Spec.fields; simpl;
  repeat constructor; apply is_undefined_true; assumption.

Ltac case_handler :=
  repeat match goal with
         | |- context [match find ?p ?l with _ => _ end] =>
             let E := fresh "E" in destruct (find p l) eqn:E
         | |- context [if ?c then _ else _] =>
             let E := fresh "E" in destruct c eqn:E
         | |- context [let (_, _) := ?c in _] =>
             let E := fresh "E" in destruct c eqn:E
         end.




Ltac unfold_posts :=
  cbv [JsonFileApi.post CounterApi.post ObjectIdApi.post];
  unfold JsonFileApi.post_teachers, JsonFileApi.post_courses, JsonFileApi.post_students,
    JsonFileApi.post_tests, CounterApi.post_teachers, CounterApi.post_courses,
    CounterApi.post_students, CounterApi.post_tests, ObjectIdApi.post_teachers,
    ObjectIdApi.post_courses, ObjectIdApi.post_students, ObjectIdApi.post_tests.


Ltac unfold_json_routes :=
  cbv [JsonFileApi.app JsonFileApi.get JsonFileApi.get_id JsonFileApi.post
       JsonFileApi.put_id JsonFileApi.delete_id];
  unfold JsonFileApi.get_teachers, JsonFileApi.get_teachers_id, JsonFileApi.post_teachers,
    JsonFileApi.put_teachers_id, JsonFileApi.delete_teachers_id,
    JsonFileApi.get_courses, JsonFileApi.get_courses_id, JsonFileApi.post_courses,
    JsonFileApi.put_courses_id, JsonFileApi.delete_courses_id,
    JsonFileApi.get_students, JsonFileApi.get_students_id, JsonFileApi.post_students,
    JsonFileApi.put_students_id, JsonFileApi.delete_students_id,
    JsonFileApi.get_tests, JsonFileApi.get_tests_id, JsonFileApi.post_tests,
    JsonFileApi.put_tests_id, JsonFileApi.delete_tests_id,
    JsonFileApi.get_courses_id_average;
  cbv zeta.

Ltac unfold_counter_routes :=
  cbv [CounterApi.app CounterApi.get CounterApi.get_id CounterApi.post
       CounterApi.put_id CounterApi.delete_id];
  unfold CounterApi.get_teachers, CounterApi.get_teachers_id, CounterApi.post_teachers,
    CounterApi.put_teachers_id, CounterApi.delete_teachers_id,
    CounterApi.get_courses, CounterApi.get_courses_id, CounterApi.post_courses,
    CounterApi.put_courses_id, CounterApi.delete_courses_id,
    CounterApi.get_students, CounterApi.get_students_id, CounterApi.post_students,
    CounterApi.put_students_id, CounterApi.delete_students_id,
    CounterApi.get_tests, CounterApi.get_tests_id, CounterApi.post_tests,
    CounterApi.put_tests_id, CounterApi.delete_tests_id,
    CounterApi.get_students_id_tests, CounterApi.get_courses_id_tests,
    CounterApi.get_students_id_average, CounterApi.get_courses_id_average;
  cbv zeta.

Ltac push_projections :=
  repeat match goal with
         | |- context [?proj (assign_if_defined ?v ?coerce ?set ?x)] =>
             lazymatch proj with
             | assign_if_defined _ _ _ => fail
             | _ => rewrite (projection_assign proj v coerce set x); simpl;
                    rewrite ?if_same
             end
         end.






Ltac ids_kept :=
  left; split; [reflexivity|]; split; [apply Z.le_refl|];
  simpl in *;
  repeat match goal with
         | E : find ?p ?l = Some ?x
           |- context [map ?f (JS.assign_first ?p ?x2 (JS.assign_first ?p ?x1 ?l))] =>
             rewrite (map_assign_first_twice f p x x1 x2 l E)
               by (push_projections;
                   first [reflexivity | exact (proj2 (find_some _ _ E))])
         | E : find ?p ?l = Some ?x |- context [map ?f (JS.assign_first ?p ?x' ?l)] =>
             rewrite (map_assign_first f p x x' l E) by (push_projections; reflexivity)
         end;
  split;
  [ first [apply incl_refl | apply incl_remove_first]
  | first [exact (fun H => H) | apply NoDup_remove_first] ].

Ltac id_appended :=
  right; simpl; rewrite ?map_app; repeat split; reflexivity.

(** ** The counters of the counter variant *)

Lemma inc_seq_spec (name : string) (cs : list CounterApi.Counter.t) :
  CounterApi.Counter.seq (fst (CounterApi.findByIdAndUpdate_inc_seq name cs))
  = CounterApi.current_seq name cs + 1
  /\ CounterApi.current_seq name (snd (CounterApi.findByIdAndUpdate_inc_seq name cs))
     = CounterApi.current_seq name cs + 1
  /\ (forall n, n <> name ->
        CounterApi.current_seq n (snd (CounterApi.findByIdAndUpdate_inc_seq name cs))
        = CounterApi.current_seq n cs).
Proof.
  unfold CounterApi.current_seq.
  induction cs as [|c cs IH]; simpl.
  - rewrite String.eqb_refl. repeat split.
    intros n Hn. apply String.eqb_neq in Hn. rewrite String.eqb_sym, Hn. reflexivity.
  - destruct (String.eqb_spec (CounterApi.Counter._id c) name) as [He|He]; simpl.
    + rewrite He, String.eqb_refl. repeat split.
      intros n Hn. apply String.eqb_neq in Hn. rewrite String.eqb_sym, Hn. reflexivity.
    + destruct (CounterApi.findByIdAndUpdate_inc_seq name cs) as [r cs']. simpl in *.
      apply String.eqb_neq in He. rewrite He.
      destruct IH as (H1 & H2 & H3). repeat split; [exact H1 | exact H2 |].
      intros n Hn. destruct (CounterApi.Counter._id c =? n)%string; [reflexivity|].
      apply H3, Hn.
Qed.

Lemma getNextId_spec (name : string) s z s0 :
  CounterApi.getNextId name s = (z, s0) ->
  z = CounterApi.current_seq name (CounterApi.counters s) + 1
  /\ CounterApi.current_seq name (CounterApi.counters s0) = z
  /\ (forall n, n <> name ->
        CounterApi.current_seq n (CounterApi.counters s0)
        = CounterApi.current_seq n (CounterApi.counters s))
  /\ CounterApi.teachers s0 = CounterApi.teachers s
  /\ CounterApi.courses s0 = CounterApi.courses s
  /\ CounterApi.students s0 = CounterApi.students s
  /\ CounterApi.tests s0 = CounterApi.tests s.
Proof.
  unfold CounterApi.getNextId.
  pose proof (inc_seq_spec name (CounterApi.counters s)) as (H1 & H2 & H3).
  destruct (CounterApi.findByIdAndUpdate_inc_seq name (CounterApi.counters s)) as [c cs].
  simpl in *. intros H. inversion H; subst. simpl.
  repeat split; try assumption. rewrite H2, H1. reflexivity.
Qed.

(** ** C1: aggregation over no tests *)

(** The counter variant tests [studentTests.length === 0] first: a student
    or course that exists and has no test gets count 0 and average [null]. *)
Lemma counter_average_without_tests_is_null str2num (a : aggregate) (id : string) s :
  CounterApi.referenced str2num a id s = true ->
  CounterApi.matching str2num a id s = [] ->
  CounterApi.get_id_average str2num a id s
  = (res_json (CounterApi.average_json str2num a id 0%nat null), s).
Proof.
  unfold CounterApi.get_id_average, CounterApi.get_students_id_average,
    CounterApi.get_courses_id_average.
  destruct a; simpl; intros Href Hm;
    apply existsb_true_find in Href; destruct Href as (x & Hx & _);
    condition_is_number; rewrite Hx, Hm; reflexivity.
Qed.

Lemma objectid_average_without_tests_is_null cast (a : aggregate) (id : string) s :
  ObjectIdApi.isValidObjectId cast (Str id) = true ->
  ObjectIdApi.referenced cast a id s = true ->
  ObjectIdApi.matching cast a id s = [] ->
  ObjectIdApi.get_id_average cast a id s
  = (ObjectIdApi.res_json (ObjectIdApi.average_json a id 0%nat null), s).
Proof.
  unfold ObjectIdApi.get_id_average, ObjectIdApi.get_students_id_average,
    ObjectIdApi.get_courses_id_average, ObjectIdApi.requireObjectId.
  destruct a; simpl; intros Hv Href Hm;
    apply existsb_true_find in Href; destruct Href as (x & Hx & _);
    rewrite Hv; simpl; rewrite Hx, Hm; reflexivity.
Qed.

(** The JSON-file variant has no such test: with no matching test it divides
    the empty sum 0 by the length 0 and hands the [NaN] to [res.json]. *)
Lemma json_course_average_without_tests str2num (id : string) s :
  JsonFileApi.referenced str2num id s = true ->
  JsonFileApi.matching str2num id s = [] ->
  JsonFileApi.get_courses_id_average str2num id s
  = (res_json (course_average (JS.Number str2num (Str id)) 0 (Num JS.NaN)), s).
Proof.
  unfold JsonFileApi.get_courses_id_average, JsonFileApi.referenced, JsonFileApi.matching.
  simpl. intros Hc Ht.
  apply existsb_true_find in Hc. destruct Hc as (c & Hc & _).
  rewrite Hc, Ht. reflexivity.
Qed.

(** C1.  An average route asked for a student or course that exists and has
    no test answers 200 with [testCount] 0 and an [average] that reaches the
    client as [null].  The counter and ObjectId variants test the length and
    hand [null] to [res.json]; the JSON-file variant has no such test and
    hands it the [NaN] of 0/0, which [JSON.stringify] writes [null]. *)
Theorem average_without_tests_is_null :
  forall (str2num : string -> num) (cast : value -> option ObjectIdApi.ObjectId)
         (a : aggregate) (id : string),
    (forall s,
       JsonFileApi.referenced str2num id s = true ->
       JsonFileApi.matching str2num id s = [] ->
       exists average,
         JsonFileApi.get_courses_id_average str2num id s
         = (res_json (course_average (JS.Number str2num (Str id)) 0 average), s)
         /\ JS.JSON_value average = null)
    /\ (forall s,
       CounterApi.referenced str2num a id s = true ->
       CounterApi.matching str2num a id s = [] ->
       exists average,
         CounterApi.get_id_average str2num a id s
         = (res_json (CounterApi.average_json str2num a id 0%nat average), s)
         /\ JS.JSON_value average = null)
    /\ (forall s,
       ObjectIdApi.isValidObjectId cast (Str id) = true ->
       ObjectIdApi.referenced cast a id s = true ->
       ObjectIdApi.matching cast a id s = [] ->
       exists average,
         ObjectIdApi.get_id_average cast a id s
         = (ObjectIdApi.res_json (ObjectIdApi.average_json a id 0%nat average), s)
         /\ JS.JSON_value average = null).
Proof.
  intros str2num cast a id.
  split; [|split].
  - intros s Href Hm. exists (Num JS.NaN). split; [|reflexivity].
    now apply json_course_average_without_tests.
  - intros s Href Hm. exists null. split; [|reflexivity].
    now apply counter_average_without_tests_is_null.
  - intros s Hv Href Hm. exists null. split; [|reflexivity].
    now apply objectid_average_without_tests_is_null.
Qed.

(** The theorem at work: [GET /courses/1/average] of the JSON-file variant
    for a stored course 1 without tests. *)
Lemma average_without_tests_is_null_witness :
  exists average,
    JsonFileApi.get_courses_id_average JS.decimal_StringToNumber "1"
      (JsonFileApi.startup [Sample.ada] [Sample.calculus] [] [])
    = (res_json (course_average (JS.of_Z 1) 0 average),
       JsonFileApi.startup [Sample.ada] [Sample.calculus] [] [])
    /\ JS.JSON_value average = null.
Proof.
  destruct (average_without_tests_is_null JS.decimal_StringToNumber
              ObjectIdApi.hex24_castObjectId of_course "1")
    as (H & _).
  apply (H (JsonFileApi.startup [Sample.ada] [Sample.calculus] [] []));
    vm_compute; reflexivity.
Defined.

(** ** C2: deleting a referenced teacher *)

(** The counter variant answers 400 and keeps the teacher. *)
Lemma counter_delete_referenced_teacher_conflict str2num (id : string) s t c :
  In t (CounterApi.teachers s) ->
  JS.strict_equals_id (Teacher.id t) (JS.Number str2num (Str id)) = true ->
  In c (CounterApi.courses s) ->
  Course.teacherId c = Teacher.id t ->
  exists r, CounterApi.delete_teachers_id str2num id s = (Some r, s) /\ status r = 400.
Proof.
  unfold CounterApi.delete_teachers_id. simpl. intros _ Ht Hc Href.
  assert (E : existsb (fun c => JS.strict_equals_id (Course.teacherId c) (str2num id))
                (CounterApi.courses s) = true).
  { apply existsb_exists. exists c. split; [exact Hc|]. rewrite Href. exact Ht. }
  condition_is_number. rewrite E. eexists. split; reflexivity.
Qed.

Lemma objectid_delete_referenced_teacher_conflict cast (id : string) s t c :
  In t (ObjectIdApi.teachers s) ->
  ObjectIdApi.equals_id cast (ObjectIdApi.Teacher._id t) (Str id) = true ->
  In c (ObjectIdApi.courses s) ->
  ObjectIdApi.Course.teacherId c = ObjectIdApi.Teacher._id t ->
  exists r, ObjectIdApi.delete_teachers_id cast id s = (Some r, s)
            /\ ObjectIdApi.status r = 400.
Proof.
  intros _ Ht Hc Href. unfold ObjectIdApi.delete_teachers_id, ObjectIdApi.requireObjectId.
  assert (V : ObjectIdApi.isValidObjectId cast (Str id) = true).
  { unfold ObjectIdApi.isValidObjectId. unfold ObjectIdApi.equals_id in Ht.
    destruct (cast (Str id)); [reflexivity | discriminate]. }
  rewrite V. simpl.
  assert (E : existsb (fun c => ObjectIdApi.equals_id cast (ObjectIdApi.Course.teacherId c)
                                  (Str id)) (ObjectIdApi.courses s) = true).
  { apply existsb_exists. exists c. split; [exact Hc|]. rewrite Href. exact Ht. }
  rewrite E. eexists. split; reflexivity.
Qed.

(** C2 (the code departs from it).  In the JSON-file variant the check is a
    TODO: [DELETE /teachers/1], with course 1 holding [teacherId] 1, answers
    200 with the teacher and leaves the array and the file without her. *)
Theorem json_delete_referenced_teacher_succeeds :
  In Sample.calculus (JsonFileApi.courses (JsonFileApi.startup [Sample.ada] [Sample.calculus] [] []))
  /\ Course.teacherId Sample.calculus = Teacher.id Sample.ada
  /\ exists s',
       JsonFileApi.delete_teachers_id JS.decimal_StringToNumber "1"
         (JsonFileApi.startup [Sample.ada] [Sample.calculus] [] [])
       = (res_json (a_teacher Sample.ada), s')
       /\ JsonFileApi.teachers s' = []
       /\ JsonFileApi.teachers_file s' = []
       /\ JsonFileApi.courses s' = [Sample.calculus].
Proof.
  split; [left; reflexivity|]. split; [reflexivity|].
  eexists. split; [vm_compute; reflexivity|]. repeat split.
Qed.

(** ** C3: listing *)

(** C3 (the code departs from it).  [GET /teachers] of the JSON-file variant
    answers nothing: the one statement of its handler is commented out, so
    in every state the list operation sends no response and changes
    nothing. *)
Theorem json_get_teachers_sends_no_response :
  forall s : JsonFileApi.state, JsonFileApi.get_teachers s = (None, s).
Proof. intros s. reflexivity. Qed.

(** The sibling routes of the same file answer with the array as stored. *)
Lemma json_get_courses_returns_the_array :
  forall s, JsonFileApi.get_courses s = (res_json (course_list (JsonFileApi.courses s)), s).
Proof. reflexivity. Qed.

(** The counter variant's list is the stored collection, every document
    once, in ascending order of [id]. *)
Lemma insert_by_id_permutation {A} (id : A -> Z) (x : A) (l : list A) :
  Permutation (x :: l) (CounterApi.insert_by_id id x l).
Proof.
  induction l as [|y l IH]; simpl; [apply Permutation_refl|].
  destruct (id x <=? id y); [apply Permutation_refl|].
  eapply Permutation_trans; [apply perm_swap|]. apply perm_skip. exact IH.
Qed.

Lemma sort_by_id_permutation {A} (id : A -> Z) (l : list A) :
  Permutation l (CounterApi.sort_by_id id l).
Proof.
  induction l as [|x l IH]; simpl; [constructor|].
  eapply Permutation_trans; [apply perm_skip, IH|].
  apply insert_by_id_permutation.
Qed.

Lemma insert_by_id_sorted {A} (id : A -> Z) (x : A) (l : list A) :
  Sorted (fun a b => id a <= id b) l ->
  Sorted (fun a b => id a <= id b) (CounterApi.insert_by_id id x l).
Proof.
  induction 1 as [|y l Hs IH Hd]; simpl; [repeat constructor|].
  destruct (id x <=? id y) eqn:E.
  - constructor; [constructor; assumption|]. constructor. lia.
  - constructor; [exact IH|].
    destruct l as [|z l]; simpl; [constructor; lia|].
    inversion Hd; subst.
    destruct (id x <=? id z); constructor; lia.
Qed.

Lemma sort_by_id_sorted {A} (id : A -> Z) (l : list A) :
  Sorted (fun a b => id a <= id b) (CounterApi.sort_by_id id l).
Proof.
  induction l as [|x l IH]; simpl; [constructor|].
  apply insert_by_id_sorted, IH.
Qed.

Lemma counter_get_teachers_lists_all_in_id_order :
  forall s, exists l,
    CounterApi.get_teachers s = (res_json (teacher_list l), s)
    /\ Permutation (CounterApi.teachers s) l
    /\ Sorted (fun a b => Teacher.id a <= Teacher.id b) l.
Proof.
  intros s. eexists. split; [reflexivity|]. split.
  - apply sort_by_id_permutation.
  - apply sort_by_id_sorted.
Qed.

(** ** C4: the average of the matching tests *)

Lemma json_course_average_not_found str2num (id : string) s :
  JsonFileApi.referenced str2num id s = false ->
  JsonFileApi.get_courses_id_average str2num id s
  = (res_status_json 404 (error "Course not found!"), s).
Proof.
  unfold JsonFileApi.get_courses_id_average, JsonFileApi.referenced. simpl. intros H.
  apply find_none_existsb in H. rewrite H. reflexivity.
Qed.

Lemma json_course_average_is_mean str2num (id : string) s :
  JsonFileApi.referenced str2num id s = true ->
  JsonFileApi.get_courses_id_average str2num id s
  = (res_json (course_average (JS.Number str2num (Str id))
                 (List.length (JsonFileApi.matching str2num id s))
                 (Num (average_of (JsonFileApi.matching str2num id s)))), s).
Proof.
  unfold JsonFileApi.get_courses_id_average, JsonFileApi.referenced. simpl. intros H.
  apply existsb_true_find in H. destruct H as (c & Hc & _). rewrite Hc. reflexivity.
Qed.

Lemma json_course_average_ignores_weight str2num (id : string) s g :
  fst (JsonFileApi.get_courses_id_average str2num id (json_with_weights g s))
  = fst (JsonFileApi.get_courses_id_average str2num id s).
Proof.
  unfold JsonFileApi.get_courses_id_average, json_with_weights. simpl.
  destruct (find _ (JsonFileApi.courses s)); [|reflexivity]. simpl.
  rewrite filter_map_same by reflexivity.
  rewrite map_map_same by reflexivity. rewrite length_map. reflexivity.
Qed.

Lemma counter_average_not_found str2num (a : aggregate) (id : string) s :
  JS.isNaN (JS.Number str2num (Str id)) = false ->
  CounterApi.referenced str2num a id s = false ->
  exists message,
    CounterApi.get_id_average str2num a id s = (res_status_json 404 (error message), s).
Proof.
  unfold CounterApi.get_id_average, CounterApi.get_students_id_average,
    CounterApi.get_courses_id_average, Mongoose.rejects_condition.
  destruct a; simpl; intros Hn H; apply find_none_existsb in H; rewrite Hn, H;
    eexists; reflexivity.
Qed.

Lemma counter_average_is_mean str2num (a : aggregate) (id : string) s :
  CounterApi.referenced str2num a id s = true ->
  CounterApi.matching str2num a id s <> [] ->
  CounterApi.get_id_average str2num a id s
  = (res_json (CounterApi.average_json str2num a id
                 (List.length (CounterApi.matching str2num a id s))
                 (Num (average_of (CounterApi.matching str2num a id s)))), s).
Proof.
  unfold CounterApi.get_id_average, CounterApi.get_students_id_average,
    CounterApi.get_courses_id_average.
  destruct a; simpl; intros H Hne; apply existsb_true_find in H;
    destruct H as (x & Hx & _); condition_is_number; rewrite Hx;
    rewrite (length_eqb_0_nonempty _ Hne); reflexivity.
Qed.

Lemma counter_average_ignores_weight str2num (a : aggregate) (id : string) s g :
  fst (CounterApi.get_id_average str2num a id (counter_with_weights g s))
  = fst (CounterApi.get_id_average str2num a id s).
Proof.
  unfold CounterApi.get_id_average, CounterApi.get_students_id_average,
    CounterApi.get_courses_id_average, counter_with_weights.
  destruct a; simpl.
  - destruct (Mongoose.rejects_condition _); [reflexivity|].
    destruct (find _ (CounterApi.students s)); [|reflexivity].
    rewrite filter_map_same by reflexivity. rewrite length_map.
    destruct (List.length _ =? 0)%nat; [reflexivity|]. simpl.
    rewrite map_map_same by reflexivity. reflexivity.
  - destruct (Mongoose.rejects_condition _); [reflexivity|].
    destruct (find _ (CounterApi.courses s)); [|reflexivity].
    rewrite filter_map_same by reflexivity. rewrite length_map.
    destruct (List.length _ =? 0)%nat; [reflexivity|]. simpl.
    rewrite map_map_same by reflexivity. reflexivity.
Qed.

Lemma objectid_average_not_found cast (a : aggregate) (id : string) s :
  ObjectIdApi.isValidObjectId cast (Str id) = true ->
  ObjectIdApi.referenced cast a id s = false ->
  exists message,
    ObjectIdApi.get_id_average cast a id s
    = (ObjectIdApi.res_status_json 404 (ObjectIdApi.error message), s).
Proof.
  unfold ObjectIdApi.get_id_average, ObjectIdApi.get_students_id_average,
    ObjectIdApi.get_courses_id_average, ObjectIdApi.requireObjectId.
  destruct a; simpl; intros Hv H; apply find_none_existsb in H;
    rewrite Hv; simpl; rewrite H; eexists; reflexivity.
Qed.

Lemma objectid_average_is_mean cast (a : aggregate) (id : string) s :
  ObjectIdApi.isValidObjectId cast (Str id) = true ->
  ObjectIdApi.referenced cast a id s = true ->
  ObjectIdApi.matching cast a id s <> [] ->
  ObjectIdApi.get_id_average cast a id s
  = (ObjectIdApi.res_json
       (ObjectIdApi.average_json a id
          (List.length (ObjectIdApi.matching cast a id s))
          (Num (ObjectIdApi.average_of (ObjectIdApi.matching cast a id s)))), s).
Proof.
  unfold ObjectIdApi.get_id_average, ObjectIdApi.get_students_id_average,
    ObjectIdApi.get_courses_id_average, ObjectIdApi.requireObjectId.
  destruct a; simpl; intros Hv H Hne; apply existsb_true_find in H;
    destruct H as (x & Hx & _); rewrite Hv; simpl; rewrite Hx;
    rewrite (length_eqb_0_nonempty _ Hne); reflexivity.
Qed.

Lemma objectid_average_ignores_weight cast (a : aggregate) (id : string) s g :
  fst (ObjectIdApi.get_id_average cast a id (objectid_with_weights g s))
  = fst (ObjectIdApi.get_id_average cast a id s).
Proof.
  unfold ObjectIdApi.get_id_average, ObjectIdApi.get_students_id_average,
    ObjectIdApi.get_courses_id_average, objectid_with_weights.
  destruct a; simpl.
  - destruct (ObjectIdApi.requireObjectId cast id _); [reflexivity|].
    destruct (find _ (ObjectIdApi.students s)); [|reflexivity].
    rewrite filter_map_same by reflexivity. rewrite length_map.
    destruct (List.length _ =? 0)%nat; [reflexivity|]. simpl.
    rewrite map_map_same by reflexivity.
    unfold length_number. rewrite ?length_map. reflexivity.
  - destruct (ObjectIdApi.requireObjectId cast id _); [reflexivity|].
    destruct (find _ (ObjectIdApi.courses s)); [|reflexivity].
    rewrite filter_map_same by reflexivity. rewrite length_map.
    destruct (List.length _ =? 0)%nat; [reflexivity|]. simpl.
    rewrite map_map_same by reflexivity.
    unfold length_number. rewrite ?length_map. reflexivity.
Qed.

(** C4 (amended).  In each variant an average route answers 404, whatever
    the tests are, when no student or course has the identifier (in the
    counter variant for a path identifier that [Number] reads as a number,
    in the ObjectId variant for one that is a valid ObjectId).  When one
    has it and some test matches, the answer carries the number of matching
    tests and the unweighted mean of their percentages as the doubles
    compute it: each percentage is [(mark / outOf) * 100], the percentages
    are added from the left starting at 0, and the sum is divided by the
    count.  The weights are not read: changing them changes no answer.
    Marks 8 and 10 out of 10 and 10 give 90. *)
Theorem average_is_rounded_mean_of_percentages :
  forall (str2num : string -> num) (cast : value -> option ObjectIdApi.ObjectId)
         (a : aggregate) (id : string),
    (forall s, JsonFileApi.referenced str2num id s = false ->
       JsonFileApi.get_courses_id_average str2num id s
       = (res_status_json 404 (error "Course not found!"), s))
    /\ (forall s, JsonFileApi.referenced str2num id s = true ->
       JsonFileApi.matching str2num id s <> [] ->
       JsonFileApi.get_courses_id_average str2num id s
       = (res_json (course_average (JS.Number str2num (Str id))
                      (List.length (JsonFileApi.matching str2num id s))
                      (Num (average_of (JsonFileApi.matching str2num id s)))), s))
    /\ (forall s g,
       fst (JsonFileApi.get_courses_id_average str2num id (json_with_weights g s))
       = fst (JsonFileApi.get_courses_id_average str2num id s))
    /\ (forall s, JS.isNaN (JS.Number str2num (Str id)) = false ->
       CounterApi.referenced str2num a id s = false ->
       exists message,
         CounterApi.get_id_average str2num a id s
         = (res_status_json 404 (error message), s))
    /\ (forall s, CounterApi.referenced str2num a id s = true ->
       CounterApi.matching str2num a id s <> [] ->
       CounterApi.get_id_average str2num a id s
       = (res_json (CounterApi.average_json str2num a id
                      (List.length (CounterApi.matching str2num a id s))
                      (Num (average_of (CounterApi.matching str2num a id s)))), s))
    /\ (forall s g,
       fst (CounterApi.get_id_average str2num a id (counter_with_weights g s))
       = fst (CounterApi.get_id_average str2num a id s))
    /\ (forall s, ObjectIdApi.isValidObjectId cast (Str id) = true ->
       ObjectIdApi.referenced cast a id s = false ->
       exists message,
         ObjectIdApi.get_id_average cast a id s
         = (ObjectIdApi.res_status_json 404 (ObjectIdApi.error message), s))
    /\ (forall s, ObjectIdApi.isValidObjectId cast (Str id) = true ->
       ObjectIdApi.referenced cast a id s = true ->
       ObjectIdApi.matching cast a id s <> [] ->
       ObjectIdApi.get_id_average cast a id s
       = (ObjectIdApi.res_json
            (ObjectIdApi.average_json a id
               (List.length (ObjectIdApi.matching cast a id s))
               (Num (ObjectIdApi.average_of (ObjectIdApi.matching cast a id s)))), s))
    /\ (forall s g,
       fst (ObjectIdApi.get_id_average cast a id (objectid_with_weights g s))
       = fst (ObjectIdApi.get_id_average cast a id s))
    /\ (forall w1 w2,
       average_of [Sample.quiz 1 8 10 w1; Sample.quiz 2 10 10 w2] = JS.of_Z 90)
    /\ (forall w1 w2,
       ObjectIdApi.average_of
         [Sample.quiz_doc Sample.oid1 8 10 w1; Sample.quiz_doc Sample.oid2 10 10 w2]
       = JS.of_Z 90).
Proof.
  intros str2num cast a id.
  split; [intros; now apply json_course_average_not_found|].
  split; [intros; now apply json_course_average_is_mean|].
  split; [intros; apply json_course_average_ignores_weight|].
  split; [intros; now apply counter_average_not_found|].
  split; [intros; now apply counter_average_is_mean|].
  split; [intros; apply counter_average_ignores_weight|].
  split; [intros; now apply objectid_average_not_found|].
  split; [intros; now apply objectid_average_is_mean|].
  split; [intros; apply objectid_average_ignores_weight|].
  split; intros w1 w2; vm_compute; reflexivity.
Qed.

(** The theorem at work: student 1 of the counter variant with marks 8 and
    10 out of 10 gets count 2 and average 90. *)
Lemma average_is_rounded_mean_of_percentages_witness :
  CounterApi.get_id_average JS.decimal_StringToNumber of_student "1"
    (CounterApi.mk_state [] [] [] [Sample.sam] [Sample.quiz 1 8 10 1; Sample.quiz 2 10 10 3])
  = (res_json (student_average (JS.of_Z 1) 2 (Num (JS.of_Z 90))),
     CounterApi.mk_state [] [] [] [Sample.sam] [Sample.quiz 1 8 10 1; Sample.quiz 2 10 10 3]).
Proof.
  destruct (average_is_rounded_mean_of_percentages JS.decimal_StringToNumber
              ObjectIdApi.hex24_castObjectId of_student "1")
    as (_ & _ & _ & _ & H & _).
  rewrite H; [vm_compute; reflexivity | vm_compute; reflexivity | vm_compute; discriminate].
Defined.

(** C4 as stated fails: for one test with mark 29 out of 100 the route
    answers 28.999999999999996, the double [(29 / 100) * 100], while
    [100 * 29 / 100] is 29. *)
Lemma average_is_not_mean_of_100_mark_over_outOf :
  exists avg,
    fst (CounterApi.get_students_id_average JS.decimal_StringToNumber "1"
           (CounterApi.mk_state [] [] [] [Sample.sam] [Sample.quiz 1 29 100 1]))
    = res_json (student_average (JS.of_Z 1) 1 (Num avg))
    /\ avg = S754_finite false 8162774324609023 (-48)
    /\ Spec.average [Sample.quiz 1 29 100 1] = S754_finite false 8162774324609024 (-48)
    /\ avg <> Spec.average [Sample.quiz 1 29 100 1].
Proof.
  eexists. split; [vm_compute; reflexivity|].
  split; [reflexivity|]. split; [vm_compute; reflexivity|].
  vm_compute. discriminate.
Qed.

(** ** C5: an update that supplies no field *)

Lemma counter_empty_update_rejected str2num num2str (k : resource) (id : string) req_body s :
  Spec.supplies_none k req_body ->
  CounterApi.put_id str2num num2str k id req_body s = (no_fields_provided, s).
Proof.
  intros H. destruct k; split_fields H;
    unfold CounterApi.put_id, CounterApi.put_teachers_id, CounterApi.put_courses_id,
      CounterApi.put_students_id, CounterApi.put_tests_id;
    rewrite_fields; reflexivity.
Qed.

Lemma json_empty_update_rejected str2num (k : resource) (id : string) req_body s :
  Spec.supplies_none k req_body ->
  JsonFileApi.lookup str2num k id s <> None ->
  JsonFileApi.put_id str2num k id req_body s = (no_fields_provided, s).
Proof.
  intros H. destruct k; split_fields H;
    unfold JsonFileApi.lookup, JsonFileApi.put_id, JsonFileApi.put_teachers_id,
      JsonFileApi.put_courses_id, JsonFileApi.put_students_id, JsonFileApi.put_tests_id;
    rewrite_fields; simpl;
    match goal with |- context [find ?p ?l] => destruct (find p l) end;
    simpl; intros Hl; solve [reflexivity | congruence].
Qed.

Lemma json_update_of_absent_record str2num (k : resource) (id : string) req_body s :
  JsonFileApi.lookup str2num k id s = None ->
  JsonFileApi.put_id str2num k id req_body s = (not_found k, s).
Proof.
  destruct k;
    unfold JsonFileApi.lookup, JsonFileApi.put_id, JsonFileApi.put_teachers_id,
      JsonFileApi.put_courses_id, JsonFileApi.put_students_id, JsonFileApi.put_tests_id;
    simpl;
    match goal with |- context [find ?p ?l] => destruct (find p l) end;
    simpl; intros Hl; solve [reflexivity | congruence].
Qed.

Lemma objectid_empty_update_rejected str2num num2str cast (k : resource) (id : string) req_body s :
  Spec.supplies_none k req_body ->
  ObjectIdApi.isValidObjectId cast (Str id) = true ->
  ObjectIdApi.put_id str2num num2str cast k id req_body s = (objectid_no_fields_provided, s).
Proof.
  intros H Hv. destruct k; split_fields H;
    unfold ObjectIdApi.put_id, ObjectIdApi.put_teachers_id, ObjectIdApi.put_courses_id,
      ObjectIdApi.put_students_id, ObjectIdApi.put_tests_id, ObjectIdApi.requireObjectId;
    rewrite Hv; rewrite_fields; reflexivity.
Qed.

Lemma objectid_update_with_invalid_id str2num num2str cast (k : resource) (id : string) req_body s :
  ObjectIdApi.isValidObjectId cast (Str id) = false ->
  ObjectIdApi.put_id str2num num2str cast k id req_body s = (invalid_path_id k, s).
Proof.
  intros Hv. destruct k;
    unfold ObjectIdApi.put_id, ObjectIdApi.put_teachers_id, ObjectIdApi.put_courses_id,
      ObjectIdApi.put_students_id, ObjectIdApi.put_tests_id, ObjectIdApi.requireObjectId;
    rewrite Hv; reflexivity.
Qed.

(** C5 (amended).  An update whose body supplies no field of the kind writes
    nothing, and it is answered 400 "No fields provided to update": always in
    the counter variant; in the JSON-file variant when the addressed record
    exists (otherwise the answer is the 404 of the lookup, which comes
    first); in the ObjectId variant when the path identifier is a valid
    ObjectId (otherwise the answer is the 400 of the format check, which
    comes first). *)
Theorem empty_update_is_rejected_without_write :
  forall (str2num : string -> num) (num2str : num -> string)
         (cast : value -> option ObjectIdApi.ObjectId)
         (k : resource) (id : string) (req_body : object),
    Spec.supplies_none k req_body ->
    (forall s, CounterApi.put_id str2num num2str k id req_body s = (no_fields_provided, s))
    /\ (forall s, JsonFileApi.lookup str2num k id s <> None ->
          JsonFileApi.put_id str2num k id req_body s = (no_fields_provided, s))
    /\ (forall s, JsonFileApi.lookup str2num k id s = None ->
          JsonFileApi.put_id str2num k id req_body s = (not_found k, s))
    /\ (forall s, ObjectIdApi.isValidObjectId cast (Str id) = true ->
          ObjectIdApi.put_id str2num num2str cast k id req_body s
          = (objectid_no_fields_provided, s))
    /\ (forall s, ObjectIdApi.isValidObjectId cast (Str id) = false ->
          ObjectIdApi.put_id str2num num2str cast k id req_body s = (invalid_path_id k, s)).
Proof.
  intros str2num num2str cast k id req_body H.
  split; [intros; now apply counter_empty_update_rejected|].
  split; [intros; now apply json_empty_update_rejected|].
  split; [intros; now apply json_update_of_absent_record|].
  split; [intros; now apply objectid_empty_update_rejected|].
  intros; now apply objectid_update_with_invalid_id.
Qed.

Lemma supplies_none_empty_object (k : resource) : Spec.supplies_none k JS.empty_object.
Proof. destruct k; repeat constructor. Qed.

(** The theorem at work: [PUT /teachers/1] with the body [{}] on a stored
    teacher 1, in the JSON-file variant. *)
Lemma empty_update_is_rejected_without_write_witness :
  JsonFileApi.put_id JS.decimal_StringToNumber Teachers "1" JS.empty_object
    (JsonFileApi.startup [Sample.ada] [] [] [])
  = (no_fields_provided, JsonFileApi.startup [Sample.ada] [] [] []).
Proof.
  destruct (empty_update_is_rejected_without_write JS.decimal_StringToNumber
      JS.decimal_NumberToString
              ObjectIdApi.hex24_castObjectId Teachers "1" JS.empty_object
              (supplies_none_empty_object Teachers))
    as (_ & H & _).
  apply H. vm_compute. discriminate.
Defined.

(** C5 as stated fails: in the JSON-file variant [PUT /teachers/7] with the
    body [{}], when no teacher 7 is stored, is answered 404. *)
Lemma empty_update_of_absent_teacher_is_not_found :
  Spec.supplies_none Teachers JS.empty_object
  /\ JsonFileApi.put_teachers_id JS.decimal_StringToNumber "7" JS.empty_object
       (JsonFileApi.startup [Sample.ada] [] [] [])
     = (res_status_json 404 (error "Teacher not found"),
        JsonFileApi.startup [Sample.ada] [] [] []).
Proof.
  split; [apply supplies_none_empty_object | vm_compute; reflexivity].
Qed.

(** ** C6: what an update changes *)







(** The schema at work in the counter variant: [PUT /teachers/1] with
    [{ firstName: 123 }] stores and returns the string ["123"];
    [PUT /tests/1] with [{ mark: "abc" }] is rejected by the validation of
    [save], which no handler catches, and changes nothing. *)
Example counter_update_casts_a_number_to_a_string :
  exists s',
    CounterApi.put_id JS.decimal_StringToNumber JS.decimal_NumberToString Teachers "1"
      (Sample.object_of [("firstName", Num (JS.of_Z 123))]) Scenario.school
    = (res_json (a_teacher (Teacher.set_firstName (Str "123") Sample.ada)), s').
Proof. eexists. vm_compute. reflexivity. Qed.

Example counter_update_with_an_unreadable_mark_is_rejected :
  CounterApi.put_id JS.decimal_StringToNumber JS.decimal_NumberToString Tests "1"
    (Sample.object_of [("mark", Str "abc")]) Scenario.school
  = (None, Scenario.school).
Proof. vm_compute. reflexivity. Qed.

(** ** C7: a create that fails *)














(** ** C8: which reference of a test is reported *)










(** ** C9: identifiers are not reused *)

Lemma step_effect_fresh ids next alloc ids' next' :
  step_effect ids next alloc ids' next' -> fresh_in ids next -> fresh_in ids' next'.
Proof.
  unfold fresh_in. intros [(_ & Hle & Hi & Hn) | (_ & -> & ->)] [Hd Hb].
  - split; [auto|]. rewrite Forall_forall in *.
    intros i Hin. specialize (Hb i (Hi i Hin)). lia.
  - split.
    + apply NoDup_app; [exact Hd | repeat constructor; simpl; tauto |].
      intros i Hi [<-|[]]. rewrite Forall_forall in Hb. specialize (Hb _ Hi). lia.
    + apply Forall_app. split; [|repeat constructor; lia].
      eapply Forall_impl; [|exact Hb]. simpl. intros; lia.
Qed.

Section Serving.
Context {request state : Type}.
Variable app : request -> state -> option response * state.
Variable ids : state -> list Z.
Variable next : state -> Z.
Variable k : resource.
Hypothesis app_effect :
  forall r s,
    step_effect (ids s) (next s) (allocated k (fst (app r s)))
      (ids (snd (app r s))) (next (snd (app r s))).

Lemma serve_allocations (rs : list request) :
  forall s,
    next s <= next (snd (serve app rs s))
    /\ Forall (fun i => next s <= i) (allocations k (fst (serve app rs s)))
    /\ StronglySorted Z.lt (allocations k (fst (serve app rs s))).
Proof.
  induction rs as [|r rs IH]; intros s; simpl.
  - repeat split; [lia | constructor | constructor].
  - pose proof (app_effect r s) as He.
    destruct (app r s) as [o s1]. simpl in He.
    specialize (IH s1). destruct (serve app rs s1) as [os s2]. simpl in IH |- *.
    destruct IH as (Hle & Hall & Hsorted).
    unfold allocations in *. simpl.
    destruct He as [(-> & Hn & _) | (-> & Hn & _)]; simpl.
    + repeat split; [lia | | exact Hsorted].
      eapply Forall_impl; [|exact Hall]. simpl. intros; lia.
    + rewrite Hn in *. repeat split; [lia | | ].
      * constructor; [lia|]. eapply Forall_impl; [|exact Hall]. simpl. intros; lia.
      * constructor; [exact Hsorted|].
        eapply Forall_impl; [|exact Hall]. simpl. intros; lia.
Qed.

Lemma serve_fresh (rs : list request) :
  forall s,
    fresh_in (ids s) (next s) ->
    fresh_in (ids (snd (serve app rs s))) (next (snd (serve app rs s))).
Proof.
  induction rs as [|r rs IH]; intros s Hs; simpl; [exact Hs|].
  pose proof (step_effect_fresh _ _ _ _ _ (app_effect r s) Hs) as Hs1.
  destruct (app r s) as [o s1]. simpl in Hs1.
  specialize (IH s1 Hs1). destruct (serve app rs s1) as [os s2]. exact IH.
Qed.

End Serving.

(** [startup] sets each counter above every loaded identifier. *)
Lemma fold_max_bound {A} (f : A -> Z) (l : list A) :
  forall acc,
    acc <= fold_left (fun max x => Z.max max (f x)) l acc
    /\ Forall (fun i => i <= fold_left (fun max x => Z.max max (f x)) l acc) (map f l).
Proof.
  induction l as [|x l IH]; intros acc; simpl.
  - split; [lia | constructor].
  - destruct (IH (Z.max acc (f x))) as [H1 H2]. split; [lia|].
    constructor; [lia | exact H2].
Qed.

Lemma next_after_above {A} (f : A -> Z) (l : list A) :
  Forall (fun i => i < JsonFileApi.next_after f l) (map f l).
Proof.
  unfold JsonFileApi.next_after.
  destruct (fold_max_bound f l 0) as [_ H].
  eapply Forall_impl; [|exact H]. simpl. intros; lia.
Qed.

Lemma startup_fresh (k : resource) teachers_json courses_json students_json tests_json :
  NoDup (JsonFileApi.ids k
           (JsonFileApi.startup teachers_json courses_json students_json tests_json)) ->
  fresh_in
    (JsonFileApi.ids k
       (JsonFileApi.startup teachers_json courses_json students_json tests_json))
    (JsonFileApi.next_id k
       (JsonFileApi.startup teachers_json courses_json students_json tests_json)).
Proof.
  intros H. split; [exact H|]. destruct k; simpl; apply next_after_above.
Qed.

Lemma json_app_effect str2num (k : resource) (r : JsonFileApi.request) s :
  step_effect (JsonFileApi.ids k s) (JsonFileApi.next_id k s)
    (allocated k (fst (JsonFileApi.app str2num r s)))
    (JsonFileApi.ids k (snd (JsonFileApi.app str2num r s)))
    (JsonFileApi.next_id k (snd (JsonFileApi.app str2num r s))).
Proof.
  destruct r as [k0|k0 id|k0 req_body|k0 id req_body|k0 id|id];
    try destruct k0; destruct k; unfold_json_routes; case_handler;
    solve [ids_kept | id_appended].
Qed.

Ltac counter_created :=
  let Hseq := fresh "Hseq" in
  let Hother := fresh "Hother" in
  let Ht := fresh "Ht" in
  let Hc := fresh "Hc" in
  let Hs := fresh "Hs" in
  let Hx := fresh "Hx" in
  match goal with
  | E : CounterApi.getNextId _ _ = (_, _) |- _ =>
      apply getNextId_spec in E;
      destruct E as (-> & Hseq & Hother & Ht & Hc & Hs & Hx)
  end;
  unfold counter_next; simpl;
  first
    [ right; rewrite Hseq, ?map_app, ?Ht, ?Hc, ?Hs, ?Hx; repeat split; reflexivity
    | left; split; [reflexivity|];
      split; [first [ rewrite Hother by discriminate; apply Z.le_refl
                    | rewrite Hseq; lia ]|];
      rewrite ?Ht, ?Hc, ?Hs, ?Hx; split; [apply incl_refl | exact (fun H => H)] ].

Lemma counter_app_effect str2num num2str (k : resource) (r : CounterApi.request) s :
  step_effect (CounterApi.ids k s) (counter_next k s)
    (allocated k (fst (CounterApi.app str2num num2str r s)))
    (CounterApi.ids k (snd (CounterApi.app str2num num2str r s)))
    (counter_next k (snd (CounterApi.app str2num num2str r s))).
Proof.
  destruct r as [k0|k0 id|k0 req_body|k0 id req_body|k0 id|id|id|id|id];
    try destruct k0; destruct k; unfold_counter_routes; case_handler;
    solve [ids_kept | counter_created].
Qed.

Lemma allocations_not_stored (ids : list Z) (next : Z) (allocs : list Z) :
  fresh_in ids next -> Forall (fun i => next <= i) allocs ->
  Forall (fun i => ~ In i ids) allocs.
Proof.
  intros [_ Hb] Ha. eapply Forall_impl; [|exact Ha]. simpl.
  intros i Hi Hin. rewrite Forall_forall in Hb. specialize (Hb _ Hin). lia.
Qed.

(** C9 (amended).  Serve any sequence of requests in one run of the
    process, from any state.  In the JSON-file and counter variants the
    identifiers given to the records created of a kind are strictly
    increasing in the order of creation.  If moreover the
    run starts from files whose identifiers of the kind are pairwise
    distinct (JSON-file variant), or from a database whose identifiers of
    the kind are pairwise distinct and not above the kind's counter, as in
    the empty database (counter variant), then the identifiers of the kind
    are pairwise distinct after the run and no identifier given was stored
    at the start. *)
Theorem identifiers_are_never_reused :
  forall (str2num : string -> num) (num2str : num -> string) (k : resource),
    (forall s rs,
       StronglySorted Z.lt (allocations k (fst (JsonFileApi.run str2num rs s))))
    /\ (forall teachers_json courses_json students_json tests_json rs,
       NoDup (JsonFileApi.ids k
                (JsonFileApi.startup teachers_json courses_json students_json tests_json)) ->
       NoDup (JsonFileApi.ids k
                (snd (JsonFileApi.run str2num rs
                        (JsonFileApi.startup teachers_json courses_json students_json
                           tests_json))))
       /\ Forall
            (fun i =>
               ~ In i (JsonFileApi.ids k
                         (JsonFileApi.startup teachers_json courses_json students_json
                            tests_json)))
            (allocations k
               (fst (JsonFileApi.run str2num rs
                       (JsonFileApi.startup teachers_json courses_json students_json
                          tests_json)))))
    /\ (forall s rs,
       StronglySorted Z.lt (allocations k (fst (CounterApi.run str2num num2str rs s))))
    /\ (forall s rs,
       fresh_in (CounterApi.ids k s) (counter_next k s) ->
       NoDup (CounterApi.ids k (snd (CounterApi.run str2num num2str rs s)))
       /\ Forall (fun i => ~ In i (CounterApi.ids k s))
            (allocations k (fst (CounterApi.run str2num num2str rs s)))).
Proof.
  intros str2num num2str k.
  split; [intros s rs; unfold JsonFileApi.run;
          apply (serve_allocations (JsonFileApi.app str2num) (JsonFileApi.ids k)
                   (JsonFileApi.next_id k) k (json_app_effect str2num k) rs s)|].
  split.
  { intros teachers_json courses_json students_json tests_json rs Hd.
    pose proof (startup_fresh k _ _ _ _ Hd) as Hf.
    unfold JsonFileApi.run. split.
    - apply (serve_fresh (JsonFileApi.app str2num) (JsonFileApi.ids k)
               (JsonFileApi.next_id k) k (json_app_effect str2num k) rs _ Hf).
    - eapply allocations_not_stored; [exact Hf|].
      apply (serve_allocations (JsonFileApi.app str2num) (JsonFileApi.ids k)
               (JsonFileApi.next_id k) k (json_app_effect str2num k) rs). }
  split; [intros s rs; unfold CounterApi.run;
          apply (serve_allocations (CounterApi.app str2num num2str) (CounterApi.ids k)
                   (counter_next k) k (counter_app_effect str2num num2str k) rs s)|].
  intros s rs Hf. unfold CounterApi.run. split.
  - apply (serve_fresh (CounterApi.app str2num num2str) (CounterApi.ids k)
             (counter_next k) k (counter_app_effect str2num num2str k) rs _ Hf).
  - eapply allocations_not_stored; [exact Hf|].
    apply (serve_allocations (CounterApi.app str2num num2str) (CounterApi.ids k)
             (counter_next k) k (counter_app_effect str2num num2str k) rs).
Qed.

(** The theorem at work: three creates and a delete on the empty database of
    the counter variant. *)
Lemma identifiers_are_never_reused_witness :
  NoDup (CounterApi.ids Teachers
           (snd (CounterApi.run JS.decimal_StringToNumber
               JS.decimal_NumberToString Sample.three_creates_one_delete
                   (CounterApi.mk_state [] [] [] [] []))))
  /\ Forall (fun i => ~ In i (CounterApi.ids Teachers (CounterApi.mk_state [] [] [] [] [])))
       (allocations Teachers
          (fst (CounterApi.run JS.decimal_StringToNumber
              JS.decimal_NumberToString Sample.three_creates_one_delete
                  (CounterApi.mk_state [] [] [] [] [])))).
Proof.
  apply (proj2 (proj2 (proj2
           (identifiers_are_never_reused JS.decimal_StringToNumber
               JS.decimal_NumberToString Teachers)))).
  split; [constructor | constructor].
Defined.

Example three_creates_allocate_1_2_3 :
  allocations Teachers
    (fst (CounterApi.run JS.decimal_StringToNumber
        JS.decimal_NumberToString Sample.three_creates_one_delete
            (CounterApi.mk_state [] [] [] [] [])))
  = [1; 2; 3]
  /\ CounterApi.ids Teachers
       (snd (CounterApi.run JS.decimal_StringToNumber
           JS.decimal_NumberToString Sample.three_creates_one_delete
               (CounterApi.mk_state [] [] [] [] [])))
     = [1; 3].
Proof. split; vm_compute; reflexivity. Qed.

(** C9 as stated fails across two runs of the JSON-file variant, whose
    counters are set to the largest identifier in the file plus one when the
    module is loaded: create a teacher on empty files (identifier 1), delete
    her, start the process again and create a teacher: she is given
    identifier 1 again. *)
Lemma identifier_is_assigned_again_after_restart :
  let create := JsonFileApi.post JS.decimal_StringToNumber Teachers Sample.ada_body in
  let s1 := snd (create Scenario.no_files) in
  let s2 := snd (JsonFileApi.delete_id JS.decimal_StringToNumber Teachers "1" s1) in
  allocated Teachers (fst (create Scenario.no_files)) = Some 1
  /\ JsonFileApi.ids Teachers s2 = []
  /\ allocated Teachers (fst (create (json_restart s2))) = Some 1.
Proof. cbv zeta. repeat split; vm_compute; reflexivity. Qed.

(** ** C10: a path identifier that is not a number *)

Lemma json_NaN_id_not_found str2num (k : resource) (id : string) req_body s :
  JS.isNaN (str2num id) = true ->
  JsonFileApi.get_id str2num k id s = (not_found k, s)
  /\ JsonFileApi.put_id str2num k id req_body s = (not_found k, s)
  /\ JsonFileApi.delete_id str2num k id s = (not_found k, s).
Proof.
  intros H.
  destruct k; cbv [JsonFileApi.get_id JsonFileApi.put_id JsonFileApi.delete_id];
    unfold JsonFileApi.get_teachers_id, JsonFileApi.put_teachers_id,
      JsonFileApi.delete_teachers_id, JsonFileApi.get_courses_id,
      JsonFileApi.put_courses_id, JsonFileApi.delete_courses_id,
      JsonFileApi.get_students_id, JsonFileApi.put_students_id,
      JsonFileApi.delete_students_id, JsonFileApi.get_tests_id,
      JsonFileApi.put_tests_id, JsonFileApi.delete_tests_id;
    simpl; rewrite !find_by_NaN by exact H; repeat split.
Qed.

(** In the counter variant the condition [{ id: NaN }] does not reach the
    database: Mongoose rejects it, no handler catches the rejection, and the
    by-id routes end without their 404.  Nothing is changed. *)
Lemma counter_unparsable_id_is_rejected str2num num2str (k : resource) (id : string)
    req_body s :
  JS.isNaN (JS.Number str2num (Str id)) = true ->
  CounterApi.get_id str2num k id s = (None, s)
  /\ CounterApi.delete_id str2num k id s = (None, s)
  /\ (~ Spec.supplies_none k req_body ->
      CounterApi.put_id str2num num2str k id req_body s = (None, s)).
Proof.
  simpl. intros H. split; [|split].
  - destruct k; cbv [CounterApi.get_id];
      unfold CounterApi.get_teachers_id, CounterApi.get_courses_id,
        CounterApi.get_students_id, CounterApi.get_tests_id, Mongoose.rejects_condition;
      simpl; rewrite H; reflexivity.
  - destruct k; cbv [CounterApi.delete_id];
      unfold CounterApi.delete_teachers_id, CounterApi.delete_courses_id,
        CounterApi.delete_students_id, CounterApi.delete_tests_id,
        Mongoose.rejects_condition;
      simpl; rewrite H; reflexivity.
  - intros Hb.
    destruct k; cbv [CounterApi.put_id];
      unfold CounterApi.put_teachers_id, CounterApi.put_courses_id,
        CounterApi.put_students_id, CounterApi.put_tests_id, Mongoose.rejects_condition;
      case_fields req_body; simpl;
      solve [ fields_all_undefined Hb | rewrite H; reflexivity ].
Qed.

(** C10 (amended).  When [Number] of the path identifier is [NaN], no stored
    record matches it.  In the JSON-file variant the by-id read, update and
    delete routes answer 404, as they do for an identifier that is not
    stored, and change nothing.  In the counter variant an update that
    supplies no field is answered 400 "No fields provided to update", the
    test that comes before the identifier is looked at; and no by-id route
    of that variant changes anything for such an identifier. *)
Theorem unparsable_id_is_not_found :
  forall (str2num : string -> num) (num2str : num -> string)
         (k : resource) (id : string) (req_body : object),
    JS.isNaN (JS.Number str2num (Str id)) = true ->
    (forall s, JsonFileApi.get_id str2num k id s = (not_found k, s))
    /\ (forall s, JsonFileApi.put_id str2num k id req_body s = (not_found k, s))
    /\ (forall s, JsonFileApi.delete_id str2num k id s = (not_found k, s))
    /\ (forall s, Spec.supplies_none k req_body ->
          CounterApi.put_id str2num num2str k id req_body s = (no_fields_provided, s))
    /\ (forall s,
          snd (CounterApi.get_id str2num k id s) = s
          /\ snd (CounterApi.put_id str2num num2str k id req_body s) = s
          /\ snd (CounterApi.delete_id str2num k id s) = s).
Proof.
  intros str2num num2str k id req_body H.
  split; [intros s; apply (json_NaN_id_not_found str2num k id req_body s H)|].
  split; [intros s; apply (json_NaN_id_not_found str2num k id req_body s H)|].
  split; [intros s; apply (json_NaN_id_not_found str2num k id req_body s H)|].
  split; [intros s Hb; now apply counter_empty_update_rejected|].
  intros s.
  destruct (counter_unparsable_id_is_rejected str2num num2str k id req_body s H)
    as (Hg & Hd & Hp).
  rewrite Hg, Hd. repeat split.
  destruct k; cbv [CounterApi.put_id];
    unfold CounterApi.put_teachers_id, CounterApi.put_courses_id,
      CounterApi.put_students_id, CounterApi.put_tests_id, Mongoose.rejects_condition;
    simpl in H |- *; rewrite H;
    match goal with
    | |- context [if ?c then _ else _] => destruct c
    end; reflexivity.
Qed.

(** The theorem at work: [GET /courses/abc] in the JSON-file variant. *)
Lemma unparsable_id_is_not_found_witness :
  JsonFileApi.get_id JS.decimal_StringToNumber Courses "abc"
    (JsonFileApi.startup [Sample.ada] [Sample.calculus] [] [])
  = (res_status_json 404 (error "Course not found"),
     JsonFileApi.startup [Sample.ada] [Sample.calculus] [] []).
Proof.
  destruct (unparsable_id_is_not_found JS.decimal_StringToNumber
              JS.decimal_NumberToString Courses "abc" JS.empty_object eq_refl)
    as (H & _).
  apply H.
Defined.

(** C10 as stated fails: in the counter variant [PUT /teachers/abc] with the
    body [{}] is answered 400, not 404. *)
Lemma unparsable_id_empty_update_is_400 :
  JS.isNaN (JS.Number JS.decimal_StringToNumber (Str "abc")) = true
  /\ CounterApi.put_teachers_id JS.decimal_StringToNumber JS.decimal_NumberToString "abc"
       JS.empty_object (CounterApi.mk_state [] [Sample.ada] [] [] [])
     = (res_status_json 400 (error "No fields provided to update"),
        CounterApi.mk_state [] [Sample.ada] [] [] []).
Proof. split; vm_compute; reflexivity. Qed.

(** ** Further facts about lists and identifiers *)

Lemma In_assign_first {A} (p : A -> bool) (x' : A) (l : list A) (y : A) :
  In y (JS.assign_first p x' l) -> y = x' \/ In y l.
Proof.
  induction l as [|x l IH]; simpl; [tauto|].
  destruct (p x); simpl; intros [H|H]; auto.
  destruct (IH H); auto.
Qed.

Lemma In_remove_first {A} (p : A -> bool) (l : list A) (y : A) :
  In y (JS.remove_first p l) -> In y l.
Proof.
  induction l as [|x l IH]; simpl; [tauto|].
  destruct (p x); simpl; [auto|]. intros [H|H]; auto.
Qed.

Lemma In_map_remove_first {A} (f : A -> Z) (p : A -> bool) (l : list A) (z : Z) :
  In z (map f l) -> (forall x, In x l -> p x = true -> f x <> z) ->
  In z (map f (JS.remove_first p l)).
Proof.
  induction l as [|x l IH]; simpl; [tauto|].
  intros Hin Hp. destruct (p x) eqn:E.
  - destruct Hin as [H|H]; [|exact H]. exfalso. apply (Hp x); auto.
  - simpl. destruct Hin as [H|H]; [left; exact H|]. right. apply IH; auto.
Qed.

Lemma strict_equals_id_true (i : Z) (n : num) :
  JS.strict_equals_id i n = true <-> JS.integer_value n = Some i.
Proof.
  unfold JS.strict_equals_id. destruct (JS.integer_value n) as [z|].
  - rewrite Z.eqb_eq. split; [intros ->; reflexivity | intros H; inversion H; reflexivity].
  - split; discriminate.
Qed.

Lemma strict_equals_id_as_id (i : Z) (n : num) :
  JS.strict_equals_id i n = true -> JS.as_id n = i.
Proof.
  intros H. apply strict_equals_id_true in H. unfold JS.as_id. rewrite H. reflexivity.
Qed.

Lemma strict_equals_id_eqb (i z : Z) (n : num) :
  JS.integer_value n = Some z -> JS.strict_equals_id i n = (i =? z).
Proof. unfold JS.strict_equals_id. intros ->. reflexivity. Qed.

Lemma existsb_as_id_In {A} (f : A -> Z) (n : num) (l : list A) :
  existsb (fun x => JS.strict_equals_id (f x) n) l = true -> In (JS.as_id n) (map f l).
Proof.
  intros H. apply existsb_exists in H. destruct H as (x & Hx & E).
  rewrite (strict_equals_id_as_id _ _ E). apply in_map, Hx.
Qed.

Lemma find_as_id_In {A} (f : A -> Z) (n : num) (l : list A) x :
  find (fun x => JS.strict_equals_id (f x) n) l = Some x -> In (JS.as_id n) (map f l).
Proof. intros H. apply existsb_as_id_In. eapply find_some_existsb, H. Qed.

Lemma not_referenced_differs {A B} (f : A -> Z) (g : B -> Z) (n : num)
    (l : list A) (x : A) (y : B) :
  existsb (fun x => JS.strict_equals_id (f x) n) l = false ->
  In x l -> JS.strict_equals_id (g y) n = true -> g y <> f x.
Proof.
  intros He Hx Hy Heq.
  assert (H : existsb (fun x => JS.strict_equals_id (f x) n) l = true).
  { apply existsb_exists. exists x. split; [exact Hx|]. rewrite <- Heq. exact Hy. }
  congruence.
Qed.

Lemma serve_invariant {request state : Type}
    (app : request -> state -> option response * state) (P : state -> Prop) :
  (forall r s, P s -> P (snd (app r s))) ->
  forall rs s, P s -> P (snd (serve app rs s)).
Proof.
  intros Hstep. induction rs as [|r rs IH]; intros s Hs; simpl; [exact Hs|].
  pose proof (Hstep r s Hs) as H1. destruct (app r s) as [o s1]. simpl in H1.
  specialize (IH s1 H1). destruct (serve app rs s1) as [os s2]. exact IH.
Qed.

(** ** The references of the counter variant stay resolved *)

Ltac into_references :=
  match goal with
  | H : counter_references_resolve _ |- counter_references_resolve _ =>
      let Hc := fresh "Hc" in
      let Ht := fresh "Ht" in
      destruct H as [Hc Ht]; unfold counter_references_resolve; simpl in *
  end.

Lemma counter_post_keeps_references str2num num2str k req_body s :
  counter_references_resolve s ->
  counter_references_resolve (snd (CounterApi.post str2num num2str k req_body s)).
Proof.
  intros H. destruct k; unfold_posts; cbv zeta; case_handler; simpl; try exact H;
    match goal with
    | E : CounterApi.getNextId _ _ = (_, _) |- _ =>
        apply getNextId_spec in E;
        destruct E as (_ & _ & _ & Et & Ec & Es & Ex)
    end;
    into_references; rewrite ?Et, ?Ec, ?Es, ?Ex, ?map_app;
    try solve [split; assumption].
  - split; [intros y Hin; apply in_or_app; left; auto | exact Ht].
  - split.
    + intros y Hin. apply in_app_or in Hin. destruct Hin as [Hin|[<-|[]]]; [auto|].
      simpl. eapply find_as_id_In. eassumption.
    + intros y Hin. destruct (Ht y Hin). split; [assumption|].
      apply in_or_app. left. assumption.
  - split; [exact Hc|]. intros y Hin. destruct (Ht y Hin). split; [|assumption].
    apply in_or_app. left. assumption.
  - split; [exact Hc|]. intros y Hin.
    apply in_app_or in Hin. destruct Hin as [Hin|[<-|[]]]; [auto|]. simpl.
    split; apply existsb_as_id_In; apply negb_false_iff; assumption.
Qed.

Ltac unfold_puts :=
  cbv [JsonFileApi.put_id CounterApi.put_id ObjectIdApi.put_id];
  unfold JsonFileApi.put_teachers_id, JsonFileApi.put_courses_id,
    JsonFileApi.put_students_id, JsonFileApi.put_tests_id,
    CounterApi.put_teachers_id, CounterApi.put_courses_id,
    CounterApi.put_students_id, CounterApi.put_tests_id,
    ObjectIdApi.put_teachers_id, ObjectIdApi.put_courses_id,
    ObjectIdApi.put_students_id, ObjectIdApi.put_tests_id,
    ObjectIdApi.requireObjectId;
  cbv zeta.

Ltac unfold_deletes :=
  cbv [JsonFileApi.delete_id CounterApi.delete_id ObjectIdApi.delete_id];
  unfold JsonFileApi.delete_teachers_id, JsonFileApi.delete_courses_id,
    JsonFileApi.delete_students_id, JsonFileApi.delete_tests_id,
    CounterApi.delete_teachers_id, CounterApi.delete_courses_id,
    CounterApi.delete_students_id, CounterApi.delete_tests_id,
    ObjectIdApi.delete_teachers_id, ObjectIdApi.delete_courses_id,
    ObjectIdApi.delete_students_id, ObjectIdApi.delete_tests_id,
    ObjectIdApi.requireObjectId;
  cbv zeta.

(** The identifiers of a collection after [save] of a document found in it. *)
Ltac same_ids :=
  repeat match goal with
         | E : find ?p ?l = Some ?x |- context [map ?f (JS.assign_first ?p ?x' ?l)] =>
             rewrite (map_assign_first f p x x' l E) by (push_projections; reflexivity)
         end.

Lemma counter_put_keeps_references str2num num2str k id req_body s :
  counter_references_resolve s ->
  counter_references_resolve (snd (CounterApi.put_id str2num num2str k id req_body s)).
Proof.
  intros H. destruct k; unfold_puts; case_handler; simpl; try exact H;
    into_references; same_ids.
  - split; assumption.
  - split; [|exact Ht]. intros y Hin. apply In_assign_first in Hin.
    destruct Hin as [->|Hin]; [|auto]. push_projections.
    match goal with
    | E : find _ (CounterApi.courses s) = Some ?c |- _ =>
        pose proof (Hc c (proj1 (find_some _ _ E))) as Hold
    end.
    destruct (JS.is_undefined (req_body "teacherId")) eqn:Eu; [exact Hold|].
    apply existsb_as_id_In. simpl in *. apply negb_false_iff. assumption.
  - split; assumption.
  - split; [exact Hc|]. intros y Hin. apply In_assign_first in Hin.
    destruct Hin as [->|Hin]; [|auto]. push_projections.
    match goal with
    | E : find _ (CounterApi.tests s) = Some ?c |- _ =>
        destruct (Ht c (proj1 (find_some _ _ E))) as [Hold1 Hold2]
    end.
    split.
    + destruct (JS.is_undefined (req_body "studentId")) eqn:Eu; [exact Hold1|].
      apply existsb_as_id_In. simpl in *. apply negb_false_iff. assumption.
    + destruct (JS.is_undefined (req_body "courseId")) eqn:Eu; [exact Hold2|].
      apply existsb_as_id_In. simpl in *. apply negb_false_iff. assumption.
Qed.

Lemma counter_delete_keeps_references str2num k id s :
  counter_references_resolve s ->
  counter_references_resolve (snd (CounterApi.delete_id str2num k id s)).
Proof.
  intros H. destruct k; unfold_deletes; case_handler; simpl; try exact H;
    into_references.
  - split; [|exact Ht]. intros y Hin. apply In_map_remove_first; [auto|].
    intros x Hx Hp. eapply not_referenced_differs; eassumption.
  - split; [intros y Hin; apply In_remove_first in Hin; auto|].
    intros y Hin. destruct (Ht y Hin). split; [assumption|].
    apply In_map_remove_first; [assumption|].
    intros x Hx Hp. eapply not_referenced_differs; eassumption.
  - split; [exact Hc|]. intros y Hin. destruct (Ht y Hin). split; [|assumption].
    apply In_map_remove_first; [assumption|].
    intros x Hx Hp. eapply not_referenced_differs; eassumption.
  - split; [exact Hc|]. intros y Hin. apply In_remove_first in Hin. auto.
Qed.

Lemma counter_get_keeps_state str2num num2str (r : CounterApi.request) s :
  match r with
  | CounterApi.POST _ _ | CounterApi.PUT_id _ _ _ | CounterApi.DELETE_id _ _ => True
  | _ => snd (CounterApi.app str2num num2str r s) = s
  end.
Proof.
  destruct r as [k|k id|k req_body|k id req_body|k id|id|id|id|id];
    try exact I; try destruct k; unfold_counter_routes; case_handler; reflexivity.
Qed.

Lemma counter_app_keeps_references str2num num2str (r : CounterApi.request) s :
  counter_references_resolve s ->
  counter_references_resolve (snd (CounterApi.app str2num num2str r s)).
Proof.
  intros H. pose proof (counter_get_keeps_state str2num num2str r s) as Hg.
  destruct r; try (rewrite Hg; exact H); cbv [CounterApi.app].
  - apply counter_post_keeps_references, H.
  - apply counter_put_keeps_references, H.
  - apply counter_delete_keeps_references, H.
Qed.

(** X1.  Counter variant: when every course names a stored teacher and every
    test names a stored student and a stored course, the same holds after
    any sequence of requests. *)
Theorem counter_references_stay_resolved :
  forall (str2num : string -> num) (num2str : num -> string)
         (rs : list CounterApi.request) (s : CounterApi.state),
    counter_references_resolve s ->
    counter_references_resolve (snd (CounterApi.run str2num num2str rs s)).
Proof.
  intros str2num num2str rs s. unfold CounterApi.run.
  apply (serve_invariant (CounterApi.app str2num num2str) counter_references_resolve).
  intros r s0. apply counter_app_keeps_references.
Qed.

(** The theorem at work: a school built and taken apart again, from the
    empty database. *)
Lemma counter_references_stay_resolved_witness :
  counter_references_resolve
    (snd (CounterApi.run JS.decimal_StringToNumber JS.decimal_NumberToString Scenario.a_school_year
            Scenario.empty_school)).
Proof.
  apply (counter_references_stay_resolved JS.decimal_StringToNumber JS.decimal_NumberToString
           Scenario.a_school_year Scenario.empty_school).
  split; intros x [].
Defined.

(** ** When the database of the counter variant changes *)

(** X2.  Counter variant: a read route leaves every collection and every
    counter as it was, and so does any request that is answered 400 or
    404: a create, an update or a delete that is refused has written
    nothing. *)
Theorem counter_reads_and_refused_writes_change_nothing :
  forall (str2num : string -> num) (num2str : num -> string)
         (r : CounterApi.request) (s : CounterApi.state),
    (counter_is_read r = true -> snd (CounterApi.app str2num num2str r s) = s)
    /\ (forall resp,
          fst (CounterApi.app str2num num2str r s) = Some resp ->
          status resp = 400 \/ status resp = 404 ->
          snd (CounterApi.app str2num num2str r s) = s).
Proof.
  intros str2num num2str r s.
  destruct r as [k|k id|k req_body|k id req_body|k id|id|id|id|id];
    try destruct k; unfold_counter_routes; case_handler; simpl;
    (split; [intros Hr | intros resp Hr [Hs|Hs]; inversion Hr; subst resp]);
    solve [reflexivity | discriminate].
Qed.

(** The theorem at work: the refused [DELETE /teachers/1] of the school. *)
Lemma counter_reads_and_refused_writes_change_nothing_witness :
  snd (CounterApi.app JS.decimal_StringToNumber
      JS.decimal_NumberToString (CounterApi.DELETE_id Teachers "1")
         Scenario.school)
  = Scenario.school.
Proof.
  apply (proj2 (counter_reads_and_refused_writes_change_nothing
                  JS.decimal_StringToNumber
                      JS.decimal_NumberToString (CounterApi.DELETE_id Teachers "1")
                  Scenario.school)
           {| status := 400;
              body := error "Cannot delete teacher who is assigned to courses. Update/delete courses first." |}).
  - vm_compute. reflexivity.
  - left. reflexivity.
Defined.

(** ** Deleting in the counter variant *)

Lemma existsb_reference {A} (f : A -> Z) (n : num) (l : list A) (x : A) :
  In x l -> JS.integer_value n = Some (f x) ->
  existsb (fun x => JS.strict_equals_id (f x) n) l = true.
Proof.
  intros Hx Hn. apply existsb_exists. exists x. split; [exact Hx|].
  apply strict_equals_id_true, Hn.
Qed.

Lemma existsb_no_reference {A} (f : A -> Z) (n : num) (i : Z) (l : list A) :
  JS.integer_value n = Some i -> (forall x, In x l -> f x <> i) ->
  existsb (fun x => JS.strict_equals_id (f x) n) l = false.
Proof.
  intros Hn Hl. destruct (existsb _ l) eqn:E; [|reflexivity].
  apply existsb_exists in E. destruct E as (x & Hx & E).
  apply strict_equals_id_true in E. exfalso. apply (Hl x Hx). congruence.
Qed.

Lemma counter_not_referenced str2num (k : resource) (id : string) (i : Z) s :
  JS.integer_value (JS.Number str2num (Str id)) = Some i ->
  ~ counter_referenced_by k i s ->
  match k with
  | Teachers =>
      existsb (fun c => JS.strict_equals_id (Course.teacherId c) (str2num id))
        (CounterApi.courses s) = false
  | Courses =>
      existsb (fun t => JS.strict_equals_id (Test.courseId t) (str2num id))
        (CounterApi.tests s) = false
  | Students =>
      existsb (fun t => JS.strict_equals_id (Test.studentId t) (str2num id))
        (CounterApi.tests s) = false
  | Tests => True
  end.
Proof.
  simpl. intros Hi Hn. destruct k; simpl in Hn; try exact I;
    apply (existsb_no_reference _ _ i _ Hi); intros x Hx E; apply Hn; exists x; auto.
Qed.

(** X3.  Counter variant: a delete of a teacher some course refers to, of a
    course some test refers to, or of a student some test refers to is
    answered 400 and changes nothing, whether or not the record is stored.
    A delete of a record nothing refers to is answered 404 when no such
    record is stored and 200 with the record when it is. *)
Theorem counter_delete_is_guarded_by_references :
  forall (str2num : string -> num) (k : resource) (id : string) (i : Z)
         (s : CounterApi.state),
    JS.integer_value (JS.Number str2num (Str id)) = Some i ->
    (counter_referenced_by k i s ->
       exists message,
         CounterApi.delete_id str2num k id s = (res_status_json 400 (error message), s))
    /\ (~ counter_referenced_by k i s ->
        CounterApi.lookup str2num k id s = None ->
        CounterApi.delete_id str2num k id s = (not_found k, s))
    /\ (~ counter_referenced_by k i s ->
        forall entity,
          CounterApi.lookup str2num k id s = Some entity ->
          fst (CounterApi.delete_id str2num k id s) = res_json entity).
Proof.
  intros str2num k id i s Hi.
  pose proof (integer_value_is_number _ _ Hi) as Hnum. simpl in Hnum.
  split; [|split].
  - intros Href. simpl in Hi.
    destruct k; simpl in Href; try contradiction;
      destruct Href as (x & Hx & <-); unfold_deletes; simpl; rewrite Hnum;
      match goal with
      | |- context [existsb ?p ?l] =>
          replace (existsb p l) with true
            by (symmetry; eapply existsb_reference; eassumption)
      end;
      eexists; reflexivity.
  - intros Hn Hl. pose proof (counter_not_referenced str2num k id i s Hi Hn) as Hu.
    destruct k; unfold_deletes; unfold CounterApi.lookup in Hl; simpl in *;
      rewrite Hnum, ?Hu;
      match goal with
      | |- context [find ?p ?l] => destruct (find p l)
      end; solve [reflexivity | discriminate].
  - intros Hn entity Hl.
    pose proof (counter_not_referenced str2num k id i s Hi Hn) as Hu.
    destruct k; unfold_deletes; unfold CounterApi.lookup in Hl; simpl in *;
      rewrite Hnum, ?Hu;
      match goal with
      | |- context [find ?p ?l] => destruct (find p l)
      end; simpl in *; solve [congruence | discriminate].
Qed.

(** The theorem at work: [DELETE /teachers/1] while course 1 names teacher
    1. *)
Lemma counter_delete_is_guarded_by_references_witness :
  exists message,
    CounterApi.delete_id JS.decimal_StringToNumber Teachers "1" Scenario.school
    = (res_status_json 400 (error message), Scenario.school).
Proof.
  apply (proj1 (counter_delete_is_guarded_by_references JS.decimal_StringToNumber
                  Teachers "1" 1 Scenario.school eq_refl)).
  exists Sample.calculus. split; [left; reflexivity | reflexivity].
Defined.

Lemma remove_first_split {A} (p : A -> bool) (l : list A) (x : A) :
  find p l = Some x ->
  exists l1 l2, l = (l1 ++ x :: l2)%list /\ JS.remove_first p l = (l1 ++ l2)%list.
Proof.
  induction l as [|y l IH]; simpl; [discriminate|].
  destruct (p y) eqn:E.
  - intros H. inversion H; subst. exists [], l. split; reflexivity.
  - intros H. destruct (IH H) as (l1 & l2 & H1 & H2).
    exists (y :: l1), l2. simpl. rewrite <- H1, H2. split; reflexivity.
Qed.

Lemma find_after_remove_first {A} (f : A -> Z) (n : num) (l : list A) (x : A) :
  find (fun y => JS.strict_equals_id (f y) n) l = Some x ->
  NoDup (map f l) ->
  find (fun y => JS.strict_equals_id (f y) n) (JS.remove_first
         (fun y => JS.strict_equals_id (f y) n) l) = None.
Proof.
  induction l as [|y l IH]; simpl; [discriminate|].
  intros H Hd. inversion Hd as [|? ? Hy Hl]; subst.
  destruct (JS.strict_equals_id (f y) n) eqn:E.
  - destruct (find (fun y0 => JS.strict_equals_id (f y0) n) l) as [z|] eqn:Ez;
      [|reflexivity].
    exfalso. apply Hy. apply find_some in Ez. destruct Ez as [Hz Ez].
    apply strict_equals_id_true in E. apply strict_equals_id_true in Ez.
    assert (f z = f y) by congruence. rewrite <- H0. apply in_map, Hz.
  - simpl. rewrite E. apply IH; assumption.
Qed.

(** X4.  Counter variant: a delete answered 200 carries the record that was
    stored under the identifier of the path; the collection loses that one
    record and nothing else, the other collections and the counters are as
    they were; and when the identifiers of the kind are pairwise distinct a
    read of the same identifier is then answered 404. *)
Theorem counter_delete_removes_the_record :
  forall (str2num : string -> num) (k : resource) (id : string)
         (s : CounterApi.state) (r : response) (s' : CounterApi.state),
    CounterApi.delete_id str2num k id s = (Some r, s') ->
    status r = 200 ->
    exists l1 l2,
      counter_collection k s = (l1 ++ body r :: l2)%list
      /\ counter_collection k s' = (l1 ++ l2)%list
      /\ entity_id (body r) = JS.integer_value (JS.Number str2num (Str id))
      /\ (forall k', k' <> k -> counter_collection k' s' = counter_collection k' s)
      /\ CounterApi.counters s' = CounterApi.counters s
      /\ (NoDup (CounterApi.ids k s) ->
          CounterApi.get_id str2num k id s' = (not_found k, s')).
Proof.
  intros str2num k id s r s'.
  destruct k; unfold_deletes; case_handler; intros Hr Hs; inversion Hr; subst;
    try discriminate Hs; clear Hr Hs; simpl in *;
    match goal with
    | E : find _ _ = Some _ |- _ =>
        destruct (remove_first_split _ _ _ E) as (l1 & l2 & H1 & H2);
        pose proof (find_some _ _ E) as [_ Hid];
        apply strict_equals_id_true in Hid
    end;
    [ exists (map a_teacher l1), (map a_teacher l2)
    | exists (map a_course l1), (map a_course l2)
    | exists (map a_student l1), (map a_student l2)
    | exists (map a_test l1), (map a_test l2) ];
    (split; [rewrite H1, map_app; reflexivity|]);
    (split; [rewrite H2, map_app; reflexivity|]);
    (split; [symmetry; exact Hid|]);
    (split; [intros k' Hk; destruct k'; solve [reflexivity | congruence]|]);
    (split; [reflexivity|]);
    intros Hd;
    unfold CounterApi.get_id, CounterApi.get_teachers_id, CounterApi.get_courses_id,
      CounterApi.get_students_id, CounterApi.get_tests_id; simpl;
    rewrite (integer_value_is_number _ _ Hid);
    match goal with
    | E : find _ _ = Some _ |- _ =>
        rewrite (find_after_remove_first _ _ _ _ E Hd)
    end;
    reflexivity.
Qed.

(** The theorem at work: [DELETE /tests/1] in the school. *)
Lemma counter_delete_removes_the_record_witness :
  exists l1 l2,
    counter_collection Tests Scenario.school
    = (l1 ++ a_test (Sample.quiz 1 8 10 1) :: l2)%list
    /\ counter_collection Tests Scenario.school_without_quiz = (l1 ++ l2)%list
    /\ entity_id (a_test (Sample.quiz 1 8 10 1))
       = JS.integer_value (JS.Number JS.decimal_StringToNumber (Str "1"))
    /\ (forall k', k' <> Tests ->
          counter_collection k' Scenario.school_without_quiz
          = counter_collection k' Scenario.school)
    /\ CounterApi.counters Scenario.school_without_quiz
       = CounterApi.counters Scenario.school
    /\ (NoDup (CounterApi.ids Tests Scenario.school) ->
        CounterApi.get_id JS.decimal_StringToNumber Tests "1" Scenario.school_without_quiz
        = (not_found Tests, Scenario.school_without_quiz)).
Proof.
  apply (counter_delete_removes_the_record JS.decimal_StringToNumber Tests "1"
           Scenario.school {| status := 200; body := a_test (Sample.quiz 1 8 10 1) |}
           Scenario.school_without_quiz);
    vm_compute; reflexivity.
Defined.

(** ** Creating in the counter variant *)

Ltac created_by_getNextId :=
  match goal with
  | E : CounterApi.getNextId _ _ = (_, _) |- _ =>
      let Hseq := fresh "Hseq" in
      let Hother := fresh "Hother" in
      let Et := fresh "Et" in
      let Ec := fresh "Ec" in
      let Es := fresh "Es" in
      let Ex := fresh "Ex" in
      apply getNextId_spec in E;
      destruct E as (-> & Hseq & Hother & Et & Ec & Es & Ex)
  end.

(** X5.  Counter variant: a create answered 201 carries a record whose
    identifier is the kind's counter plus one; the record is appended to its
    collection, the other collections are as they were, the kind's counter
    has advanced by one and the other counters not at all. *)
Theorem counter_create_appends_the_record :
  forall (str2num : string -> num) (num2str : num -> string) (k : resource) (req_body : object)
         (s : CounterApi.state) (r : response) (s' : CounterApi.state),
    CounterApi.post str2num num2str k req_body s = (Some r, s') ->
    status r = 201 ->
    entity_id (body r) = Some (counter_next k s)
    /\ counter_collection k s' = (counter_collection k s ++ [body r])%list
    /\ (forall k', k' <> k -> counter_collection k' s' = counter_collection k' s)
    /\ counter_next k s' = counter_next k s + 1
    /\ (forall k', k' <> k -> counter_next k' s' = counter_next k' s).
Proof.
  intros str2num num2str k req_body s r s'.
  destruct k; unfold_posts; case_handler; intros Hr Hs; inversion Hr; subst;
    try discriminate Hs; clear Hr Hs; created_by_getNextId;
    unfold counter_next; simpl;
    rewrite ?Et, ?Ec, ?Es, ?Ex, ?map_app, Hseq;
    (split; [reflexivity|]); (split; [reflexivity|]);
    (split; [intros k' Hk; destruct k'; simpl; rewrite ?Et, ?Ec, ?Es, ?Ex;
             solve [reflexivity | congruence]|]);
    (split; [reflexivity|]);
    intros k' Hk; destruct k'; simpl;
    solve [congruence | rewrite Hother by discriminate; reflexivity].
Qed.

(** The theorem at work: [POST /teachers] with Ada's body on the empty
    database. *)
Lemma counter_create_appends_the_record_witness :
  entity_id (a_teacher Sample.ada) = Some (counter_next Teachers Scenario.empty_school)
  /\ counter_collection Teachers Scenario.school_with_ada
     = (counter_collection Teachers Scenario.empty_school ++ [a_teacher Sample.ada])%list
  /\ (forall k', k' <> Teachers ->
        counter_collection k' Scenario.school_with_ada
        = counter_collection k' Scenario.empty_school)
  /\ counter_next Teachers Scenario.school_with_ada
     = counter_next Teachers Scenario.empty_school + 1
  /\ (forall k', k' <> Teachers ->
        counter_next k' Scenario.school_with_ada
        = counter_next k' Scenario.empty_school).
Proof.
  apply (counter_create_appends_the_record JS.decimal_StringToNumber
      JS.decimal_NumberToString Teachers
           Sample.ada_body Scenario.empty_school
           {| status := 201; body := a_teacher Sample.ada |} Scenario.school_with_ada);
    vm_compute; reflexivity.
Defined.

Lemma find_app_last {A} (p : A -> bool) (l : list A) (x : A) :
  (forall y, In y l -> p y = false) -> p x = true -> find p (l ++ [x]) = Some x.
Proof.
  induction l as [|y l IH]; simpl; intros Hl Hx.
  - rewrite Hx. reflexivity.
  - rewrite (Hl y) by auto. apply IH; auto.
Qed.

Lemma find_appended {A} (f : A -> Z) (n : num) (l : list A) (x : A) :
  Forall (fun i => i < f x) (map f l) ->
  JS.integer_value n = Some (f x) ->
  find (fun y => JS.strict_equals_id (f y) n) (l ++ [x]) = Some x.
Proof.
  intros Hl Hn. apply find_app_last.
  - intros y Hy. rewrite (strict_equals_id_eqb _ _ _ Hn).
    rewrite Forall_forall in Hl. specialize (Hl (f y) (in_map f l y Hy)).
    apply Z.eqb_neq. lia.
  - apply strict_equals_id_true, Hn.
Qed.

(** X6.  Counter variant: when the identifiers of a kind are pairwise
    distinct and not above its counter, a record just created is the one a
    read of its identifier returns. *)
Theorem counter_created_record_is_found :
  forall (str2num : string -> num) (num2str : num -> string) (k : resource) (req_body : object)
         (s : CounterApi.state) (r : response) (s' : CounterApi.state) (id : string),
    CounterApi.post str2num num2str k req_body s = (Some r, s') ->
    status r = 201 ->
    fresh_in (CounterApi.ids k s) (counter_next k s) ->
    JS.integer_value (JS.Number str2num (Str id)) = entity_id (body r) ->
    CounterApi.get_id str2num k id s' = (res_json (body r), s').
Proof.
  intros str2num num2str k req_body s r s' id.
  destruct k; unfold_posts; case_handler; intros Hr Hs; inversion Hr; subst;
    try discriminate Hs; clear Hr Hs; created_by_getNextId;
    unfold counter_next, fresh_in; simpl; intros [_ Hb] Hid;
    unfold CounterApi.get_id, CounterApi.get_teachers_id, CounterApi.get_courses_id,
      CounterApi.get_students_id, CounterApi.get_tests_id; simpl;
    rewrite ?Et, ?Ec, ?Es, ?Ex, (integer_value_is_number _ _ Hid);
    rewrite find_appended; solve [reflexivity | exact Hb | exact Hid].
Qed.

(** The theorem at work: Ada, just created, read back by [GET /teachers/1]. *)
Lemma counter_created_record_is_found_witness :
  CounterApi.get_id JS.decimal_StringToNumber Teachers "1" Scenario.school_with_ada
  = (res_json (a_teacher Sample.ada), Scenario.school_with_ada).
Proof.
  apply (counter_created_record_is_found JS.decimal_StringToNumber
      JS.decimal_NumberToString Teachers
           Sample.ada_body Scenario.empty_school
           {| status := 201; body := a_teacher Sample.ada |} Scenario.school_with_ada "1").
  - vm_compute. reflexivity.
  - reflexivity.
  - split; constructor.
  - vm_compute. reflexivity.
Defined.

(** X7.  Counter variant: the record a create answers with holds, in every
    field of the kind, the supplied value in its stored form: a reference as
    the identifier it denotes, a grade, mark, total or weight as [Number] of
    the value, and every other field as its [String] path casts the value
    (a string is kept, a number or a boolean becomes its [toString()]),
    where [schedule] and [homeroom] are the empty string when the value is
    absent or falsy. *)
Theorem counter_create_stores_the_supplied_values :
  forall (str2num : string -> num) (num2str : num -> string) (k : resource) (req_body : object)
         (s : CounterApi.state) (r : response) (s' : CounterApi.state) (f : string),
    CounterApi.post str2num num2str k req_body s = (Some r, s') ->
    status r = 201 ->
    In f (Spec.fields k) ->
    entity_field f (body r) = counter_created_form str2num num2str k f (req_body f).
Proof.
  intros str2num num2str k req_body s r s' f.
  destruct k; unfold_posts; case_handler; intros Hr Hs; inversion Hr; subst;
    try discriminate Hs; clear Hr Hs; simpl; intros Hf;
    repeat (destruct Hf as [<-|Hf]); try contradiction; reflexivity.
Qed.

(** The theorem at work: Sam created without a homeroom gets the empty
    string for one. *)
Lemma counter_create_stores_the_supplied_values_witness :
  entity_field "homeroom" (a_student Scenario.sam_enrolled)
  = counter_created_form JS.decimal_StringToNumber JS.decimal_NumberToString Students "homeroom"
      (Scenario.sam_body "homeroom").
Proof.
  apply (counter_create_stores_the_supplied_values JS.decimal_StringToNumber
      JS.decimal_NumberToString Students
           Scenario.sam_body Scenario.empty_school
           {| status := 201; body := a_student Scenario.sam_enrolled |}
           Scenario.school_with_sam "homeroom").
  - vm_compute. reflexivity.
  - reflexivity.
  - simpl. tauto.
Defined.

(** ** Listing in the counter variant *)

(** X8.  Counter variant: each of the four list routes answers 200 with the
    whole collection, every record once, in ascending order of [id], and
    changes nothing. *)
Theorem counter_lists_are_the_collections_in_id_order :
  forall s : CounterApi.state,
    (exists l, CounterApi.get Teachers s = (res_json (teacher_list l), s)
               /\ Permutation (CounterApi.teachers s) l
               /\ Sorted (fun a b => Teacher.id a <= Teacher.id b) l)
    /\ (exists l, CounterApi.get Courses s = (res_json (course_list l), s)
                  /\ Permutation (CounterApi.courses s) l
                  /\ Sorted (fun a b => Course.id a <= Course.id b) l)
    /\ (exists l, CounterApi.get Students s = (res_json (student_list l), s)
                  /\ Permutation (CounterApi.students s) l
                  /\ Sorted (fun a b => Student.id a <= Student.id b) l)
    /\ (exists l, CounterApi.get Tests s = (res_json (test_list l), s)
                  /\ Permutation (CounterApi.tests s) l
                  /\ Sorted (fun a b => Test.id a <= Test.id b) l).
Proof.
  intros s. repeat split;
    (eexists; split; [reflexivity|]; split;
     [apply sort_by_id_permutation | apply sort_by_id_sorted]).
Qed.

Lemma filter_strict_equals_id {A} (f : A -> Z) (n : num) (i : Z) (l : list A) :
  JS.integer_value n = Some i ->
  filter (fun x => JS.strict_equals_id (f x) n) l = filter (fun x => f x =? i) l.
Proof.
  intros H. apply filter_ext. intros x. apply strict_equals_id_eqb, H.
Qed.

(** X9.  Counter variant: [GET /students/:id/tests] and
    [GET /courses/:id/tests], for a path identifier that is a number, answer
    404 when no student (course) has the identifier; otherwise they answer
    200 with exactly the stored tests whose [studentId] ([courseId]) is the
    identifier, each once, in ascending order of [id]. *)
Theorem counter_tests_of_a_student_or_course :
  forall (str2num : string -> num) (a : aggregate) (id : string) (s : CounterApi.state),
    (JS.isNaN (JS.Number str2num (Str id)) = false ->
     CounterApi.referenced str2num a id s = false ->
     counter_get_id_tests str2num a id s = (not_found (aggregate_of a), s))
    /\ (CounterApi.referenced str2num a id s = true ->
        exists i l,
          JS.integer_value (JS.Number str2num (Str id)) = Some i
          /\ counter_get_id_tests str2num a id s = (res_json (test_list l), s)
          /\ Permutation
               (filter (fun t => test_reference a t =? i) (CounterApi.tests s)) l
          /\ Sorted (fun x y => Test.id x <= Test.id y) l).
Proof.
  intros str2num a id s. split; [intros Hn H | intros H].
  - destruct a; unfold counter_get_id_tests, CounterApi.get_students_id_tests,
      CounterApi.get_courses_id_tests, CounterApi.referenced,
      Mongoose.rejects_condition in *; simpl in *;
      apply find_none_existsb in H; rewrite Hn, H; reflexivity.
  - destruct a; unfold counter_get_id_tests, CounterApi.get_students_id_tests,
      CounterApi.get_courses_id_tests, CounterApi.referenced in *; simpl in *;
      apply existsb_true_find in H; destruct H as (x & Hx & Hid);
      apply strict_equals_id_true in Hid;
      rewrite (integer_value_is_number _ _ Hid), Hx;
      eexists; eexists; (split; [exact Hid|]); (split; [reflexivity|]);
      rewrite (filter_strict_equals_id _ _ _ _ Hid);
      (split; [apply sort_by_id_permutation | apply sort_by_id_sorted]).
Qed.

(** The theorem at work: [GET /students/1/tests] in the school. *)
Lemma counter_tests_of_a_student_or_course_witness :
  exists i l,
    JS.integer_value (JS.Number JS.decimal_StringToNumber (Str "1")) = Some i
    /\ counter_get_id_tests JS.decimal_StringToNumber of_student "1" Scenario.school
       = (res_json (test_list l), Scenario.school)
    /\ Permutation
         (filter (fun t => test_reference of_student t =? i)
            (CounterApi.tests Scenario.school)) l
    /\ Sorted (fun x y => Test.id x <= Test.id y) l.
Proof.
  apply (proj2 (counter_tests_of_a_student_or_course JS.decimal_StringToNumber
                  of_student "1" Scenario.school)).
  vm_compute. reflexivity.
Defined.

(** ** Reading one record in the counter variant *)

(** X10.  Counter variant: a read by an identifier that is a number changes
    nothing; it answers 200 with a stored record of the kind whose [id] is
    the number of the path, or, exactly when no stored record of the kind
    has that [id], 404 with the kind's "not found" message. *)
Theorem counter_read_returns_the_record_asked_for :
  forall (str2num : string -> num) (k : resource) (id : string) (s : CounterApi.state),
    JS.isNaN (JS.Number str2num (Str id)) = false ->
    (exists entity,
       CounterApi.get_id str2num k id s = (res_json entity, s)
       /\ In entity (counter_collection k s)
       /\ entity_id entity = JS.integer_value (JS.Number str2num (Str id)))
    \/ (CounterApi.get_id str2num k id s = (not_found k, s)
        /\ forall entity,
             In entity (counter_collection k s) ->
             entity_id entity <> JS.integer_value (JS.Number str2num (Str id))).
Proof.
  intros str2num k id s Hnum. simpl in Hnum.
  destruct k; unfold CounterApi.get_id, CounterApi.get_teachers_id,
    CounterApi.get_courses_id, CounterApi.get_students_id, CounterApi.get_tests_id,
    Mongoose.rejects_condition;
    simpl; rewrite Hnum;
    match goal with
    | |- context [find ?p ?l] => destruct (find p l) as [x|] eqn:E
    end.
  all: try (left; eexists; split; [reflexivity|];
            apply find_some in E; destruct E as [Hin Hid];
            apply strict_equals_id_true in Hid;
            split; [apply in_map, Hin | symmetry; exact Hid]).
  all: right; split; [reflexivity|]; intros entity Hin Heq;
    apply in_map_iff in Hin; destruct Hin as (y & <- & Hy);
    simpl in Heq; symmetry in Heq; apply strict_equals_id_true in Heq;
    pose proof (find_none _ _ E y Hy) as Hn; simpl in Hn; congruence.
Qed.

(** The theorem at work: [GET /teachers/1] in the school. *)
Lemma counter_read_returns_the_record_asked_for_witness :
  (exists entity,
     CounterApi.get_id JS.decimal_StringToNumber Teachers "1" Scenario.school
     = (res_json entity, Scenario.school)
     /\ In entity (counter_collection Teachers Scenario.school)
     /\ entity_id entity
        = JS.integer_value (JS.Number JS.decimal_StringToNumber (Str "1")))
  \/ (CounterApi.get_id JS.decimal_StringToNumber Teachers "1" Scenario.school
      = (not_found Teachers, Scenario.school)
      /\ forall entity,
           In entity (counter_collection Teachers Scenario.school) ->
           entity_id entity
           <> JS.integer_value (JS.Number JS.decimal_StringToNumber (Str "1"))).
Proof.
  apply (counter_read_returns_the_record_asked_for JS.decimal_StringToNumber Teachers
           "1" Scenario.school).
  reflexivity.
Defined.

(** ** Updating in the counter variant *)

Lemma assign_first_split {A} (p : A -> bool) (x' : A) (l : list A) (x : A) :
  find p l = Some x ->
  exists l1 l2, l = (l1 ++ x :: l2)%list /\ JS.assign_first p x' l = (l1 ++ x' :: l2)%list.
Proof.
  induction l as [|y l IH]; simpl; [discriminate|].
  destruct (p y) eqn:E.
  - intros H. inversion H; subst. exists [], l. split; reflexivity.
  - intros H. destruct (IH H) as (l1 & l2 & H1 & H2).
    exists (y :: l1), l2. simpl. rewrite <- H1, H2. split; reflexivity.
Qed.

(** X11.  Counter variant: an update answered 200 replaces one record, in
    place, by the record it answers with; the records before and after it
    in the collection, the identifiers of the collection, the other
    collections and the counters are as they were. *)
Theorem counter_update_replaces_one_record :
  forall (str2num : string -> num) (num2str : num -> string)
         (k : resource) (id : string) (req_body : object)
         (s : CounterApi.state) (r : response) (s' : CounterApi.state),
    CounterApi.put_id str2num num2str k id req_body s = (Some r, s') ->
    status r = 200 ->
    exists l1 prior l2,
      counter_collection k s = (l1 ++ prior :: l2)%list
      /\ counter_collection k s' = (l1 ++ body r :: l2)%list
      /\ entity_id (body r) = entity_id prior
      /\ CounterApi.ids k s' = CounterApi.ids k s
      /\ (forall k', k' <> k -> counter_collection k' s' = counter_collection k' s)
      /\ CounterApi.counters s' = CounterApi.counters s.
Proof.
  intros str2num num2str k id req_body s r s'.
  destruct k; unfold_puts; case_handler; intros Hr Hs; inversion Hr; subst;
    try discriminate Hs; clear Hr Hs; simpl in *;
    match goal with
    | E : find ?p ?l = Some ?x |- context [JS.assign_first ?p ?x' ?l] =>
        destruct (assign_first_split p x' l x E) as (l1 & l2 & H1 & H2);
        rewrite (map_assign_first _ p x x' l E) by (push_projections; reflexivity);
        rewrite H2;
        first
          [ exists (map a_teacher l1), (a_teacher x), (map a_teacher l2)
          | exists (map a_course l1), (a_course x), (map a_course l2)
          | exists (map a_student l1), (a_student x), (map a_student l2)
          | exists (map a_test l1), (a_test x), (map a_test l2) ]
    end;
    (split; [rewrite H1, map_app; reflexivity|]);
    (split; [rewrite map_app; reflexivity|]);
    (split; [simpl; push_projections; reflexivity|]);
    (split; [reflexivity|]);
    (split; [intros k' Hk; destruct k'; solve [reflexivity | congruence]|]);
    reflexivity.
Qed.

(** The theorem at work: [PUT /students/1] with [{ homeroom: "12B" }]. *)
Lemma counter_update_replaces_one_record_witness :
  exists l1 prior l2,
    counter_collection Students (CounterApi.mk_state [] [] [] [Sample.sam] [])
    = (l1 ++ prior :: l2)%list
    /\ counter_collection Students (CounterApi.mk_state [] [] [] [Sample.sam_12B] [])
       = (l1 ++ a_student Sample.sam_12B :: l2)%list
    /\ entity_id (a_student Sample.sam_12B) = entity_id prior
    /\ CounterApi.ids Students (CounterApi.mk_state [] [] [] [Sample.sam_12B] [])
       = CounterApi.ids Students (CounterApi.mk_state [] [] [] [Sample.sam] [])
    /\ (forall k', k' <> Students ->
          counter_collection k' (CounterApi.mk_state [] [] [] [Sample.sam_12B] [])
          = counter_collection k' (CounterApi.mk_state [] [] [] [Sample.sam] []))
    /\ CounterApi.counters (CounterApi.mk_state [] [] [] [Sample.sam_12B] [])
       = CounterApi.counters (CounterApi.mk_state [] [] [] [Sample.sam] []).
Proof.
  apply (counter_update_replaces_one_record JS.decimal_StringToNumber
      JS.decimal_NumberToString Students "1"
           (Sample.object_of [("homeroom", Str "12B")])
           (CounterApi.mk_state [] [] [] [Sample.sam] [])
           {| status := 200; body := a_student Sample.sam_12B |}
           (CounterApi.mk_state [] [] [] [Sample.sam_12B] []));
    vm_compute; reflexivity.
Defined.

Lemma assign_first_again {A} (p : A -> bool) (x' : A) (l : list A) :
  p x' = true -> JS.assign_first p x' (JS.assign_first p x' l) = JS.assign_first p x' l.
Proof.
  intros Hx. induction l as [|y l IH]; simpl; [reflexivity|].
  destruct (p y) eqn:E; simpl.
  - rewrite Hx. reflexivity.
  - rewrite E, IH. reflexivity.
Qed.

Lemma assign_if_defined_again {A B} (v : value) (coerce : value -> B)
    (set : B -> A -> A) (x : A) :
  (forall b y, set b (set b y) = set b y) ->
  assign_if_defined v coerce set (assign_if_defined v coerce set x)
  = assign_if_defined v coerce set x.
Proof.
  intros H. unfold assign_if_defined. destruct (JS.is_undefined v); [reflexivity|].
  apply H.
Qed.

Lemma Teacher_ext (a b : Teacher.t) :
  Teacher.id a = Teacher.id b -> Teacher.firstName a = Teacher.firstName b ->
  Teacher.lastName a = Teacher.lastName b -> Teacher.email a = Teacher.email b ->
  Teacher.department a = Teacher.department b -> a = b.
Proof. destruct a, b; simpl; congruence. Qed.

Lemma Course_ext (a b : Course.t) :
  Course.id a = Course.id b -> Course.code a = Course.code b ->
  Course.name a = Course.name b -> Course.teacherId a = Course.teacherId b ->
  Course.semester a = Course.semester b -> Course.room a = Course.room b ->
  Course.schedule a = Course.schedule b -> a = b.
Proof. destruct a, b; simpl; congruence. Qed.

Lemma Student_ext (a b : Student.t) :
  Student.id a = Student.id b -> Student.firstName a = Student.firstName b ->
  Student.lastName a = Student.lastName b -> Student.grade a = Student.grade b ->
  Student.studentNumber a = Student.studentNumber b ->
  Student.homeroom a = Student.homeroom b -> a = b.
Proof. destruct a, b; simpl; congruence. Qed.

Lemma Test_ext (a b : Test.t) :
  Test.id a = Test.id b -> Test.studentId a = Test.studentId b ->
  Test.courseId a = Test.courseId b -> Test.testName a = Test.testName b ->
  Test.date a = Test.date b -> Test.mark a = Test.mark b ->
  Test.outOf a = Test.outOf b -> Test.weight a = Test.weight b -> a = b.
Proof. destruct a, b; simpl; congruence. Qed.

Ltac assigned_again :=
  first [apply Teacher_ext | apply Course_ext | apply Student_ext | apply Test_ext];
  push_projections;
  repeat match goal with
         | |- context [JS.is_undefined ?v] => destruct (JS.is_undefined v)
         end;
  reflexivity.

Ltac update_again :=
  match goal with
  | E : find ?p ?l = Some ?x |- context [JS.assign_first ?p ?x' ?l] =>
      let Hp := fresh "Hp" in
      let Hq := fresh "Hq" in
      let Hf := fresh "Hf" in
      let Hu := fresh "Hu" in
      let u := fresh "updated" in
      assert (Hp : p x' = true)
        by (pose proof (proj2 (find_some _ _ E)) as Hq; simpl in Hq |- *;
            push_projections; exact Hq);
      assert (Hf : find p (JS.assign_first p x' l) = Some x')
        by (apply find_assign_first; [exact Hp | congruence]);
      remember x' as u eqn:Hu in *;
      rewrite Hf;
      repeat match goal with
             | H : _ = false |- _ => rewrite H
             end;
      cbn [negb andb orb];
      match goal with
      | |- context [res_json (?c ?a)] =>
          replace a with u by (subst u; assigned_again)
      end;
      repeat match goal with
             | H : _ = true |- _ => rewrite H
             end;
      rewrite (assign_first_again p u l Hp); reflexivity
  end.

(** X12.  Counter variant: an update answered 200, sent again, is answered
    with the same record and leaves the database as the first one left
    it. *)
Theorem counter_update_is_idempotent :
  forall (str2num : string -> num) (num2str : num -> string)
         (k : resource) (id : string) (req_body : object)
         (s : CounterApi.state) (r : response) (s' : CounterApi.state),
    CounterApi.put_id str2num num2str k id req_body s = (Some r, s') ->
    status r = 200 ->
    CounterApi.put_id str2num num2str k id req_body s' = (Some r, s').
Proof.
  intros str2num num2str k id req_body s r s' H Hs.
  remember (CounterApi.put_id str2num num2str k id req_body s') as again eqn:Ha.
  revert H. destruct k; unfold_puts; case_handler; intros Hr; inversion Hr; subst;
    try discriminate Hs; clear Hr Hs; unfold_puts; simpl in *; update_again.
Qed.

(** The theorem at work: the same update sent a second time. *)
Lemma counter_update_is_idempotent_witness :
  CounterApi.put_id JS.decimal_StringToNumber JS.decimal_NumberToString Students "1"
    (Sample.object_of [("homeroom", Str "12B")])
    (CounterApi.mk_state [] [] [] [Sample.sam_12B] [])
  = (Some {| status := 200; body := a_student Sample.sam_12B |},
     CounterApi.mk_state [] [] [] [Sample.sam_12B] []).
Proof.
  apply (counter_update_is_idempotent JS.decimal_StringToNumber
      JS.decimal_NumberToString Students "1"
           (Sample.object_of [("homeroom", Str "12B")])
           (CounterApi.mk_state [] [] [] [Sample.sam] []));
    vm_compute; reflexivity.
Defined.

(** ** A test with mark 0 out of 0 *)

Lemma add_NaN_l (x : num) : JS.add JS.NaN x = JS.NaN.
Proof. reflexivity. Qed.

Lemma add_NaN_r (x : num) : JS.add x JS.NaN = JS.NaN.
Proof. destruct x; reflexivity. Qed.

Lemma div_NaN_l (x : num) : JS.div JS.NaN x = JS.NaN.
Proof. reflexivity. Qed.

Lemma fold_add_from_NaN (l : list num) : fold_left JS.add l JS.NaN = JS.NaN.
Proof. induction l as [|x l IH]; simpl; [reflexivity | exact IH]. Qed.

Lemma fold_add_with_NaN (l : list num) :
  In JS.NaN l -> forall acc, fold_left JS.add l acc = JS.NaN.
Proof.
  induction l as [|x l IH]; simpl; [tauto|].
  intros [->|H] acc.
  - rewrite add_NaN_r. apply fold_add_from_NaN.
  - apply IH, H.
Qed.

Lemma percentage_zero_out_of_zero (t : Test.t) :
  Test.mark t = JS.of_Z 0 -> Test.outOf t = JS.of_Z 0 -> percentage t = JS.NaN.
Proof. unfold percentage. intros -> ->. reflexivity. Qed.

Lemma average_of_with_NaN (tests : list Test.t) (t : Test.t) :
  In t tests -> percentage t = JS.NaN -> average_of tests = JS.NaN.
Proof.
  intros Hin Hp. unfold average_of. cbv zeta.
  rewrite fold_add_with_NaN; [reflexivity|].
  rewrite <- Hp. apply in_map, Hin.
Qed.

Lemma objectid_average_of_with_NaN (tests : list ObjectIdApi.Test.t)
    (t : ObjectIdApi.Test.t) :
  In t tests -> ObjectIdApi.percentage t = JS.NaN ->
  ObjectIdApi.average_of tests = JS.NaN.
Proof.
  intros Hin Hp. unfold ObjectIdApi.average_of.
  rewrite fold_add_with_NaN; [reflexivity|].
  rewrite <- Hp. apply in_map, Hin.
Qed.

Lemma In_not_nil {A} (x : A) (l : list A) : In x l -> l <> [].
Proof. destruct l; [contradiction | discriminate]. Qed.

(** X13.  The average routes do not look at [outOf] before they divide: when
    one of the matching tests has mark 0 out of 0, its percentage is 0/0 and
    the average handed to [res.json] is [NaN], whatever the other tests
    are. *)
Theorem average_with_a_test_out_of_zero_is_NaN :
  forall (str2num : string -> num) (cast : value -> option ObjectIdApi.ObjectId)
         (a : aggregate) (id : string),
    (forall s t,
       CounterApi.referenced str2num a id s = true ->
       In t (CounterApi.matching str2num a id s) ->
       Test.mark t = JS.of_Z 0 -> Test.outOf t = JS.of_Z 0 ->
       CounterApi.get_id_average str2num a id s
       = (res_json (CounterApi.average_json str2num a id
                      (List.length (CounterApi.matching str2num a id s))
                      (Num JS.NaN)), s))
    /\ (forall s t,
       ObjectIdApi.isValidObjectId cast (Str id) = true ->
       ObjectIdApi.referenced cast a id s = true ->
       In t (ObjectIdApi.matching cast a id s) ->
       ObjectIdApi.Test.mark t = JS.of_Z 0 -> ObjectIdApi.Test.outOf t = JS.of_Z 0 ->
       ObjectIdApi.get_id_average cast a id s
       = (ObjectIdApi.res_json
            (ObjectIdApi.average_json a id
               (List.length (ObjectIdApi.matching cast a id s)) (Num JS.NaN)), s))
    /\ (forall s t,
       JsonFileApi.referenced str2num id s = true ->
       In t (JsonFileApi.matching str2num id s) ->
       Test.mark t = JS.of_Z 0 -> Test.outOf t = JS.of_Z 0 ->
       JsonFileApi.get_courses_id_average str2num id s
       = (res_json (course_average (JS.Number str2num (Str id))
                      (List.length (JsonFileApi.matching str2num id s))
                      (Num JS.NaN)), s)).
Proof.
  intros str2num cast a id. split; [|split].
  - intros s t Href Hin Hm Ho.
    rewrite (counter_average_is_mean str2num a id s Href (In_not_nil _ _ Hin)).
    rewrite (average_of_with_NaN _ t Hin (percentage_zero_out_of_zero t Hm Ho)).
    reflexivity.
  - intros s t Hv Href Hin Hm Ho.
    rewrite (objectid_average_is_mean cast a id s Hv Href (In_not_nil _ _ Hin)).
    rewrite (objectid_average_of_with_NaN _ t Hin); [reflexivity|].
    unfold ObjectIdApi.percentage. rewrite Hm, Ho. reflexivity.
  - intros s t Href Hin Hm Ho.
    rewrite (json_course_average_is_mean str2num id s Href).
    rewrite (average_of_with_NaN _ t Hin (percentage_zero_out_of_zero t Hm Ho)).
    reflexivity.
Qed.

(** The theorem at work: Sam with a quiz of 8 out of 10 and one of 0 out of
    0, in the counter variant. *)
Lemma average_with_a_test_out_of_zero_is_NaN_witness :
  CounterApi.get_id_average JS.decimal_StringToNumber of_student "1"
    (CounterApi.mk_state [] [] [] [Sample.sam]
       [Sample.quiz 1 8 10 1; Sample.quiz 2 0 0 1])
  = (res_json (student_average (JS.of_Z 1) 2 (Num JS.NaN)),
     CounterApi.mk_state [] [] [] [Sample.sam]
       [Sample.quiz 1 8 10 1; Sample.quiz 2 0 0 1]).
Proof.
  apply (proj1 (average_with_a_test_out_of_zero_is_NaN JS.decimal_StringToNumber
                  ObjectIdApi.hex24_castObjectId of_student "1")
           (CounterApi.mk_state [] [] [] [Sample.sam]
              [Sample.quiz 1 8 10 1; Sample.quiz 2 0 0 1])
           (Sample.quiz 2 0 0 1)).
  - vm_compute. reflexivity.
  - vm_compute. tauto.
  - reflexivity.
  - reflexivity.
Defined.

(** ** Updates of the JSON-file variant *)

Ltac split_forall H :=
  repeat (apply Forall_cons_iff in H; let E := fresh "E" in destruct H as [E H]);
  clear H.

(** X14.  JSON-file variant: the emptiness test of an update reads its
    fields by truthiness and does not read [homeroom]: an update of a stored
    record in which none of the fields it reads is truthy (for a test: none
    of the four text and reference fields is truthy and mark, total and
    weight are absent) is answered 400 "No fields provided to update" and
    changes nothing, whatever else the body holds. *)
Theorem json_update_without_a_truthy_field_is_rejected :
  forall (str2num : string -> num) (k : resource) (id : string) (req_body : object)
         (s : JsonFileApi.state),
    JsonFileApi.lookup str2num k id s <> None ->
    json_counts_as_empty k req_body ->
    JsonFileApi.put_id str2num k id req_body s = (no_fields_provided, s).
Proof.
  intros str2num k id req_body s Hl [Ht Hu].
  destruct k; simpl in Ht, Hu; split_forall Ht; split_forall Hu;
    unfold JsonFileApi.lookup in Hl; unfold_puts; unfold JS.not;
    rewrite_fields; simpl in *;
    repeat match goal with E : JS.truthy _ = false |- _ => rewrite E; clear E end;
    match goal with |- context [find ?p ?l] => destruct (find p l) end;
    simpl in *; solve [reflexivity | congruence].
Qed.

(** The theorem at work: [PUT /students/1] with [{ homeroom: "12B" }] in the
    JSON-file variant. *)
Lemma json_update_without_a_truthy_field_is_rejected_witness :
  JsonFileApi.put_id JS.decimal_StringToNumber Students "1"
    (Sample.object_of [("homeroom", Str "12B")]) Scenario.school_files
  = (no_fields_provided, Scenario.school_files).
Proof.
  apply (json_update_without_a_truthy_field_is_rejected JS.decimal_StringToNumber
           Students "1" (Sample.object_of [("homeroom", Str "12B")])
           Scenario.school_files).
  - vm_compute. discriminate.
  - split; repeat constructor.
Defined.

Lemma is_undefined_false (v : value) : v <> undefined -> JS.is_undefined v = false.
Proof. destruct v; simpl; congruence. Qed.

Lemma truthy_defined (v : value) : JS.truthy v = true -> JS.is_undefined v = false.
Proof. destruct v; simpl; congruence. Qed.

(** X15.  JSON-file variant: [PUT /tests/:id] writes [studentId] into the
    stored test before it checks [courseId].  An update of a stored test
    that names a stored student and a course that is not stored is answered
    400 "courseId is invalid!", yet the test in memory now has the new
    [studentId] (a read of the test returns it), while the file and
    everything else are as they were. *)
Theorem json_rejected_test_update_still_changes_the_student :
  forall (str2num : string -> num) (id : string) (req_body : object)
         (s : JsonFileApi.state) (test : Test.t),
    JsonFileApi.lookup str2num Tests id s = Some (a_test test) ->
    JS.truthy (req_body "studentId") = true ->
    json_student_stored str2num req_body s = true ->
    req_body "courseId" <> undefined ->
    json_course_stored str2num req_body s = false ->
    exists s',
      JsonFileApi.put_id str2num Tests id req_body s
      = (res_status_json 400 (error "courseId is invalid!"), s')
      /\ JsonFileApi.get_id str2num Tests id s'
         = (res_json (a_test (Test.set_studentId
                                (JS.as_id (JS.Number str2num (req_body "studentId")))
                                test)), s')
      /\ JsonFileApi.tests_file s' = JsonFileApi.tests_file s
      /\ s' = JsonFileApi.set_tests (JsonFileApi.tests s') s.
Proof.
  intros str2num id req_body s test Hl Ht Hs Hd Hc.
  unfold JsonFileApi.lookup in Hl. simpl in Hl.
  destruct (find _ (JsonFileApi.tests s)) as [t0|] eqn:E; [|discriminate].
  simpl in Hl. inversion Hl; subst t0. clear Hl.
  unfold json_student_stored in Hs. unfold json_course_stored in Hc.
  unfold_puts. simpl. rewrite E. unfold JS.not. rewrite Ht. cbn [negb andb].
  rewrite (truthy_defined _ Ht), (is_undefined_false _ Hd), Hs, Hc. cbn [negb andb].
  eexists. split; [reflexivity|]. split; [|split; reflexivity].
  unfold JsonFileApi.get_id, JsonFileApi.get_tests_id. simpl.
  unfold assign_if_defined. rewrite (truthy_defined _ Ht).
  rewrite find_assign_first; [reflexivity | | congruence].
  apply find_some in E. exact (proj2 E).
Qed.

(** The theorem at work: [PUT /tests/1] with [{ studentId: 2, courseId: 99 }]:
    the answer is 400 and the quiz is Kim's from then on. *)
Lemma json_rejected_test_update_still_changes_the_student_witness :
  exists s',
    JsonFileApi.put_id JS.decimal_StringToNumber Tests "1"
      (Sample.object_of [("studentId", Num (JS.of_Z 2)); ("courseId", Num (JS.of_Z 99))])
      Scenario.school_files
    = (res_status_json 400 (error "courseId is invalid!"), s')
    /\ JsonFileApi.get_id JS.decimal_StringToNumber Tests "1" s'
       = (res_json
            (a_test (Test.set_studentId
                       (JS.as_id
                          (JS.Number JS.decimal_StringToNumber
                             (Sample.object_of
                                [("studentId", Num (JS.of_Z 2));
                                 ("courseId", Num (JS.of_Z 99))] "studentId")))
                       (Sample.quiz 1 8 10 1))), s')
    /\ JsonFileApi.tests_file s' = JsonFileApi.tests_file Scenario.school_files
    /\ s' = JsonFileApi.set_tests (JsonFileApi.tests s') Scenario.school_files.
Proof.
  apply (json_rejected_test_update_still_changes_the_student JS.decimal_StringToNumber
           "1"
           (Sample.object_of [("studentId", Num (JS.of_Z 2)); ("courseId", Num (JS.of_Z 99))])
           Scenario.school_files (Sample.quiz 1 8 10 1)).
  - vm_compute. reflexivity.
  - reflexivity.
  - vm_compute. reflexivity.
  - vm_compute. discriminate.
  - vm_compute. reflexivity.
Defined.

(** ** The files of the JSON-file variant *)

Lemma json_app_keeps_saved str2num (k : resource) (r : JsonFileApi.request) s :
  k <> Tests -> json_saved k s -> json_saved k (snd (JsonFileApi.app str2num r s)).
Proof.
  intros Hk H.
  destruct r as [k0|k0 id|k0 req_body|k0 id req_body|k0 id|id];
    try destruct k0; destruct k; try congruence;
    unfold_json_routes; case_handler; simpl; solve [exact H | reflexivity].
Qed.

(** X16.  JSON-file variant: once the file of the teachers, of the courses
    or of the students holds what the array holds (as it does when the
    module has just been loaded), it does so after any sequence of
    requests: every change to these three arrays is saved.  (For the tests
    this fails, by the early return of [PUT /tests/:id].) *)
Theorem json_arrays_stay_saved :
  forall (str2num : string -> num) (k : resource) (rs : list JsonFileApi.request)
         (s : JsonFileApi.state),
    k <> Tests -> json_saved k s -> json_saved k (snd (JsonFileApi.run str2num rs s)).
Proof.
  intros str2num k rs s Hk. unfold JsonFileApi.run.
  apply (serve_invariant (JsonFileApi.app str2num) (json_saved k)).
  intros r s0. apply json_app_keeps_saved, Hk.
Qed.

(** The theorem at work: a teacher created and deleted again, from no
    files. *)
Lemma json_arrays_stay_saved_witness :
  json_saved Teachers
    (snd (JsonFileApi.run JS.decimal_StringToNumber
            [JsonFileApi.POST Teachers Sample.ada_body;
             JsonFileApi.DELETE_id Teachers "1"]
            Scenario.no_files)).
Proof.
  apply (json_arrays_stay_saved JS.decimal_StringToNumber Teachers
           [JsonFileApi.POST Teachers Sample.ada_body;
            JsonFileApi.DELETE_id Teachers "1"]
           Scenario.no_files).
  - discriminate.
  - reflexivity.
Defined.

Lemma remove_first_app_last {A} (p : A -> bool) (l : list A) (x : A) :
  (forall y, In y l -> p y = false) -> p x = true ->
  JS.remove_first p (l ++ [x]) = l.
Proof.
  induction l as [|y l IH]; simpl; intros Hl Hx.
  - rewrite Hx. reflexivity.
  - rewrite (Hl y) by auto. rewrite IH; auto.
Qed.

Lemma remove_appended {A} (f : A -> Z) (n : num) (l : list A) (x : A) :
  Forall (fun i => i < f x) (map f l) ->
  JS.integer_value n = Some (f x) ->
  JS.remove_first (fun y => JS.strict_equals_id (f y) n) (l ++ [x]) = l.
Proof.
  intros Hl Hn. apply remove_first_app_last.
  - intros y Hy. rewrite (strict_equals_id_eqb _ _ _ Hn).
    rewrite Forall_forall in Hl. specialize (Hl (f y) (in_map f l y Hy)).
    apply Z.eqb_neq. lia.
  - apply strict_equals_id_true, Hn.
Qed.

(** X17.  JSON-file variant: the counters are recomputed from the files when
    the module is loaded.  Create a record on a freshly loaded service,
    delete it, and start the process again: the delete returns the record
    and the service is back in the state it was loaded in, so the next
    create is given the identifier of the deleted record again. *)
Theorem json_create_delete_restart_returns_to_the_start :
  forall (str2num : string -> num) (k : resource)
         (teachers_json : list Teacher.t) (courses_json : list Course.t)
         (students_json : list Student.t) (tests_json : list Test.t)
         (req_body : object) (r : response) (s1 : JsonFileApi.state) (id : string),
    JsonFileApi.post str2num k req_body
      (JsonFileApi.startup teachers_json courses_json students_json tests_json)
    = (Some r, s1) ->
    status r = 201 ->
    JS.integer_value (JS.Number str2num (Str id)) = entity_id (body r) ->
    fst (JsonFileApi.delete_id str2num k id s1) = res_json (body r)
    /\ json_restart (snd (JsonFileApi.delete_id str2num k id s1))
       = JsonFileApi.startup teachers_json courses_json students_json tests_json
    /\ entity_id (body r)
       = Some (JsonFileApi.next_id k
                 (json_restart (snd (JsonFileApi.delete_id str2num k id s1)))).
Proof.
  intros str2num k teachers_json courses_json students_json tests_json
    req_body r s1 id.
  destruct k; unfold_posts; case_handler; intros Hr Hs; inversion Hr; subst;
    try discriminate Hs; clear Hr Hs; simpl; intros Hid;
    unfold_deletes; simpl;
    rewrite find_appended by (solve [apply next_after_above | exact Hid]);
    rewrite remove_appended by (solve [apply next_after_above | exact Hid]);
    repeat split; reflexivity.
Qed.

(** The theorem at work: Ada created from no files, deleted, and the process
    started again: identifier 1 is the next one once more. *)
Lemma json_create_delete_restart_returns_to_the_start_witness :
  fst (JsonFileApi.delete_id JS.decimal_StringToNumber Teachers "1"
         Scenario.files_with_ada)
  = res_json (a_teacher Sample.ada)
  /\ json_restart
       (snd (JsonFileApi.delete_id JS.decimal_StringToNumber Teachers "1"
               Scenario.files_with_ada))
     = JsonFileApi.startup [] [] [] []
  /\ entity_id (a_teacher Sample.ada)
     = Some (JsonFileApi.next_id Teachers
               (json_restart
                  (snd (JsonFileApi.delete_id JS.decimal_StringToNumber Teachers "1"
                          Scenario.files_with_ada)))).
Proof.
  apply (json_create_delete_restart_returns_to_the_start JS.decimal_StringToNumber
           Teachers [] [] [] [] Sample.ada_body
           {| status := 201; body := a_teacher Sample.ada |}
           Scenario.files_with_ada "1");
    vm_compute; reflexivity.
Defined.

(** ** Creating in the JSON-file variant *)

(** X18.  JSON-file variant: a create answered 201 carries a record whose
    identifier is the kind's counter; the record is appended to its array
    and the array is saved to its file; the counter advances by one; the
    other arrays, counters and files are as they were. *)
Theorem json_create_appends_and_saves_the_record :
  forall (str2num : string -> num) (k : resource) (req_body : object)
         (s : JsonFileApi.state) (r : response) (s' : JsonFileApi.state),
    JsonFileApi.post str2num k req_body s = (Some r, s') ->
    status r = 201 ->
    entity_id (body r) = Some (JsonFileApi.next_id k s)
    /\ json_collection k s' = (json_collection k s ++ [body r])%list
    /\ json_saved k s'
    /\ JsonFileApi.next_id k s' = JsonFileApi.next_id k s + 1
    /\ (forall k', k' <> k ->
          json_collection k' s' = json_collection k' s
          /\ JsonFileApi.next_id k' s' = JsonFileApi.next_id k' s
          /\ (json_saved k' s -> json_saved k' s')).
Proof.
  intros str2num k req_body s r s'.
  destruct k; unfold_posts; case_handler; intros Hr Hs; inversion Hr; subst;
    try discriminate Hs; clear Hr Hs; simpl; rewrite ?map_app;
    (split; [reflexivity|]); (split; [reflexivity|]); (split; [reflexivity|]);
    (split; [reflexivity|]);
    intros k' Hk; destruct k'; simpl;
    solve [congruence | repeat split; solve [reflexivity | exact (fun H => H)]].
Qed.

(** The theorem at work: [POST /teachers] with Ada's body, from no files. *)
Lemma json_create_appends_and_saves_the_record_witness :
  entity_id (a_teacher Sample.ada) = Some (JsonFileApi.next_id Teachers Scenario.no_files)
  /\ json_collection Teachers Scenario.files_with_ada
     = (json_collection Teachers Scenario.no_files ++ [a_teacher Sample.ada])%list
  /\ json_saved Teachers Scenario.files_with_ada
  /\ JsonFileApi.next_id Teachers Scenario.files_with_ada
     = JsonFileApi.next_id Teachers Scenario.no_files + 1
  /\ (forall k', k' <> Teachers ->
        json_collection k' Scenario.files_with_ada
        = json_collection k' Scenario.no_files
        /\ JsonFileApi.next_id k' Scenario.files_with_ada
           = JsonFileApi.next_id k' Scenario.no_files
        /\ (json_saved k' Scenario.no_files -> json_saved k' Scenario.files_with_ada)).
Proof.
  apply (json_create_appends_and_saves_the_record JS.decimal_StringToNumber Teachers
           Sample.ada_body Scenario.no_files
           {| status := 201; body := a_teacher Sample.ada |} Scenario.files_with_ada);
    vm_compute; reflexivity.
Defined.

(** X19.  JSON-file variant: the record a create answers with holds, in
    every field of the kind, the supplied value in its stored form: a
    reference as the identifier it denotes, a mark, total or weight as
    [Number] of the value, anything else (a grade included) as supplied.
    [homeroom] and [schedule] are not read: the record has neither, whatever
    the body holds. *)
Theorem json_create_stores_the_supplied_values :
  forall (str2num : string -> num) (k : resource) (req_body : object)
         (s : JsonFileApi.state) (r : response) (s' : JsonFileApi.state) (f : string),
    JsonFileApi.post str2num k req_body s = (Some r, s') ->
    status r = 201 ->
    In f (Spec.fields k) ->
    entity_field f (body r) = json_created_form str2num k f (req_body f).
Proof.
  intros str2num k req_body s r s' f.
  destruct k; unfold_posts; case_handler; intros Hr Hs; inversion Hr; subst;
    try discriminate Hs; clear Hr Hs; simpl; intros Hf;
    repeat (destruct Hf as [<-|Hf]); try contradiction; reflexivity.
Qed.

(** The theorem at work: Sam created with [homeroom: "12B"] in the body has
    no homeroom. *)
Lemma json_create_stores_the_supplied_values_witness :
  entity_field "homeroom" (a_student Sample.sam)
  = json_created_form JS.decimal_StringToNumber Students "homeroom"
      (Scenario.sam_12B_body "homeroom").
Proof.
  apply (json_create_stores_the_supplied_values JS.decimal_StringToNumber Students
           Scenario.sam_12B_body Scenario.no_files
           {| status := 201; body := a_student Sample.sam |}
           (JsonFileApi.mk_state [] [] [Sample.sam] [] 1 1 2 1 [] [] [Sample.sam] [])
           "homeroom").
  - vm_compute. reflexivity.
  - reflexivity.
  - simpl. tauto.
Defined.

(** ** When the files of the JSON-file variant change *)

(** X20.  JSON-file variant: a read route, and any request that is answered
    400 or 404, leaves the four files, the four counters and the arrays of
    the teachers, courses and students as they were.  (The array of the
    tests is the exception, by the early return of [PUT /tests/:id].) *)
Theorem json_reads_and_refused_writes_change_no_file :
  forall (str2num : string -> num) (r : JsonFileApi.request) (s : JsonFileApi.state)
         (k : resource),
    (json_is_read r = true -> snd (JsonFileApi.app str2num r s) = s)
    /\ (forall resp,
          fst (JsonFileApi.app str2num r s) = Some resp ->
          status resp = 400 \/ status resp = 404 ->
          json_file k (snd (JsonFileApi.app str2num r s)) = json_file k s
          /\ JsonFileApi.next_id k (snd (JsonFileApi.app str2num r s))
             = JsonFileApi.next_id k s
          /\ (k <> Tests ->
              json_collection k (snd (JsonFileApi.app str2num r s))
              = json_collection k s)).
Proof.
  intros str2num r s k.
  destruct r as [k0|k0 id|k0 req_body|k0 id req_body|k0 id|id];
    try destruct k0; unfold_json_routes; case_handler; simpl;
    (split; [intros Hr | intros resp Hr [Hs|Hs]; inversion Hr; subst resp]);
    try discriminate; try reflexivity;
    destruct k; repeat split; solve [reflexivity | congruence].
Qed.

(** The theorem at work: the refused [PUT /students/1] with
    [{ homeroom: "12B" }]. *)
Lemma json_reads_and_refused_writes_change_no_file_witness :
  json_file Students
    (snd (JsonFileApi.app JS.decimal_StringToNumber
            (JsonFileApi.PUT_id Students "1" (Sample.object_of [("homeroom", Str "12B")]))
            Scenario.school_files))
  = json_file Students Scenario.school_files
  /\ JsonFileApi.next_id Students
       (snd (JsonFileApi.app JS.decimal_StringToNumber
               (JsonFileApi.PUT_id Students "1"
                  (Sample.object_of [("homeroom", Str "12B")]))
               Scenario.school_files))
     = JsonFileApi.next_id Students Scenario.school_files
  /\ (Students <> Tests ->
      json_collection Students
        (snd (JsonFileApi.app JS.decimal_StringToNumber
                (JsonFileApi.PUT_id Students "1"
                   (Sample.object_of [("homeroom", Str "12B")]))
                Scenario.school_files))
      = json_collection Students Scenario.school_files).
Proof.
  apply (proj2 (json_reads_and_refused_writes_change_no_file JS.decimal_StringToNumber
                  (JsonFileApi.PUT_id Students "1"
                     (Sample.object_of [("homeroom", Str "12B")]))
                  Scenario.school_files Students)
           {| status := 400; body := error "No fields provided to update" |}).
  - vm_compute. reflexivity.
  - left. reflexivity.
Defined.

(** ** Deleting in the JSON-file variant *)

(** X21.  JSON-file variant: a delete of a stored record is always answered
    200 with the record, whatever refers to it; the array loses that one
    record and is saved to its file, and the other arrays are as they were,
    so a course keeps the [teacherId] of a deleted teacher and a test the
    [studentId] and [courseId] of a deleted student or course. *)
Theorem json_delete_removes_the_record_whatever_refers_to_it :
  forall (str2num : string -> num) (k : resource) (id : string)
         (s : JsonFileApi.state) (entity : json),
    JsonFileApi.lookup str2num k id s = Some entity ->
    exists s' l1 l2,
      JsonFileApi.delete_id str2num k id s = (res_json entity, s')
      /\ json_collection k s = (l1 ++ entity :: l2)%list
      /\ json_collection k s' = (l1 ++ l2)%list
      /\ json_saved k s'
      /\ (forall k', k' <> k -> json_collection k' s' = json_collection k' s).
Proof.
  intros str2num k id s entity.
  destruct k; unfold JsonFileApi.lookup; unfold_deletes; simpl;
    match goal with
    | |- context [find ?p ?l] => destruct (find p l) as [x|] eqn:E
    end; simpl; intros Hl; inversion Hl; subst; clear Hl;
    destruct (remove_first_split _ _ _ E) as (l1 & l2 & H1 & H2);
    eexists;
    first
      [ exists (map a_teacher l1), (map a_teacher l2)
      | exists (map a_course l1), (map a_course l2)
      | exists (map a_student l1), (map a_student l2)
      | exists (map a_test l1), (map a_test l2) ];
    (split; [reflexivity|]); simpl;
    (split; [rewrite H1, map_app; reflexivity|]);
    (split; [rewrite H2, map_app; reflexivity|]);
    (split; [reflexivity|]);
    intros k' Hk; destruct k'; solve [reflexivity | congruence].
Qed.

(** The theorem at work: [DELETE /teachers/1] while course 1 names teacher
    1. *)
Lemma json_delete_removes_the_record_whatever_refers_to_it_witness :
  exists s' l1 l2,
    JsonFileApi.delete_id JS.decimal_StringToNumber Teachers "1" Scenario.school_files
    = (res_json (a_teacher Sample.ada), s')
    /\ json_collection Teachers Scenario.school_files
       = (l1 ++ a_teacher Sample.ada :: l2)%list
    /\ json_collection Teachers s' = (l1 ++ l2)%list
    /\ json_saved Teachers s'
    /\ (forall k', k' <> Teachers ->
          json_collection k' s' = json_collection k' Scenario.school_files).
Proof.
  apply (json_delete_removes_the_record_whatever_refers_to_it
           JS.decimal_StringToNumber Teachers "1" Scenario.school_files
           (a_teacher Sample.ada)).
  vm_compute. reflexivity.
Defined.

(** ** The references of the ObjectId variant *)

Lemma equals_id_true cast (o : ObjectIdApi.ObjectId) (v : value) :
  ObjectIdApi.equals_id cast o v = true <-> cast v = Some o.
Proof.
  unfold ObjectIdApi.equals_id. destruct (cast v) as [o'|].
  - rewrite String.eqb_eq. split; [intros ->; reflexivity | intros H; inversion H; reflexivity].
  - split; discriminate.
Qed.

Lemma equals_id_as_ObjectId cast (o : ObjectIdApi.ObjectId) (v : value) :
  ObjectIdApi.equals_id cast o v = true -> ObjectIdApi.as_ObjectId cast v = o.
Proof.
  intros H. apply equals_id_true in H. unfold ObjectIdApi.as_ObjectId. rewrite H.
  reflexivity.
Qed.

Lemma existsb_as_ObjectId_In {A} cast (f : A -> ObjectIdApi.ObjectId) (v : value)
    (l : list A) :
  existsb (fun x => ObjectIdApi.equals_id cast (f x) v) l = true ->
  In (ObjectIdApi.as_ObjectId cast v) (map f l).
Proof.
  intros H. apply existsb_exists in H. destruct H as (x & Hx & E).
  rewrite (equals_id_as_ObjectId _ _ _ E). apply in_map, Hx.
Qed.

Lemma map_assign_first_oid {A} (f : A -> ObjectIdApi.ObjectId) (p : A -> bool)
    (x x' : A) (l : list A) :
  find p l = Some x -> f x' = f x -> map f (JS.assign_first p x' l) = map f l.
Proof.
  intros Hf Hx. induction l as [|y l IH]; simpl in *; [reflexivity|].
  destruct (p y).
  - inversion Hf; subst. simpl. congruence.
  - simpl. rewrite IH by exact Hf. reflexivity.
Qed.

Lemma In_map_remove_first_oid {A} (f : A -> ObjectIdApi.ObjectId) (p : A -> bool)
    (l : list A) (z : ObjectIdApi.ObjectId) :
  In z (map f l) -> (forall x, In x l -> p x = true -> f x <> z) ->
  In z (map f (JS.remove_first p l)).
Proof.
  induction l as [|x l IH]; simpl; [tauto|].
  intros Hin Hp. destruct (p x) eqn:E.
  - destruct Hin as [H|H]; [|exact H]. exfalso. apply (Hp x); auto.
  - simpl. destruct Hin as [H|H]; [left; exact H|]. right. apply IH; auto.
Qed.

Lemma not_referenced_differs_oid {A B} cast (f : A -> ObjectIdApi.ObjectId)
    (g : B -> ObjectIdApi.ObjectId) (v : value) (l : list A) (x : A) (y : B) :
  existsb (fun x => ObjectIdApi.equals_id cast (f x) v) l = false ->
  In x l -> ObjectIdApi.equals_id cast (g y) v = true -> g y <> f x.
Proof.
  intros He Hx Hy Heq.
  assert (H : existsb (fun x => ObjectIdApi.equals_id cast (f x) v) l = true).
  { apply existsb_exists. exists x. split; [exact Hx|]. rewrite <- Heq. exact Hy. }
  congruence.
Qed.

Ltac into_objectid_references :=
  match goal with
  | H : objectid_references_resolve _ |- objectid_references_resolve _ =>
      let Hc := fresh "Hc" in
      let Ht := fresh "Ht" in
      destruct H as [Hc Ht]; unfold objectid_references_resolve; simpl in *
  end.

Ltac same_oids :=
  repeat match goal with
         | E : find ?p ?l = Some ?x |- context [map ?f (JS.assign_first ?p ?x' ?l)] =>
             rewrite (map_assign_first_oid f p x x' l E) by (push_projections; reflexivity)
         end.

Lemma objectid_post_keeps_references str2num num2str cast new_id k req_body s :
  objectid_references_resolve s ->
  objectid_references_resolve (snd (ObjectIdApi.post str2num num2str cast k new_id req_body s)).
Proof.
  intros H. destruct k; unfold_posts; cbv zeta; case_handler; simpl; try exact H;
    into_objectid_references; rewrite ?map_app.
  - split; [intros y Hin; apply in_or_app; left; auto | exact Ht].
  - split.
    + intros y Hin. apply in_app_or in Hin. destruct Hin as [Hin|[<-|[]]]; [auto|].
      simpl. apply existsb_as_ObjectId_In. apply negb_false_iff. assumption.
    + intros y Hin. destruct (Ht y Hin). split; [assumption|].
      apply in_or_app. left. assumption.
  - split; [exact Hc|]. intros y Hin. destruct (Ht y Hin). split; [|assumption].
    apply in_or_app. left. assumption.
  - split; [exact Hc|]. intros y Hin.
    apply in_app_or in Hin. destruct Hin as [Hin|[<-|[]]]; [auto|]. simpl.
    split; apply existsb_as_ObjectId_In; apply negb_false_iff; assumption.
Qed.

Lemma objectid_put_keeps_references str2num num2str cast k id req_body s :
  objectid_references_resolve s ->
  objectid_references_resolve (snd (ObjectIdApi.put_id str2num num2str cast k id req_body s)).
Proof.
  intros H. destruct k; unfold_puts;
    destruct (ObjectIdApi.isValidObjectId cast (Str id)); cbn [negb];
    case_handler; simpl; try exact H;
    into_objectid_references; same_oids.
  - split; assumption.
  - split; [|exact Ht]. intros y Hin. apply In_assign_first in Hin.
    destruct Hin as [->|Hin]; [|auto]. push_projections.
    match goal with
    | E : find _ (ObjectIdApi.courses s) = Some ?c |- _ =>
        pose proof (Hc c (proj1 (find_some _ _ E))) as Hold
    end.
    destruct (JS.is_undefined (req_body "teacherId")) eqn:Eu; [exact Hold|].
    apply existsb_as_ObjectId_In. simpl in *. apply negb_false_iff. assumption.
  - split; assumption.
  - split; [exact Hc|]. intros y Hin. apply In_assign_first in Hin.
    destruct Hin as [->|Hin]; [|auto]. push_projections.
    match goal with
    | E : find _ (ObjectIdApi.tests s) = Some ?c |- _ =>
        destruct (Ht c (proj1 (find_some _ _ E))) as [Hold1 Hold2]
    end.
    split.
    + destruct (JS.is_undefined (req_body "studentId")) eqn:Eu; [exact Hold1|].
      apply existsb_as_ObjectId_In. simpl in *. apply negb_false_iff. assumption.
    + destruct (JS.is_undefined (req_body "courseId")) eqn:Eu; [exact Hold2|].
      apply existsb_as_ObjectId_In. simpl in *. apply negb_false_iff. assumption.
Qed.

Lemma objectid_delete_keeps_references cast k id s :
  objectid_references_resolve s ->
  objectid_references_resolve (snd (ObjectIdApi.delete_id cast k id s)).
Proof.
  intros H. destruct k; unfold_deletes;
    destruct (ObjectIdApi.isValidObjectId cast (Str id)); cbn [negb];
    case_handler; simpl; try exact H;
    into_objectid_references.
  - split; [|exact Ht]. intros y Hin. apply In_map_remove_first_oid; [auto|].
    intros x Hx Hp. eapply not_referenced_differs_oid; eassumption.
  - split; [intros y Hin; apply In_remove_first in Hin; auto|].
    intros y Hin. destruct (Ht y Hin). split; [assumption|].
    apply In_map_remove_first_oid; [assumption|].
    intros x Hx Hp. eapply not_referenced_differs_oid; eassumption.
  - split; [exact Hc|]. intros y Hin. destruct (Ht y Hin). split; [|assumption].
    apply In_map_remove_first_oid; [assumption|].
    intros x Hx Hp. eapply not_referenced_differs_oid; eassumption.
  - split; [exact Hc|]. intros y Hin. apply In_remove_first in Hin. auto.
Qed.

(** X22.  ObjectId variant: when every course names a stored teacher and
    every test names a stored student and a stored course, the same holds
    after a create, after an update and after a delete, whatever they are
    answered. *)
Theorem objectid_references_stay_resolved :
  forall (str2num : string -> num) (num2str : num -> string)
         (cast : value -> option ObjectIdApi.ObjectId)
         (k : resource) (s : ObjectIdApi.state),
    objectid_references_resolve s ->
    (forall new_id req_body,
       objectid_references_resolve
         (snd (ObjectIdApi.post str2num num2str cast k new_id req_body s)))
    /\ (forall id req_body,
       objectid_references_resolve
         (snd (ObjectIdApi.put_id str2num num2str cast k id req_body s)))
    /\ (forall id,
       objectid_references_resolve (snd (ObjectIdApi.delete_id cast k id s))).
Proof.
  intros str2num num2str cast k s H. split; [|split]; intros.
  - apply objectid_post_keeps_references, H.
  - apply objectid_put_keeps_references, H.
  - apply objectid_delete_keeps_references, H.
Qed.

(** The theorem at work: the three kinds of write on the school of the
    ObjectId variant. *)
Lemma objectid_references_stay_resolved_witness :
  (forall new_id req_body,
     objectid_references_resolve
       (snd (ObjectIdApi.post JS.decimal_StringToNumber
           JS.decimal_NumberToString ObjectIdApi.hex24_castObjectId
               Tests new_id req_body Scenario.school_docs)))
  /\ (forall id req_body,
     objectid_references_resolve
       (snd (ObjectIdApi.put_id JS.decimal_StringToNumber
           JS.decimal_NumberToString ObjectIdApi.hex24_castObjectId
               Tests id req_body Scenario.school_docs)))
  /\ (forall id,
     objectid_references_resolve
       (snd (ObjectIdApi.delete_id ObjectIdApi.hex24_castObjectId Tests id
               Scenario.school_docs))).
Proof.
  apply (objectid_references_stay_resolved JS.decimal_StringToNumber JS.decimal_NumberToString
           ObjectIdApi.hex24_castObjectId Tests Scenario.school_docs).
  split.
  - intros c [<-|[]]. left. reflexivity.
  - intros t [<-|[]]. split; left; reflexivity.
Defined.

(** ** When the database of the ObjectId variant changes *)

(** X23.  ObjectId variant: a create, an update or a delete that is
    answered 400 or 404 leaves every collection as it was. *)
Theorem objectid_refused_writes_change_nothing :
  forall (str2num : string -> num) (num2str : num -> string)
         (cast : value -> option ObjectIdApi.ObjectId)
         (k : resource) (s : ObjectIdApi.state) (resp : ObjectIdApi.response),
    ObjectIdApi.status resp = 400 \/ ObjectIdApi.status resp = 404 ->
    (forall new_id req_body,
       fst (ObjectIdApi.post str2num num2str cast k new_id req_body s) = Some resp ->
       snd (ObjectIdApi.post str2num num2str cast k new_id req_body s) = s)
    /\ (forall id req_body,
       fst (ObjectIdApi.put_id str2num num2str cast k id req_body s) = Some resp ->
       snd (ObjectIdApi.put_id str2num num2str cast k id req_body s) = s)
    /\ (forall id,
       fst (ObjectIdApi.delete_id cast k id s) = Some resp ->
       snd (ObjectIdApi.delete_id cast k id s) = s).
Proof.
  intros str2num num2str cast k s resp Hs. split; [|split]; intros.
  - revert H. destruct k; unfold_posts; case_handler; simpl; intros Hr;
      inversion Hr; subst resp; destruct Hs as [Hs|Hs];
      solve [reflexivity | discriminate Hs].
  - revert H. destruct k; unfold_puts;
      destruct (ObjectIdApi.isValidObjectId cast (Str id)); cbn [negb];
      case_handler; simpl; intros Hr;
      inversion Hr; subst resp; destruct Hs as [Hs|Hs];
      solve [reflexivity | discriminate Hs].
  - revert H. destruct k; unfold_deletes;
      destruct (ObjectIdApi.isValidObjectId cast (Str id)); cbn [negb];
      case_handler; simpl; intros Hr;
      inversion Hr; subst resp; destruct Hs as [Hs|Hs];
      solve [reflexivity | discriminate Hs].
Qed.

(** The theorem at work: the refused delete of Ada. *)
Lemma objectid_refused_writes_change_nothing_witness :
  snd (ObjectIdApi.delete_id ObjectIdApi.hex24_castObjectId Teachers Sample.oid3
         Scenario.school_docs)
  = Scenario.school_docs.
Proof.
  apply (proj2 (proj2
           (objectid_refused_writes_change_nothing JS.decimal_StringToNumber
               JS.decimal_NumberToString
              ObjectIdApi.hex24_castObjectId Teachers Scenario.school_docs
              {| ObjectIdApi.status := 400;
                 ObjectIdApi.body :=
                   ObjectIdApi.error
                     "Cannot delete teacher who is assigned to courses. Update/delete courses first." |}
              (or_introl eq_refl)))
           Sample.oid3).
  vm_compute. reflexivity.
Defined.

(** ** Deleting in the ObjectId variant *)

Lemma objectid_not_referenced cast (k : resource) (id : string)
    (i : ObjectIdApi.ObjectId) s :
  cast (Str id) = Some i ->
  ~ objectid_referenced_by k i s ->
  match k with
  | Teachers =>
      existsb (fun c => ObjectIdApi.equals_id cast (ObjectIdApi.Course.teacherId c) (Str id))
        (ObjectIdApi.courses s) = false
  | Courses =>
      existsb (fun t => ObjectIdApi.equals_id cast (ObjectIdApi.Test.courseId t) (Str id))
        (ObjectIdApi.tests s) = false
  | Students =>
      existsb (fun t => ObjectIdApi.equals_id cast (ObjectIdApi.Test.studentId t) (Str id))
        (ObjectIdApi.tests s) = false
  | Tests => True
  end.
Proof.
  intros Hi Hn. destruct k; simpl in Hn; try exact I;
    match goal with |- ?b = false => destruct b eqn:E; [|reflexivity] end;
    apply existsb_exists in E; destruct E as (x & Hx & E);
    apply equals_id_true in E; exfalso; apply Hn; exists x;
    (split; [exact Hx | congruence]).
Qed.

(** X24.  ObjectId variant, for a path identifier that is a valid ObjectId:
    a delete of a teacher some course refers to, of a course some test
    refers to, or of a student some test refers to is answered 400 and
    changes nothing, whether or not the record is stored.  A delete of a
    record nothing refers to is answered 404 when no such record is stored
    and 200 with the record when it is. *)
Theorem objectid_delete_is_guarded_by_references :
  forall (cast : value -> option ObjectIdApi.ObjectId) (k : resource) (id : string)
         (i : ObjectIdApi.ObjectId) (s : ObjectIdApi.state),
    cast (Str id) = Some i ->
    (objectid_referenced_by k i s ->
       exists message,
         ObjectIdApi.delete_id cast k id s
         = (ObjectIdApi.res_status_json 400 (ObjectIdApi.error message), s))
    /\ (~ objectid_referenced_by k i s ->
        ObjectIdApi.lookup cast k id s = None ->
        ObjectIdApi.delete_id cast k id s = (objectid_not_found k, s))
    /\ (~ objectid_referenced_by k i s ->
        forall entity,
          ObjectIdApi.lookup cast k id s = Some entity ->
          fst (ObjectIdApi.delete_id cast k id s) = ObjectIdApi.res_json entity).
Proof.
  intros cast k id i s Hi.
  assert (Hv : ObjectIdApi.isValidObjectId cast (Str id) = true)
    by (unfold ObjectIdApi.isValidObjectId; rewrite Hi; reflexivity).
  split; [|split].
  - intros Href.
    destruct k; simpl in Href; try contradiction;
      destruct Href as (x & Hx & <-); unfold_deletes; rewrite Hv; cbn [negb];
      match goal with
      | |- context [existsb ?p ?l] =>
          replace (existsb p l) with true
            by (symmetry; apply existsb_exists; exists x; split;
                [exact Hx | apply equals_id_true, Hi])
      end;
      eexists; reflexivity.
  - intros Hn Hl. pose proof (objectid_not_referenced cast k id i s Hi Hn) as Hu.
    destruct k; unfold_deletes; unfold ObjectIdApi.lookup in Hl; rewrite Hv;
      cbn [negb]; rewrite ?Hu;
      match goal with
      | |- context [find ?p ?l] => destruct (find p l)
      end; solve [reflexivity | discriminate].
  - intros Hn entity Hl.
    pose proof (objectid_not_referenced cast k id i s Hi Hn) as Hu.
    destruct k; unfold_deletes; unfold ObjectIdApi.lookup in Hl; rewrite Hv;
      cbn [negb]; rewrite ?Hu;
      match goal with
      | |- context [find ?p ?l] => destruct (find p l)
      end; simpl in *; solve [congruence | discriminate].
Qed.

(** The theorem at work: a delete of Ada while the calculus course names
    her. *)
Lemma objectid_delete_is_guarded_by_references_witness :
  exists message,
    ObjectIdApi.delete_id ObjectIdApi.hex24_castObjectId Teachers Sample.oid3
      Scenario.school_docs
    = (ObjectIdApi.res_status_json 400 (ObjectIdApi.error message), Scenario.school_docs).
Proof.
  apply (proj1 (objectid_delete_is_guarded_by_references ObjectIdApi.hex24_castObjectId
                  Teachers Sample.oid3 Sample.oid3 Scenario.school_docs eq_refl)).
  exists Sample.calculus_doc. split; [left; reflexivity | reflexivity].
Defined.

Lemma find_after_remove_first_oid {A} cast (f : A -> ObjectIdApi.ObjectId) (v : value)
    (l : list A) (x : A) :
  find (fun y => ObjectIdApi.equals_id cast (f y) v) l = Some x ->
  NoDup (map f l) ->
  find (fun y => ObjectIdApi.equals_id cast (f y) v)
    (JS.remove_first (fun y => ObjectIdApi.equals_id cast (f y) v) l) = None.
Proof.
  induction l as [|y l IH]; simpl; [discriminate|].
  intros H Hd. inversion Hd as [|? ? Hy Hl]; subst.
  destruct (ObjectIdApi.equals_id cast (f y) v) eqn:E.
  - destruct (find (fun y0 => ObjectIdApi.equals_id cast (f y0) v) l) as [z|] eqn:Ez;
      [|reflexivity].
    exfalso. apply Hy. apply find_some in Ez. destruct Ez as [Hz Ez].
    apply equals_id_true in E. apply equals_id_true in Ez.
    assert (f z = f y) by congruence. rewrite <- H0. apply in_map, Hz.
  - simpl. rewrite E. apply IH; assumption.
Qed.

(** X25.  ObjectId variant: a delete answered 200 carries the record that
    was stored under the identifier of the path; the collection loses that
    one record and nothing else, the other collections are as they were; and
    when the identifiers of the kind are pairwise distinct no record is
    stored under the identifier any more. *)
Theorem objectid_delete_removes_the_record :
  forall (cast : value -> option ObjectIdApi.ObjectId) (k : resource) (id : string)
         (s : ObjectIdApi.state) (r : ObjectIdApi.response) (s' : ObjectIdApi.state),
    ObjectIdApi.delete_id cast k id s = (Some r, s') ->
    ObjectIdApi.status r = 200 ->
    exists l1 l2,
      objectid_collection k s = (l1 ++ ObjectIdApi.body r :: l2)%list
      /\ objectid_collection k s' = (l1 ++ l2)%list
      /\ objectid_entity_id (ObjectIdApi.body r) = cast (Str id)
      /\ (forall k', k' <> k -> objectid_collection k' s' = objectid_collection k' s)
      /\ (NoDup (objectid_ids k s) -> ObjectIdApi.lookup cast k id s' = None).
Proof.
  intros cast k id s r s'.
  destruct k; unfold_deletes;
    destruct (ObjectIdApi.isValidObjectId cast (Str id)); cbn [negb];
    case_handler; intros Hr Hs; inversion Hr; subst;
    try discriminate Hs; clear Hr Hs; simpl in *;
    match goal with
    | E : find _ _ = Some _ |- _ =>
        destruct (remove_first_split _ _ _ E) as (l1 & l2 & H1 & H2);
        pose proof (find_some _ _ E) as [_ Hid];
        apply equals_id_true in Hid
    end;
    [ exists (map ObjectIdApi.a_teacher l1), (map ObjectIdApi.a_teacher l2)
    | exists (map ObjectIdApi.a_course l1), (map ObjectIdApi.a_course l2)
    | exists (map ObjectIdApi.a_student l1), (map ObjectIdApi.a_student l2)
    | exists (map ObjectIdApi.a_test l1), (map ObjectIdApi.a_test l2) ];
    (split; [rewrite H1, map_app; reflexivity|]);
    (split; [rewrite H2, map_app; reflexivity|]);
    (split; [symmetry; exact Hid|]);
    (split; [intros k' Hk; destruct k'; solve [reflexivity | congruence]|]);
    intros Hd; unfold ObjectIdApi.lookup; simpl;
    match goal with
    | E : find _ _ = Some _ |- _ =>
        rewrite (find_after_remove_first_oid _ _ _ _ _ E Hd)
    end;
    reflexivity.
Qed.

(** The theorem at work: a delete of the quiz. *)
Lemma objectid_delete_removes_the_record_witness :
  exists l1 l2,
    objectid_collection Tests Scenario.school_docs
    = (l1 ++ ObjectIdApi.a_test (Sample.quiz_doc Scenario.oid4 8 10 1) :: l2)%list
    /\ objectid_collection Tests Scenario.school_docs_without_quiz = (l1 ++ l2)%list
    /\ objectid_entity_id (ObjectIdApi.a_test (Sample.quiz_doc Scenario.oid4 8 10 1))
       = ObjectIdApi.hex24_castObjectId (Str Scenario.oid4)
    /\ (forall k', k' <> Tests ->
          objectid_collection k' Scenario.school_docs_without_quiz
          = objectid_collection k' Scenario.school_docs)
    /\ (NoDup (objectid_ids Tests Scenario.school_docs) ->
        ObjectIdApi.lookup ObjectIdApi.hex24_castObjectId Tests Scenario.oid4
          Scenario.school_docs_without_quiz = None).
Proof.
  apply (objectid_delete_removes_the_record ObjectIdApi.hex24_castObjectId Tests
           Scenario.oid4 Scenario.school_docs
           {| ObjectIdApi.status := 200;
              ObjectIdApi.body := ObjectIdApi.a_test (Sample.quiz_doc Scenario.oid4 8 10 1) |}
           Scenario.school_docs_without_quiz);
    vm_compute; reflexivity.
Defined.

(** ** Creating in the ObjectId variant *)

Lemma find_appended_oid {A} cast (f : A -> ObjectIdApi.ObjectId) (v : value)
    (l : list A) (x : A) :
  ~ In (f x) (map f l) -> cast v = Some (f x) ->
  find (fun y => ObjectIdApi.equals_id cast (f y) v) (l ++ [x]) = Some x.
Proof.
  intros Hl Hv. apply find_app_last.
  - intros y Hy. destruct (ObjectIdApi.equals_id cast (f y) v) eqn:E; [|reflexivity].
    exfalso. apply Hl. apply equals_id_true in E.
    assert (f y = f x) by congruence. rewrite <- H. apply in_map, Hy.
  - apply equals_id_true, Hv.
Qed.

(** X26.  ObjectId variant: a create answered 201 carries a record under
    the [_id] the store gave it; the record is appended to its collection
    and the other collections are as they were; and when no stored record
    of the kind had that [_id], the record is the one then stored under
    it. *)
Theorem objectid_create_appends_the_record :
  forall (str2num : string -> num) (num2str : num -> string)
         (cast : value -> option ObjectIdApi.ObjectId)
         (k : resource) (new_id : ObjectIdApi.ObjectId) (req_body : object)
         (s : ObjectIdApi.state) (r : ObjectIdApi.response) (s' : ObjectIdApi.state),
    ObjectIdApi.post str2num num2str cast k new_id req_body s = (Some r, s') ->
    ObjectIdApi.status r = 201 ->
    objectid_entity_id (ObjectIdApi.body r) = Some new_id
    /\ objectid_collection k s' = (objectid_collection k s ++ [ObjectIdApi.body r])%list
    /\ (forall k', k' <> k -> objectid_collection k' s' = objectid_collection k' s)
    /\ (forall id,
          ~ In new_id (objectid_ids k s) -> cast (Str id) = Some new_id ->
          ObjectIdApi.lookup cast k id s' = Some (ObjectIdApi.body r)).
Proof.
  intros str2num num2str cast k new_id req_body s r s'.
  destruct k; unfold_posts; case_handler; intros Hr Hs; inversion Hr; subst;
    try discriminate Hs; clear Hr Hs; simpl; rewrite ?map_app;
    (split; [reflexivity|]); (split; [reflexivity|]);
    (split; [intros k' Hk; destruct k'; solve [reflexivity | congruence]|]);
    intros id Hn Hid; unfold ObjectIdApi.lookup; simpl;
    rewrite find_appended_oid; solve [reflexivity | exact Hn | exact Hid].
Qed.

(** The theorem at work: Ada created in the empty database. *)
Lemma objectid_create_appends_the_record_witness :
  objectid_entity_id (ObjectIdApi.a_teacher Scenario.ada_doc) = Some Sample.oid3
  /\ objectid_collection Teachers Scenario.docs_with_ada
     = (objectid_collection Teachers Scenario.no_docs
        ++ [ObjectIdApi.a_teacher Scenario.ada_doc])%list
  /\ (forall k', k' <> Teachers ->
        objectid_collection k' Scenario.docs_with_ada
        = objectid_collection k' Scenario.no_docs)
  /\ (forall id,
        ~ In Sample.oid3 (objectid_ids Teachers Scenario.no_docs) ->
        ObjectIdApi.hex24_castObjectId (Str id) = Some Sample.oid3 ->
        ObjectIdApi.lookup ObjectIdApi.hex24_castObjectId Teachers id
          Scenario.docs_with_ada
        = Some (ObjectIdApi.a_teacher Scenario.ada_doc)).
Proof.
  apply (objectid_create_appends_the_record JS.decimal_StringToNumber JS.decimal_NumberToString
           ObjectIdApi.hex24_castObjectId Teachers Sample.oid3 Sample.ada_body
           Scenario.no_docs
           {| ObjectIdApi.status := 201;
              ObjectIdApi.body := ObjectIdApi.a_teacher Scenario.ada_doc |}
           Scenario.docs_with_ada);
    vm_compute; reflexivity.
Defined.

(** X27.  ObjectId variant: the record a create answers with holds, in
    every field of the kind, the supplied value in its stored form: a
    reference as the ObjectId it casts to, a grade, mark, total or weight as
    [Number] of the value, and every other field as its [String] path casts
    the value (a string is kept, a number or a boolean becomes its
    [toString()]), where [schedule] and [homeroom] are the empty string when
    the value is absent or falsy. *)
Theorem objectid_create_stores_the_supplied_values :
  forall (str2num : string -> num) (num2str : num -> string)
         (cast : value -> option ObjectIdApi.ObjectId)
         (k : resource) (new_id : ObjectIdApi.ObjectId) (req_body : object)
         (s : ObjectIdApi.state) (r : ObjectIdApi.response) (s' : ObjectIdApi.state)
         (f : string),
    ObjectIdApi.post str2num num2str cast k new_id req_body s = (Some r, s') ->
    ObjectIdApi.status r = 201 ->
    In f (Spec.fields k) ->
    ObjectIdApi.entity_field f (ObjectIdApi.body r)
    = objectid_created_form str2num num2str cast k f (req_body f).
Proof.
  intros str2num num2str cast k new_id req_body s r s' f.
  destruct k; unfold_posts; case_handler; intros Hr Hs; inversion Hr; subst;
    try discriminate Hs; clear Hr Hs; simpl; intros Hf;
    repeat (destruct Hf as [<-|Hf]); try contradiction; reflexivity.
Qed.

(** The theorem at work: Sam created without a homeroom gets the empty
    string for one. *)
Lemma objectid_create_stores_the_supplied_values_witness :
  ObjectIdApi.entity_field "homeroom" (ObjectIdApi.a_student Sample.sam_doc)
  = objectid_created_form JS.decimal_StringToNumber
      JS.decimal_NumberToString ObjectIdApi.hex24_castObjectId
      Students "homeroom" (Scenario.sam_body "homeroom").
Proof.
  apply (objectid_create_stores_the_supplied_values JS.decimal_StringToNumber
      JS.decimal_NumberToString
           ObjectIdApi.hex24_castObjectId Students Sample.oid1 Scenario.sam_body
           Scenario.no_docs
           {| ObjectIdApi.status := 201;
              ObjectIdApi.body := ObjectIdApi.a_student Sample.sam_doc |}
           (ObjectIdApi.mk_state [] [] [Sample.sam_doc] []) "homeroom").
  - vm_compute. reflexivity.
  - reflexivity.
  - simpl. tauto.
Defined.

(** ** The [populate] parameter *)

Lemma trimStart_head (s : string) : head_is_kept (trimStart s).
Proof.
  induction s as [|c s IH]; simpl; [exact I|].
  destruct (is_white_space c) eqn:E; [exact IH | exact E].
Qed.

Lemma trimStart_kept (s : string) : head_is_kept s -> trimStart s = s.
Proof. destruct s as [|c s]; simpl; [reflexivity|]. intros ->. reflexivity. Qed.

Lemma trimEnd_head (s : string) : head_is_kept s -> head_is_kept (trimEnd s).
Proof.
  destruct s as [|c s]; simpl; [tauto|]. intros H.
  destruct (trimEnd s); [rewrite H|]; exact H.
Qed.

Lemma trimEnd_idempotent (s : string) : trimEnd (trimEnd s) = trimEnd s.
Proof.
  induction s as [|c s IH]; simpl; [reflexivity|].
  destruct (trimEnd s) as [|d t] eqn:E.
  - destruct (is_white_space c) eqn:Ec; simpl; [reflexivity|]. rewrite Ec. reflexivity.
  - simpl in *. rewrite IH. reflexivity.
Qed.

Lemma trim_idempotent (s : string) : trim (trim s) = trim s.
Proof.
  unfold trim.
  rewrite (trimStart_kept (trimEnd (trimStart s)))
    by apply trimEnd_head, trimStart_head.
  apply trimEnd_idempotent.
Qed.

Lemma trimStart_comma_free (s : string) :
  comma_free s = true -> comma_free (trimStart s) = true.
Proof.
  induction s as [|c s IH]; simpl; [reflexivity|].
  intros H. apply andb_true_iff in H. destruct H as [Hc Hs].
  destruct (is_white_space c); [auto|]. simpl. rewrite Hc, Hs. reflexivity.
Qed.

Lemma trimEnd_comma_free (s : string) :
  comma_free s = true -> comma_free (trimEnd s) = true.
Proof.
  induction s as [|c s IH]; simpl; [reflexivity|].
  intros H. apply andb_true_iff in H. destruct H as [Hc Hs].
  specialize (IH Hs). destruct (trimEnd s) as [|d t].
  - destruct (is_white_space c); simpl; [reflexivity|]. rewrite Hc. reflexivity.
  - simpl in *. rewrite Hc, IH. reflexivity.
Qed.

Lemma trim_comma_free (s : string) : comma_free s = true -> comma_free (trim s) = true.
Proof. intros H. apply trimEnd_comma_free, trimStart_comma_free, H. Qed.

Lemma split_comma_pieces (s : string) :
  split_comma s <> [] /\ Forall (fun p => comma_free p = true) (split_comma s).
Proof.
  induction s as [|c s [Hn Hf]]; simpl.
  - split; [discriminate | repeat constructor].
  - destruct (Ascii.eqb c comma) eqn:E.
    + split; [discriminate|]. constructor; [reflexivity | exact Hf].
    + destruct (split_comma s) as [|p ps]; [congruence|].
      split; [discriminate|]. inversion Hf; subst.
      constructor; [|assumption]. simpl. rewrite E. assumption.
Qed.

Lemma Set_has_In (set : list string) (x : string) : Set_has set x = true <-> In x set.
Proof.
  unfold Set_has. rewrite existsb_exists. split.
  - intros (y & Hy & E). apply String.eqb_eq in E. subst. exact Hy.
  - intros H. exists x. split; [exact H | apply String.eqb_refl].
Qed.

Lemma fold_Set_add (array : list string) :
  forall set,
    (forall x, In x (fold_left Set_add array set) <-> In x set \/ In x array)
    /\ (NoDup set -> NoDup (fold_left Set_add array set)).
Proof.
  induction array as [|a array IH]; intros set; simpl.
  - split; [intros x; tauto | auto].
  - destruct (IH (Set_add set a)) as [Hin Hnd]. split.
    + intros x. rewrite Hin. unfold Set_add.
      destruct (Set_has set a) eqn:E.
      * apply Set_has_In in E. split; [tauto|].
        intros [H|[<-|H]]; auto.
      * rewrite in_app_iff. simpl. tauto.
    + intros Hs. apply Hnd. unfold Set_add.
      destruct (Set_has set a) eqn:E; [exact Hs|].
      apply NoDup_app; [exact Hs | repeat constructor; simpl; tauto |].
      intros x Hx [<-|[]]. apply Set_has_In in Hx. congruence.
Qed.

Lemma new_Set_In (array : list string) (x : string) : In x (new_Set array) <-> In x array.
Proof.
  unfold new_Set. destruct (fold_Set_add array []) as [H _]. rewrite H. simpl. tauto.
Qed.

Lemma new_Set_NoDup (array : list string) : NoDup (new_Set array).
Proof.
  unfold new_Set. destruct (fold_Set_add array []) as [_ H]. apply H. constructor.
Qed.

(** X28.  [parsePopulateParam] gives the empty set for an absent or empty
    parameter.  Whatever the parameter is, the set it gives holds no name
    twice, and every name in it is non-empty, holds no comma and has no
    white space at either end. *)
Theorem populate_names_are_clean :
  forall populateStr : option string,
    parsePopulateParam None = []
    /\ parsePopulateParam (Some "") = []
    /\ NoDup (parsePopulateParam populateStr)
    /\ (forall name,
          Set_has (parsePopulateParam populateStr) name = true ->
          name <> "" /\ comma_free name = true /\ trim name = name).
Proof.
  intros populateStr. split; [reflexivity|]. split; [reflexivity|].
  split.
  - destruct populateStr as [s|]; simpl; [|apply new_Set_NoDup].
    destruct (s =? "")%string; apply new_Set_NoDup.
  - intros name H. apply Set_has_In in H.
    destruct populateStr as [s|]; simpl in H; [|contradiction].
    destruct (s =? "")%string; [contradiction|].
    apply (proj1 (new_Set_In _ _)) in H. apply filter_In in H. destruct H as [H Hne].
    apply in_map_iff in H. destruct H as (p & <- & Hp).
    destruct (split_comma_pieces s) as [_ Hf]. rewrite Forall_forall in Hf.
    split; [|split].
    + intros E. rewrite E in Hne. discriminate.
    + apply trim_comma_free, Hf, Hp.
    + apply trim_idempotent.
Qed.

(** The theorem at work: [?populate= student , course,,student ,]. *)
Lemma populate_names_are_clean_witness :
  "course" <> "" /\ comma_free "course" = true /\ trim "course" = "course".
Proof.
  apply (proj2 (proj2 (proj2
           (populate_names_are_clean (Some " student , course,,student ,"))))).
  vm_compute. reflexivity.
Defined.

Lemma split_comma_piece (p : string) : comma_free p = true -> split_comma p = [p].
Proof.
  induction p as [|c p IH]; simpl; [reflexivity|].
  intros H. apply andb_true_iff in H. destruct H as [Hc Hp].
  apply negb_true_iff in Hc. rewrite Hc, (IH Hp). reflexivity.
Qed.

Lemma split_comma_app (p rest : string) :
  comma_free p = true ->
  split_comma (p ++ String comma rest) = p :: split_comma rest.
Proof.
  induction p as [|c p IH]; simpl; [reflexivity|].
  intros H. apply andb_true_iff in H. destruct H as [Hc Hp].
  apply negb_true_iff in Hc. rewrite Hc, (IH Hp). reflexivity.
Qed.

Lemma split_comma_concat (pieces : list string) :
  pieces <> [] -> Forall (fun p => comma_free p = true) pieces ->
  split_comma (String.concat "," pieces) = pieces.
Proof.
  induction pieces as [|p pieces IH]; [congruence|].
  intros _ H. inversion H as [|? ? Hp Hps]; subst.
  destruct pieces as [|q pieces].
  - simpl. apply split_comma_piece, Hp.
  - change (String.concat "," (p :: q :: pieces))
      with (p ++ String comma (String.concat "," (q :: pieces))).
    rewrite split_comma_app by exact Hp. rewrite IH; [reflexivity | discriminate | exact Hps].
Qed.

(** X29.  [parsePopulateParam] undoes the joining of names with commas: for
    any pieces that hold no comma, the set it gives for the pieces joined
    with commas holds exactly the non-empty trimmed pieces, in the order of
    their first occurrence.  White space around a name and empty pieces do
    not count. *)
Theorem populate_of_joined_names :
  forall pieces : list string,
    Forall (fun p => comma_free p = true) pieces ->
    parsePopulateParam (Some (String.concat "," pieces))
    = new_Set (filter (fun p => negb (p =? "")%string) (map trim pieces)).
Proof.
  intros pieces H. unfold parsePopulateParam.
  destruct (String.eqb_spec (String.concat "," pieces) "") as [E|E].
  - destruct pieces as [|p pieces]; [reflexivity|].
    destruct pieces as [|q pieces].
    + simpl in E. subst p. reflexivity.
    + exfalso. change (String.concat "," (p :: q :: pieces))
        with (p ++ String comma (String.concat "," (q :: pieces))) in E.
      destruct p; discriminate.
  - rewrite split_comma_concat; [reflexivity | | exact H].
    intros ->. apply E. reflexivity.
Qed.

(** The theorem at work: the pieces [" student "], ["course"], [""] and
    ["student "]. *)
Lemma populate_of_joined_names_witness :
  parsePopulateParam (Some (String.concat "," [" student "; "course"; ""; "student "]))
  = new_Set (filter (fun p => negb (p =? "")%string)
               (map trim [" student "; "course"; ""; "student "])).
Proof.
  apply (populate_of_joined_names [" student "; "course"; ""; "student "]).
  repeat constructor.
Defined.
